(** * ComicX: layout, export, image request and job tracking

    A shallow embedding of the parts of the comic generator that carry
    control flow of their own:

    - [src/tools/layout_tools.py]: [ComicLayoutTool] (grid geometry and
      panel placement) and [TypographyTool],
    - [src/tools/export_tools.py]: the three exporters and [ExportManager],
    - [src/tools/image_tools.py]: [ModelsLabImageTool._run],
    - [src/tools/pdf_tools.py]: [PDFProcessorTool] and [TextProcessorTool],
    - [src/api/main.py]: the job record written by [generate_comic] and
      [generate_comic_task], the endpoints that read it, and the dialogue
      endpoint,
    - [src/main.py]: the stages of [ComicBookGenerator].

    Python [int] is unbounded, so integers are [Z]; [//] and [%] are the
    floor division and modulo of [Z] (same sign convention as Python) and
    raise on a zero divisor.  Exceptions are the [Raise] branch of [result].
    Calls that leave the process (PIL, the file system, the image service,
    the crews) are oracles: records of operations, pure where the call only
    reads, and threading an abstract world where it writes.  Logging and
    the optional monitoring sessions are left out. *)

From Stdlib Require Import ZArith Lia QArith Qround.
From stdpp Require Import gmap strings list pretty.

Local Open Scope string_scope.
Local Open Scope list_scope.
Local Open Scope Z_scope.

(** ** Python exceptions as an error monad *)

Inductive exn : Type :=
| ZeroDivisionError
| KeyError (key : string)
| IndexError
| ValueError (msg : string)
| OSError (msg : string)
| Exception (msg : string)
| HTTPException (status_code : Z) (detail : string).

Inductive result (A : Type) : Type :=
| Ok (a : A)
| Raise (e : exn).
Arguments Ok {A} a.
Arguments Raise {A} e.

#[global] Instance result_ret : MRet result := fun A a => Ok a.
#[global] Instance result_bind : MBind result := fun A B f m =>
  match m with
  | Ok a => f a
  | Raise e => Raise e
  end.

Definition is_ok {A} (r : result A) : bool :=
  match r with Ok _ => true | Raise _ => false end.

(** [a // b] *)
Definition floordiv (a b : Z) : result Z :=
  if b =? 0 then Raise ZeroDivisionError else Ok (a / b).

(** [a % b] *)
Definition pymod (a b : Z) : result Z :=
  if b =? 0 then Raise ZeroDivisionError else Ok (a mod b).

(** [range(n)]: empty when [n <= 0]. *)
Definition range (n : Z) : list Z := Z.of_nat <$> seq 0 (Z.to_nat n).

(** [len(l)] *)
Definition len {A} (l : list A) : Z := Z.of_nat (length l).

(** Truthiness of an optional string, as in [if not path]: [None] and the
    empty string are false. *)
Definition truthy_str (p : option string) : option string :=
  match p with
  | Some "" => None
  | Some s => Some s
  | None => None
  end.

(** A [for] loop whose body may raise: the state is threaded through the
    iterations and the first exception leaves the loop. *)
Fixpoint for_each {A S : Type} (body : S -> A -> result S) (s : S) (l : list A)
  : result S :=
  match l with
  | [] => Ok s
  | a :: l' => s' ← body s a; for_each body s' l'
  end.

(** ** [layout_tools.py]: data *)

Module LayoutConfig.
Record t : Type := mk {
  page_width : Z;
  page_height : Z;
  margin : Z;
  gutter : Z;
  background_color : string
}.
End LayoutConfig.

Module PanelPosition.
Record t : Type := mk { x : Z; y : Z; width : Z; height : Z }.
End PanelPosition.

(** The [config] dictionary handed to [_run]: every key is optional. *)
Module ConfigDict.
Record t : Type := mk {
  page_width : option Z;
  page_height : option Z;
  margin : option Z;
  gutter : option Z;
  background_color : option string
}.
Definition empty : t := mk None None None None None.
End ConfigDict.

(** [LayoutConfig] built from [config or {}]: a missing key takes the
    class default. *)
Definition LayoutConfig_of (config : option ConfigDict.t) : LayoutConfig.t :=
  let d := default ConfigDict.empty config in
  LayoutConfig.mk
    (default 1200 (ConfigDict.page_width d))
    (default 1600 (ConfigDict.page_height d))
    (default 50 (ConfigDict.margin d))
    (default 20 (ConfigDict.gutter d))
    (default "white" (ConfigDict.background_color d)).

(** A PIL box [[x0, y0, x1, y1]]. *)
Definition Box : Type := Z * Z * Z * Z.

(** ** [ComicLayoutTool]: geometry *)

Module ComicLayoutTool.

Definition _grid_layout (num_panels : Z) (config : LayoutConfig.t)
  : result (list PanelPosition.t) :=
  let positions := [] in
  let cols := if 1 <? num_panels then 2 else 1 in
  rows ← floordiv (num_panels + cols - 1) cols;
  let available_width :=
    LayoutConfig.page_width config - 2 * LayoutConfig.margin config
    - (cols - 1) * LayoutConfig.gutter config in
  let available_height :=
    LayoutConfig.page_height config - 2 * LayoutConfig.margin config
    - (rows - 1) * LayoutConfig.gutter config in
  panel_width ← floordiv available_width cols;
  panel_height ← floordiv available_height rows;
  for_each (fun positions i =>
    row ← floordiv i cols;
    col ← pymod i cols;
    let x := LayoutConfig.margin config + col * (panel_width + LayoutConfig.gutter config) in
    let y := LayoutConfig.margin config + row * (panel_height + LayoutConfig.gutter config) in
    Ok (positions ++ [PanelPosition.mk x y panel_width panel_height]))
    positions (range num_panels).

Definition _dynamic_layout (num_panels : Z) (config : LayoutConfig.t)
  : result (list PanelPosition.t) :=
  _grid_layout num_panels config.

Definition _traditional_layout (num_panels : Z) (config : LayoutConfig.t)
  : result (list PanelPosition.t) :=
  _grid_layout num_panels config.

Definition _calculate_positions (num_panels : Z) (layout_style : string)
  (config : LayoutConfig.t) : result (list PanelPosition.t) :=
  if String.eqb layout_style "grid" then _grid_layout num_panels config
  else if String.eqb layout_style "dynamic" then _dynamic_layout num_panels config
  else if String.eqb layout_style "traditional" then _traditional_layout num_panels config
  else _grid_layout num_panels config.

(** Rendering.

    A page is the [Image] created by [_run] together with the drawing calls
    made on it so far, oldest first.  PIL calls that depend on files or on
    the font engine are oracles; [paste], [rectangle], [ellipse] and [text]
    only record what they draw. *)

Inductive DrawOp (Img Font : Type) : Type :=
| Paste (img : Img) (at_xy : Z * Z)
| Rectangle (box : Box) (fill : option string) (outline : string) (line_width : Z)
| Ellipse (box : Box) (fill : option string) (outline : string) (line_width : Z)
| Text (xy : Z * Z) (text : string) (fill : string) (font : Font).
Arguments Paste {Img Font} img at_xy.
Arguments Rectangle {Img Font} box fill outline line_width.
Arguments Ellipse {Img Font} box fill outline line_width.
Arguments Text {Img Font} xy text fill font.

Module Page.
Record t (Img Font : Type) : Type := mk {
  size : Z * Z;
  color : string;
  ops : list (DrawOp Img Font)
}.
Arguments mk {Img Font} size color ops.
Arguments size {Img Font} t.
Arguments color {Img Font} t.
Arguments ops {Img Font} t.
End Page.

(** The oracles standing for Pillow. *)
Module PIL.
Record t (Img Font : Type) : Type := mk {
  Image_new : Z * Z -> string -> result unit;
  Image_open : string -> result Img;
  resize : Img -> Z * Z -> result Img;
  truetype : string -> Z -> result Font;
  load_default : Font;
  textbbox : Z * Z -> string -> Font -> result Box;
  save : string -> result unit;
  id : Z
}.
Arguments Image_new {Img Font} t.
Arguments Image_open {Img Font} t.
Arguments resize {Img Font} t.
Arguments truetype {Img Font} t.
Arguments load_default {Img Font} t.
Arguments textbbox {Img Font} t.
Arguments save {Img Font} t.
Arguments id {Img Font} t.
End PIL.

(** One entry of a panel's ['text_elements'] list; [None] is a missing key. *)
Module TextElem.
Record t : Type := mk {
  element_type : option string;
  text : option string;
  x : option Z;
  y : option Z;
  font_size : option Z
}.
End TextElem.

(** One entry of [panels]; [None] is a missing key. *)
Module PanelData.
Record t : Type := mk {
  image_path : option string;
  text_elements : option (list TextElem.t)
}.
End PanelData.

Section Rendering.
Context {Img Font : Type} (pil : PIL.t Img Font).

Local Abbreviation PageT := (Page.t Img Font).

Definition draw (page : PageT) (op : DrawOp Img Font) : PageT :=
  Page.mk (Page.size page) (Page.color page) (Page.ops page ++ [op]).

(** The body of the [try] in [_place_panel]; [None] is the early [return]. *)
Definition _place_panel_try (page : PageT) (panel_data : PanelData.t)
  (position : PanelPosition.t) : result (option PageT) :=
  match truthy_str (PanelData.image_path panel_data) with
  | None => Ok None
  | Some panel_image_path =>
      panel_img ← PIL.Image_open pil panel_image_path;
      panel_img ← PIL.resize pil panel_img
        (PanelPosition.width position, PanelPosition.height position);
      let page := draw page
        (Paste panel_img (PanelPosition.x position, PanelPosition.y position)) in
      let page := draw page
        (Rectangle
           (PanelPosition.x position, PanelPosition.y position,
            PanelPosition.x position + PanelPosition.width position,
            PanelPosition.y position + PanelPosition.height position)
           None "black" 2) in
      Ok (Some page)
  end.

(** [_place_panel]: an exception is logged as a warning and swallowed. *)
Definition _place_panel (page : PageT) (panel_data : PanelData.t)
  (position : PanelPosition.t) : PageT :=
  match _place_panel_try page panel_data position with
  | Ok (Some page') => page'
  | Ok None => page
  | Raise _ => page
  end.

Definition _draw_speech_bubble (page : PageT) (text : string) (x y : Z)
  (font : Font) : result PageT :=
  bbox ← PIL.textbbox pil (x, y) text font;
  let '(b0, b1, b2, b3) := bbox in
  let padding := 10 in
  let page := draw page
    (Ellipse (b0 - padding, b1 - padding, b2 + padding, b3 + padding)
       (Some "white") "black" 2) in
  Ok (draw page (Text (x, y) text "black" font)).

Definition _draw_caption (page : PageT) (text : string) (x y : Z)
  (font : Font) : result PageT :=
  bbox ← PIL.textbbox pil (x, y) text font;
  let '(b0, b1, b2, b3) := bbox in
  let padding := 5 in
  let page := draw page
    (Rectangle (b0 - padding, b1 - padding, b2 + padding, b3 + padding)
       (Some "white") "black" 1) in
  Ok (draw page (Text (x, y) text "black" font)).

Definition _draw_sound_effect (page : PageT) (text : string) (x y : Z)
  (font : Font) : result PageT :=
  let page :=
    foldl (fun page offset_x =>
      foldl (fun page offset_y =>
        draw page (Text (x + offset_x, y + offset_y) text "black" font))
        page [-2; 0; 2])
      page [-2; 0; 2] in
  Ok (draw page (Text (x, y) text "yellow" font)).

Definition _add_text_element (page : PageT) (text_elem : TextElem.t) : PageT :=
  let elem_type := default "caption" (TextElem.element_type text_elem) in
  let text := default "" (TextElem.text text_elem) in
  let x := default 0 (TextElem.x text_elem) in
  let y := default 0 (TextElem.y text_elem) in
  let font_size := default 16 (TextElem.font_size text_elem) in
  let font :=
    match PIL.truetype pil
            "/usr/share/fonts/truetype/dejavu/DejaVuSans-Bold.ttf" font_size with
    | Ok font => font
    | Raise _ => PIL.load_default pil
    end in
  let drawn :=
    if String.eqb elem_type "speech_bubble" then _draw_speech_bubble page text x y font
    else if String.eqb elem_type "caption" then _draw_caption page text x y font
    else if String.eqb elem_type "sound_effect" then _draw_sound_effect page text x y font
    else Ok page in
  match drawn with
  | Ok page' => page'
  | Raise _ => page
  end.

(** The first loop of [_run]: [for panel_data, position in zip(...)]. *)
Definition place_panels (page : PageT)
  (placed : list (PanelData.t * PanelPosition.t)) : PageT :=
  foldl (fun page '(panel_data, position) => _place_panel page panel_data position)
    page placed.

(** The second loop of [_run]. *)
Definition add_text_elements (page : PageT) (panels : list PanelData.t) : PageT :=
  foldl (fun page panel_data =>
    match PanelData.text_elements panel_data with
    | Some elems => foldl _add_text_element page elems
    | None => page
    end) page panels.

(** [ComicLayoutTool._run]: the path of the saved page and the page itself.
    Whatever is raised inside is logged and raised again. *)
Definition _run (panels : list PanelData.t) (layout_style : string)
  (config : option ConfigDict.t) : result (string * PageT) :=
  let layout_config := LayoutConfig_of config in
  let size := (LayoutConfig.page_width layout_config,
               LayoutConfig.page_height layout_config) in
  _ ← PIL.Image_new pil size (LayoutConfig.background_color layout_config);
  let page := Page.mk size (LayoutConfig.background_color layout_config) [] in
  panel_positions ← _calculate_positions (len panels) layout_style layout_config;
  let page := place_panels page (zip panels panel_positions) in
  let page := add_text_elements page panels in
  let output_path := "/tmp/page_" +:+ pretty (PIL.id pil) +:+ ".png" in
  _ ← PIL.save pil output_path;
  Ok (output_path, page).

End Rendering.

End ComicLayoutTool.

(** ** Effects outside the process

    The exporters and the image tool act on the file system and on remote
    services.  [IO World A] threads an abstract [World] through such calls;
    a call may change the world and still raise. *)

Definition IO (World A : Type) : Type := World -> result A * World.

#[global] Instance io_ret {World} : MRet (IO World) := fun A a w => (Ok a, w).
#[global] Instance io_bind {World} : MBind (IO World) := fun A B k m w =>
  match m w with
  | (Ok a, w') => k a w'
  | (Raise e, w') => (Raise e, w')
  end.

(** A computation that does not touch the world. *)
Definition lift_result {World A} (r : result A) : IO World A := fun w => (r, w).

(** [try: body  except Exception as e: handler(e)] *)
Definition try_except {World A} (body : IO World A) (handler : exn -> IO World A)
  : IO World A :=
  fun w =>
    match body w with
    | (Ok a, w') => (Ok a, w')
    | (Raise e, w') => handler e w'
    end.

(** [try: body  finally: cleanup], the shape of a [with] block. *)
Definition try_finally {World A} (body : IO World A) (cleanup : IO World unit)
  : IO World A :=
  fun w =>
    match body w with
    | (Ok a, w') =>
        match cleanup w' with
        | (Ok _, w'') => (Ok a, w'')
        | (Raise e, w'') => (Raise e, w'')
        end
    | (Raise e, w') =>
        match cleanup w' with
        | (Ok _, w'') => (Raise e, w'')
        | (Raise e', w'') => (Raise e', w'')
        end
    end.

(** A [for] loop in [IO] with a loop-carried state. *)
Fixpoint io_for {World A S : Type} (body : S -> A -> IO World S) (s : S)
  (l : list A) : IO World S :=
  match l with
  | [] => mret s
  | a :: l' => s' ← body s a; io_for body s' l'
  end.

(** [enumerate(l, start)] *)
Fixpoint enumerate {A} (start : Z) (l : list A) : list (Z * A) :=
  match l with
  | [] => []
  | a :: l' => (start, a) :: enumerate (start + 1) l'
  end.

(** The format spec [:03d] for a non-negative index. *)
Definition fmt_03d (n : Z) : string :=
  let s := pretty n in
  match String.length s with
  | 0%nat => "000"
  | 1%nat => "00" +:+ s
  | 2%nat => "0" +:+ s
  | _ => s
  end.

Definition nl : string := String (Ascii.ascii_of_nat 10) "".

(** ** [export_tools.py] *)

Module ExportResult.
Record t : Type := mk {
  format : string;
  output_path : string;
  file_size : Z;
  page_count : Z
}.
End ExportResult.

(** What the exporters ask of [pathlib], [reportlab], [zipfile] and PIL.
    The path functions are pure; everything else runs in [IO].

    - [Path p] is [str(Path(p))]; [joinpath a b] is [a / b];
    - [mkdir p] is [p.mkdir(parents=True, exist_ok=True)] (the web export
      calls it without [parents] for the images directory);
    - [canvas_new file title author] creates the canvas and sets its
      metadata; [canvas_draw_page page_path] is the body of the page loop
      (open the image, scale and centre it, [drawImage], [showPage]);
      [canvas_save] is [c.save()].  The page size only enters these;
    - [zip_open], [zip_write page_path archive_name], [zip_writestr name
      text] and [zip_close] are the [ZipFile] of the [with] block;
    - [web_save_page page_path optimize web_page_path] opens a page,
      converts and downsizes it when [optimize], and saves it as JPEG;
    - [generate_html title pages] is [_generate_html], a fixed template
      around the page list; [write_text path text] writes it. *)
Module Sys.
Record t (World : Type) : Type := mk {
  Path : string -> string;
  parent : string -> string;
  suffix : string -> string;
  lower : string -> string;
  with_suffix : string -> string -> string;
  joinpath : string -> string -> string;
  mkdir : string -> IO World unit;
  st_size : string -> IO World Z;
  canvas_new : string -> string -> string -> IO World unit;
  canvas_draw_page : string -> IO World unit;
  canvas_save : IO World unit;
  zip_open : string -> IO World unit;
  zip_write : string -> string -> IO World unit;
  zip_writestr : string -> string -> IO World unit;
  zip_close : IO World unit;
  web_save_page : string -> bool -> string -> IO World unit;
  generate_html : string -> list string -> string;
  write_text : string -> string -> IO World unit
}.
Arguments Path {World} t.
Arguments parent {World} t.
Arguments suffix {World} t.
Arguments lower {World} t.
Arguments with_suffix {World} t.
Arguments joinpath {World} t.
Arguments mkdir {World} t.
Arguments st_size {World} t.
Arguments canvas_new {World} t.
Arguments canvas_draw_page {World} t.
Arguments canvas_save {World} t.
Arguments zip_open {World} t.
Arguments zip_write {World} t.
Arguments zip_writestr {World} t.
Arguments zip_close {World} t.
Arguments web_save_page {World} t.
Arguments generate_html {World} t.
Arguments write_text {World} t.
End Sys.

Module PDFExportTool.
Section Tool.
Context {World : Type} (sys : Sys.t World).

(** The outer [except] logs and raises again, so it is left implicit. *)
Definition _run (pages : list string) (output_path title author : string)
  : IO World ExportResult.t :=
  let output_file := Sys.Path sys output_path in
  _ ← Sys.mkdir sys (Sys.parent sys output_file);
  _ ← Sys.canvas_new sys output_file title author;
  _ ← io_for (fun (_ : unit) page_path =>
         try_except (Sys.canvas_draw_page sys page_path) (fun _ => mret ()))
       () pages;
  _ ← Sys.canvas_save sys;
  file_size ← Sys.st_size sys output_file;
  mret (ExportResult.mk "pdf" output_file file_size (len pages)).

End Tool.
End PDFExportTool.

Module CBZExportTool.
Section Tool.
Context {World : Type} (sys : Sys.t World).

Definition _run (pages : list string) (output_path title : string)
  : IO World ExportResult.t :=
  let output_file := Sys.Path sys output_path in
  _ ← Sys.mkdir sys (Sys.parent sys output_file);
  let output_file :=
    if String.eqb (Sys.lower sys (Sys.suffix sys output_file)) ".cbz"
    then output_file
    else Sys.with_suffix sys output_file ".cbz" in
  _ ← Sys.zip_open sys output_file;
  _ ← try_finally
        (_ ← io_for (fun (_ : unit) '(idx, page_path) =>
                try_except
                  (let archive_name :=
                     "page_" +:+ fmt_03d idx +:+ Sys.suffix sys (Sys.Path sys page_path) in
                   Sys.zip_write sys page_path archive_name)
                  (fun _ => mret ()))
              () (enumerate 1 pages);
         let metadata :=
           "Title: " +:+ title +:+ nl +:+ "Pages: " +:+ pretty (len pages) +:+ nl in
         Sys.zip_writestr sys "ComicInfo.txt" metadata)
        (Sys.zip_close sys);
  file_size ← Sys.st_size sys output_file;
  mret (ExportResult.mk "cbz" output_file file_size (len pages)).

End Tool.
End CBZExportTool.

Module WebExportTool.
Section Tool.
Context {World : Type} (sys : Sys.t World).

(** One iteration of the page loop; the loop state is
    [(total_size, web_pages)]. *)
Definition process_page (optimize : bool) (images_dir : string)
  (state : Z * list string) (entry : Z * string) : IO World (Z * list string) :=
  let '(total_size, web_pages) := state in
  let '(idx, page_path) := entry in
  fun w =>
    let web_page_path :=
      Sys.joinpath sys images_dir ("page_" +:+ fmt_03d idx +:+ ".jpg") in
    match Sys.web_save_page sys page_path optimize web_page_path w with
    | (Raise _, w') => (Ok (total_size, web_pages), w')
    | (Ok _, w') =>
        let web_pages := web_pages ++ ["images/page_" +:+ fmt_03d idx +:+ ".jpg"] in
        match Sys.st_size sys web_page_path w' with
        | (Raise _, w'') => (Ok (total_size, web_pages), w'')
        | (Ok size, w'') => (Ok (total_size + size, web_pages), w'')
        end
    end.

Definition _run (pages : list string) (output_dir title : string)
  (optimize : bool) : IO World ExportResult.t :=
  let output_path := Sys.Path sys output_dir in
  _ ← Sys.mkdir sys output_path;
  let images_dir := Sys.joinpath sys output_path "images" in
  _ ← Sys.mkdir sys images_dir;
  '(total_size, web_pages) ←
    io_for (process_page optimize images_dir) (0, []) (enumerate 1 pages);
  let html_content := Sys.generate_html sys title web_pages in
  let html_path := Sys.joinpath sys output_path "index.html" in
  _ ← Sys.write_text sys html_path html_content;
  mret (ExportResult.mk "web" html_path total_size (len web_pages)).

End Tool.
End WebExportTool.

Module ExportManager.
Section Manager.
Context {World : Type} (sys : Sys.t World).

(** The body of the [try] for one [format_name]. *)
Definition export_format (pages : list string) (output_dir title : string)
  (results : gmap string ExportResult.t) (format_name : string)
  : IO World (gmap string ExportResult.t) :=
  if String.eqb format_name "pdf" then
    result ← PDFExportTool._run sys pages
      (Sys.joinpath sys output_dir (title +:+ ".pdf")) title "AI Generated";
    mret (<["pdf" := result]> results)
  else if String.eqb format_name "cbz" then
    result ← CBZExportTool._run sys pages
      (Sys.joinpath sys output_dir (title +:+ ".cbz")) title;
    mret (<["cbz" := result]> results)
  else if String.eqb format_name "web" then
    result ← WebExportTool._run sys pages
      (Sys.joinpath sys output_dir "web") title true;
    mret (<["web" := result]> results)
  else mret results.

(** The loop of [export_all] started from [results]. *)
Definition export_loop (pages : list string) (output_dir title : string)
  (results : gmap string ExportResult.t) (formats : list string)
  : IO World (gmap string ExportResult.t) :=
  io_for (fun results format_name =>
    try_except (export_format pages output_dir title results format_name)
      (fun _ => mret results))
    results formats.

Definition export_all (pages : list string) (output_dir title : string)
  (formats : list string) : IO World (gmap string ExportResult.t) :=
  export_loop pages output_dir title ∅ formats.

End Manager.
End ExportManager.

(** ** [image_tools.py] *)

Module ImageGenerationResult.
Record t : Type := mk {
  image_url : string;
  prompt : string;
  model : string;
  width : Z;
  height : Z
}.
End ImageGenerationResult.

(** The schema sent to the service ([CommunityText2Image] when
    [community], [RealtimeText2ImageSchema] otherwise, which has no
    [model_id]). *)
Module Text2Image.
Record t : Type := mk {
  community : bool;
  model_id : option string;
  prompt : string;
  negative_prompt : string;
  width : Z;
  height : Z;
  samples : Z;
  num_inference_steps : Z;
  guidance_scale : Q;
  seed : option Z
}.
End Text2Image.

(** The service's answer, a dictionary; [None] is a missing key.  [id] is
    kept as the text an f-string prints for it. *)
Module Response.
Record t : Type := mk {
  status : option string;
  output : option (list string);
  id : option string;
  message : option string
}.
End Response.

(** [o or d] for an optional integer. *)
Definition or_int (o : option Z) (d : Z) : Z :=
  match o with
  | Some 0 => d
  | Some v => v
  | None => d
  end.

(** [o or d] for an optional string. *)
Definition or_str (o : option string) (d : string) : string :=
  match o with
  | Some "" => d
  | Some s => s
  | None => d
  end.

Module ModelsLabImageTool.

Record t : Type := mk {
  model : string;
  width : Z;
  height : Z;
  samples : Z;
  num_inference_steps : Z;
  guidance_scale : Q;
  use_community : bool
}.

Section Tool.
Context {World : Type} (text_to_image : Text2Image.t -> IO World Response.t).

(** [enhanced_prompt]: the style is appended when one is given. *)
Definition enhance (prompt : string) (style : option string) : string :=
  match style with
  | Some "" => prompt
  | Some style => prompt +:+ ", " +:+ style +:+ " style"
  | None => prompt
  end.

(** The schema built in either branch of [if self.use_community]. *)
Definition schema (self : t) (enhanced_prompt : string)
  (negative_prompt : option string) (width height seed : option Z)
  : Text2Image.t :=
  if use_community self then
    Text2Image.mk true (Some (model self)) enhanced_prompt
      (or_str negative_prompt "blurry, low quality, distorted, deformed, ugly")
      (or_int width (ModelsLabImageTool.width self))
      (or_int height (ModelsLabImageTool.height self))
      (samples self) (num_inference_steps self) (guidance_scale self) seed
  else
    Text2Image.mk false None enhanced_prompt
      (or_str negative_prompt "blurry, low quality, distorted")
      (or_int width (ModelsLabImageTool.width self))
      (or_int height (ModelsLabImageTool.height self))
      (samples self) (num_inference_steps self) (guidance_scale self) seed.

(** The [# Handle response] part of [_run]. *)
Definition handle_response (self : t) (enhanced_prompt : string)
  (width height : option Z) (response : Response.t)
  : result ImageGenerationResult.t :=
  if bool_decide (Response.status response = Some "success") then
    match Response.output response with
    | None => Raise (KeyError "output")
    | Some [] => Raise IndexError
    | Some (image_url :: _) =>
        Ok (ImageGenerationResult.mk image_url enhanced_prompt (model self)
              (or_int width (ModelsLabImageTool.width self))
              (or_int height (ModelsLabImageTool.height self)))
    end
  else if bool_decide (Response.status response = Some "processing") then
    Ok (ImageGenerationResult.mk
          ("processing:" +:+ default "None" (Response.id response))
          enhanced_prompt (model self)
          (or_int width (ModelsLabImageTool.width self))
          (or_int height (ModelsLabImageTool.height self)))
  else
    let error_msg := default "Unknown error" (Response.message response) in
    Raise (Exception ("ModelsLab API error: " +:+ error_msg)).

(** [ModelsLabImageTool._run]; the [except] logs and raises again. *)
Definition _run (self : t) (prompt : string) (negative_prompt : option string)
  (width height seed : option Z) (style : option string)
  : IO World ImageGenerationResult.t :=
  let enhanced_prompt := enhance prompt style in
  response ← text_to_image (schema self enhanced_prompt negative_prompt width height seed);
  lift_result (handle_response self enhanced_prompt width height response).

End Tool.
End ModelsLabImageTool.

(** Is this the pending marker that [_run] writes into [image_url]? *)
Definition is_pending (r : ImageGenerationResult.t) : bool :=
  String.prefix "processing:" (ImageGenerationResult.image_url r).

(** ** [models/schemas.py]: the records the orchestrator reads *)

Module ProcessedDocument.
Record t : Type := mk { content : string; language : string; word_count : Z }.
End ProcessedDocument.

Module Panel.
Record t : Type := mk {
  panel_number : Z;
  page_number : Z;
  description : string;
  camera_angle : string;
  mood : string
}.
End Panel.

Module ComicScript.
Record t : Type := mk {
  title : string;
  total_pages : Z;
  total_panels : Z;
  panels : list Panel.t;
  color_palette : list string
}.
End ComicScript.

Module PanelArtwork.
Record t : Type := mk {
  panel_number : Z;
  page_number : Z;
  prompt : string;
  image_url : string
}.
End PanelArtwork.

Module ComicBook.
Record t : Type := mk {
  title : string;
  author : string;
  pages : list string;
  total_pages : Z;
  file_size : Z;
  format : string
}.
End ComicBook.

(** ** [main.py]: [ComicBookGenerator] *)

(** The dictionary built for one panel of the script. *)
Module PanelInput.
Record t : Type := mk {
  panel_number : Z;
  page_number : Z;
  description : string;
  mood : string;
  camera_angle : string;
  art_style : string;
  color_palette : list string;
  characters : list string;
  story_summary : string
}.
End PanelInput.

Module ContentInputs.
Record t : Type := mk {
  content : option string;
  source_language : string;
  target_language : string;
  target_audience : string;
  target_pages : Z;
  art_style : string;
  content_type : string
}.
End ContentInputs.

(** What the orchestrator reads of the content crew's output: [pydantic],
    and [json_dict] already passed through [ComicScript(...)], which may
    reject it. *)
Module ContentOutput.
Record t : Type := mk {
  pydantic : option ComicScript.t;
  json_dict : option (result ComicScript.t)
}.
End ContentOutput.

Module SynthesisInputs.
Record t : Type := mk {
  title : string;
  author : string;
  script : ComicScript.t;
  panel_artworks : list (option PanelArtwork.t);
  output_formats : list string;
  quality : string
}.
End SynthesisInputs.

(** A [CrewOutput] of the visual crew, as far as it is read. *)
Module CrewOutput.
Record t : Type := mk { raw : string; pydantic : option PanelArtwork.t }.
End CrewOutput.

(** The crews are crewAI objects driven by language models: oracles.  The
    single-run fields return the [pydantic] attribute of the crew's output,
    which is all the orchestrator reads of it. *)
Module Crews.
Record t (World : Type) : Type := mk {
  processing_kickoff : string -> string -> IO World (option ProcessedDocument.t);
  content_kickoff : ContentInputs.t -> IO World ContentOutput.t;
  visual_kickoff_for_each : list PanelInput.t -> IO World (list CrewOutput.t);
  synthesis_kickoff : SynthesisInputs.t -> IO World (option ComicBook.t)
}.
Arguments processing_kickoff {World} t.
Arguments content_kickoff {World} t.
Arguments visual_kickoff_for_each {World} t.
Arguments synthesis_kickoff {World} t.
End Crews.

(** [self.config] and the keyword arguments, as far as they are read. *)
Module GeneratorConfig.
Record t : Type := mk {
  target_audience : option string;
  author : option string;
  quality : option string
}.
End GeneratorConfig.

Module Kwargs.
Record t : Type := mk {
  source_language : option string;
  target_language : option string;
  target_audience : option string;
  target_pages : option Z;
  art_style : option string;
  output_formats : option (list string)
}.
End Kwargs.

Module ComicBookGenerator.
Section Generator.
Context {World : Type} (crews : Crews.t World) (config : GeneratorConfig.t).

(** The list comprehension that builds [panel_inputs].  [ComicScript] has
    neither [characters] nor [summary], so the fallbacks apply. *)
Definition panel_inputs (comic_script : ComicScript.t) (art_style : string)
  : list PanelInput.t :=
  (fun panel =>
     PanelInput.mk (Panel.panel_number panel) (Panel.page_number panel)
       (Panel.description panel) (Panel.mood panel) (Panel.camera_angle panel)
       art_style (ComicScript.color_palette comic_script) [] "")
  <$> ComicScript.panels comic_script.

(** Stage 3 of both entry points: [panel_results]. *)
Definition visual_stage (comic_script : ComicScript.t) (art_style : string)
  : IO World (list CrewOutput.t) :=
  Crews.visual_kickoff_for_each crews (panel_inputs comic_script art_style).

(** [[r.pydantic for r in panel_results]], the ["panel_artworks"] entry of
    the synthesis inputs. *)
Definition panel_artworks (panel_results : list CrewOutput.t)
  : list (option PanelArtwork.t) :=
  CrewOutput.pydantic <$> panel_results.

Definition script_of (content_result : ContentOutput.t) : result ComicScript.t :=
  match ContentOutput.pydantic content_result with
  | Some comic_script => Ok comic_script
  | None =>
      match ContentOutput.json_dict content_result with
      | Some parsed => parsed
      | None =>
          Raise (ValueError "Content generation failed: No structured output received")
      end
  end.

(** Stage 4; reading [final_comic.title] fails when [pydantic] is [None]. *)
Definition synthesis_stage (comic_script : ComicScript.t)
  (panel_results : list CrewOutput.t) (output_formats : list string)
  : IO World ComicBook.t :=
  final_comic ← Crews.synthesis_kickoff crews
    (SynthesisInputs.mk (ComicScript.title comic_script)
       (default "AI Generated" (GeneratorConfig.author config))
       comic_script (panel_artworks panel_results) output_formats
       (default "high" (GeneratorConfig.quality config)));
  match final_comic with
  | Some final_comic => mret final_comic
  | None => lift_result (Raise (Exception "'NoneType' object has no attribute 'title'"))
  end.

Definition generate_from_pdf (pdf_path : string) (target_language art_style : string)
  (target_pages : Z) (output_formats : option (list string)) : IO World ComicBook.t :=
  let output_formats :=
    match output_formats with
    | Some [] => ["pdf"]
    | Some l => l
    | None => ["pdf"]
    end in
  processed_doc ← Crews.processing_kickoff crews pdf_path "pdf";
  match processed_doc with
  | None => lift_result (Raise (ValueError "Document processing failed"))
  | Some processed_doc =>
      content_result ← Crews.content_kickoff crews
        (ContentInputs.mk (Some (ProcessedDocument.content processed_doc))
           (ProcessedDocument.language processed_doc) target_language
           (default "general" (GeneratorConfig.target_audience config))
           target_pages art_style "story");
      comic_script ← lift_result (script_of content_result);
      panel_results ← visual_stage comic_script art_style;
      synthesis_stage comic_script panel_results output_formats
  end.

Definition generate_from_text (text : option string) (title : string)
  (kwargs : Kwargs.t) : IO World ComicBook.t :=
  content_result ← Crews.content_kickoff crews
    (ContentInputs.mk text
       (default "en" (Kwargs.source_language kwargs))
       (default "en" (Kwargs.target_language kwargs))
       (default "general" (Kwargs.target_audience kwargs))
       (default 20 (Kwargs.target_pages kwargs))
       (default "cartoon" (Kwargs.art_style kwargs))
       "story");
  comic_script ← lift_result (script_of content_result);
  panel_results ← visual_stage comic_script (default "cartoon" (Kwargs.art_style kwargs));
  synthesis_stage comic_script panel_results
    (default ["pdf"] (Kwargs.output_formats kwargs)).

End Generator.
End ComicBookGenerator.

(** ** [api/main.py]: the job registry *)

Module JobResult.
Record t : Type := mk {
  title : string;
  total_pages : Z;
  format : string;
  file_path : option string
}.
End JobResult.

(** One value of the [jobs] dictionary.  [progress] is a Python float; the
    literals written to it are kept as exact decimals. *)
Module Job.
Record t : Type := mk {
  job_id : string;
  status : string;
  progress : Q;
  current_stage : string;
  message : string;
  result : option JobResult.t
}.
Definition set_status (v : string) (j : t) : t :=
  mk (job_id j) v (progress j) (current_stage j) (message j) (result j).
Definition set_progress (v : Q) (j : t) : t :=
  mk (job_id j) (status j) v (current_stage j) (message j) (result j).
Definition set_current_stage (v : string) (j : t) : t :=
  mk (job_id j) (status j) (progress j) v (message j) (result j).
Definition set_message (v : string) (j : t) : t :=
  mk (job_id j) (status j) (progress j) (current_stage j) v (result j).
Definition set_result (v : option JobResult.t) (j : t) : t :=
  mk (job_id j) (status j) (progress j) (current_stage j) (message j) v.
End Job.

(** The module-level [jobs] dictionary, with every state it went through
    (oldest first) so that properties of all updates can be stated. *)
Module Registry.
Record t : Type := mk {
  jobs : gmap string Job.t;
  history : list (gmap string Job.t)
}.
Definition write (jobs' : gmap string Job.t) (r : t) : t :=
  mk jobs' (history r ++ [jobs']).
End Registry.

(** The [data] dictionary handed to the background task. *)
Module TaskData.
Record t : Type := mk {
  text : option string;
  title : string;
  art_style : string;
  target_pages : Z;
  target_audience : string;
  file_path : option string
}.
End TaskData.

(** [str(e)] *)
Definition str_exn (e : exn) : string :=
  match e with
  | ZeroDivisionError => "integer division or modulo by zero"
  | KeyError key => "'" +:+ key +:+ "'"
  | IndexError => "list index out of range"
  | ValueError msg => msg
  | OSError msg => msg
  | Exception msg => msg
  | HTTPException _ detail => detail
  end.

Module Api.
Section Endpoints.
(** [W] is the world of the generator; the registry is kept apart from it,
    as the generator has no access to [jobs]. *)
Context {W : Type}.
Context (generate_from_pdf : string -> string -> Z -> IO W ComicBook.t).
Context (generate_from_text : option string -> string -> Kwargs.t -> IO W ComicBook.t).
Context (uuid4 : IO W string).
Context (save_upload : string -> string -> IO W string).

Local Abbreviation St := (Registry.t * W)%type.

(** Run a computation of the outer world, leaving the registry alone. *)
Definition outside {A} (m : IO W A) : IO St A :=
  fun '(r, w) => let '(a, w') := m w in (a, (r, w')).

(** [jobs[job_id] = job] *)
Definition jobs_set (job_id : string) (job : Job.t) : IO St unit :=
  fun '(r, w) => (Ok (), (Registry.write (<[job_id := job]> (Registry.jobs r)) r, w)).

(** [jobs[job_id][key] = value], with [upd] the change of that key. *)
Definition setitem (job_id : string) (upd : Job.t -> Job.t) : IO St unit :=
  fun '(r, w) =>
    match Registry.jobs r !! job_id with
    | None => (Raise (KeyError job_id), (r, w))
    | Some job =>
        (Ok (), (Registry.write (<[job_id := upd job]> (Registry.jobs r)) r, w))
    end.

Definition generate_comic_task (job_id : string) (data : TaskData.t) : IO St unit :=
  try_except
    (_ ← setitem job_id (Job.set_status "processing");
     _ ← setitem job_id (Job.set_current_stage "Initializing");
     _ ← setitem job_id (Job.set_progress (1 # 10));
     _ ← setitem job_id (Job.set_current_stage "Generating content");
     _ ← setitem job_id (Job.set_progress (3 # 10));
     _ ← setitem job_id (Job.set_current_stage "Generating artwork");
     _ ← setitem job_id (Job.set_progress (6 # 10));
     result ←
       match truthy_str (TaskData.file_path data) with
       | Some file_path =>
           outside (generate_from_pdf file_path (TaskData.art_style data)
                      (TaskData.target_pages data))
       | None =>
           outside (generate_from_text (TaskData.text data) (TaskData.title data)
                      (Kwargs.mk None None None (Some (TaskData.target_pages data))
                         (Some (TaskData.art_style data)) None))
       end;
     _ ← setitem job_id (Job.set_status "completed");
     _ ← setitem job_id (Job.set_current_stage "Complete");
     _ ← setitem job_id (Job.set_progress 1);
     setitem job_id (Job.set_result (Some
       (JobResult.mk (ComicBook.title result) (ComicBook.total_pages result)
          (ComicBook.format result) (head (ComicBook.pages result))))))
    (fun e =>
       _ ← setitem job_id (Job.set_status "failed");
       setitem job_id (Job.set_message (str_exn e))).

(** [generate_comic]: registers the job and returns what it hands to
    [background_tasks.add_task]. *)
Definition generate_comic (text : option string) (title art_style : string)
  (target_pages : Z) (target_audience : string) (file : option string)
  : IO St (string * TaskData.t) :=
  try_except
    (job_id ← outside uuid4;
     _ ← jobs_set job_id
           (Job.mk job_id "queued" 0 "Queued" "Comic generation queued" None);
     file_path ←
       match file with
       | Some filename => temp_path ← outside (save_upload job_id filename); mret (Some temp_path)
       | None => mret None
       end;
     mret (job_id,
           TaskData.mk text title art_style target_pages target_audience file_path))
    (fun e => lift_result (Raise (HTTPException 500 (str_exn e)))).

(** A request followed by its background task. *)
Definition submit_and_run (text : option string) (title art_style : string)
  (target_pages : Z) (target_audience : string) (file : option string)
  : IO St string :=
  '(job_id, data) ← generate_comic text title art_style target_pages target_audience file;
  _ ← generate_comic_task job_id data;
  mret job_id.

End Endpoints.
End Api.

(** The states a job of [job_id] went through, oldest first. *)
Definition job_history (job_id : string) (history : list (gmap string Job.t))
  : list Job.t :=
  omap (fun jobs => jobs !! job_id) history.

(** ** Vocabulary of the statements *)

(** The values [_grid_layout] gives its local variables, for [num_panels]
    other than zero. *)
Module GridVars.
Definition cols (num_panels : Z) : Z := if 1 <? num_panels then 2 else 1.
Definition rows (num_panels : Z) : Z :=
  (num_panels + cols num_panels - 1) / cols num_panels.
Definition panel_width (num_panels : Z) (config : LayoutConfig.t) : Z :=
  (LayoutConfig.page_width config - 2 * LayoutConfig.margin config
   - (cols num_panels - 1) * LayoutConfig.gutter config) / cols num_panels.
Definition panel_height (num_panels : Z) (config : LayoutConfig.t) : Z :=
  (LayoutConfig.page_height config - 2 * LayoutConfig.margin config
   - (rows num_panels - 1) * LayoutConfig.gutter config) / rows num_panels.
Definition position (num_panels : Z) (config : LayoutConfig.t) (i : Z)
  : PanelPosition.t :=
  PanelPosition.mk
    (LayoutConfig.margin config
     + (i mod cols num_panels)
       * (panel_width num_panels config + LayoutConfig.gutter config))
    (LayoutConfig.margin config
     + (i / cols num_panels)
       * (panel_height num_panels config + LayoutConfig.gutter config))
    (panel_width num_panels config)
    (panel_height num_panels config).
End GridVars.

(** The grid as the design describes it: [cols] is 2 for more than one
    panel and 1 otherwise, [rows] is the ceiling of the rational
    [n / cols], the interior left by the margins and gutters is divided
    evenly (whole pixels) among the cells, the cells are listed in reading
    order, row after row and left to right in each row, and the panels
    take the first [n] of them. *)
Module GridSpec.
Definition cols (n : Z) : Z := if n >? 1 then 2 else 1.
Definition rows (n : Z) : Z := Qceiling (inject_Z n / inject_Z (cols n)).
Definition cell_width (n : Z) (config : LayoutConfig.t) : Z :=
  (LayoutConfig.page_width config - 2 * LayoutConfig.margin config
   - (cols n - 1) * LayoutConfig.gutter config) / cols n.
Definition cell_height (n : Z) (config : LayoutConfig.t) : Z :=
  (LayoutConfig.page_height config - 2 * LayoutConfig.margin config
   - (rows n - 1) * LayoutConfig.gutter config) / rows n.
Definition cell (n : Z) (config : LayoutConfig.t) (row col : Z) : PanelPosition.t :=
  PanelPosition.mk
    (LayoutConfig.margin config + col * (cell_width n config + LayoutConfig.gutter config))
    (LayoutConfig.margin config + row * (cell_height n config + LayoutConfig.gutter config))
    (cell_width n config)
    (cell_height n config).
Definition cells (n : Z) (config : LayoutConfig.t) : list PanelPosition.t :=
  row ← range (rows n); cell n config row <$> range (cols n).
Definition grid (n : Z) (config : LayoutConfig.t) : list PanelPosition.t :=
  take (Z.to_nat n) (cells n config).
End GridSpec.

(** The page interior can hold the gutters of the grid for [num_panels]
    panels: what the margins leave is at least as wide as the gutters
    between the columns and as high as those between the rows. *)
Definition holds_gutters (num_panels : Z) (config : LayoutConfig.t) : Prop :=
  2 * LayoutConfig.margin config
  + (GridVars.cols num_panels - 1) * LayoutConfig.gutter config
  <= LayoutConfig.page_width config
  /\ 2 * LayoutConfig.margin config
     + (GridVars.rows num_panels - 1) * LayoutConfig.gutter config
     <= LayoutConfig.page_height config.





(** The box [_place_panel] outlines for a position. *)
Definition outline_of (position : PanelPosition.t) : Box :=
  (PanelPosition.x position, PanelPosition.y position,
   PanelPosition.x position + PanelPosition.width position,
   PanelPosition.y position + PanelPosition.height position).

(** The panel borders drawn on a page: its unfilled rectangles, oldest
    first (caption boxes are filled). *)
Definition panel_borders {Img Font} (page : ComicLayoutTool.Page.t Img Font) : list Box :=
  omap (fun op =>
          match op with
          | ComicLayoutTool.Rectangle box None _ _ => Some box
          | _ => None
          end) (ComicLayoutTool.Page.ops page).

(** The panel has artwork and it can be opened and resized to its
    rectangle. *)
Definition artwork_loads {Img Font} (pil : ComicLayoutTool.PIL.t Img Font)
  (placed : ComicLayoutTool.PanelData.t * PanelPosition.t) : bool :=
  match truthy_str (ComicLayoutTool.PanelData.image_path placed.1) with
  | None => false
  | Some path =>
      is_ok (panel_img ← ComicLayoutTool.PIL.Image_open pil path;
             ComicLayoutTool.PIL.resize pil panel_img
               (PanelPosition.width placed.2, PanelPosition.height placed.2))
  end.

(** A Pillow on which every call succeeds: images are named by their
    paths, the page object has id 1. *)
Definition pil_all_ok : ComicLayoutTool.PIL.t string unit :=
  ComicLayoutTool.PIL.mk string unit
    (fun _ _ => Ok ()) (fun path => Ok path) (fun img _ => Ok img)
    (fun _ _ => Ok ()) () (fun _ _ _ => Ok (0, 0, 0, 0)) (fun _ => Ok ()) 1.

(** Five panels of one page; the third has no artwork. *)
Definition five_panels_third_missing : list ComicLayoutTool.PanelData.t :=
  [ComicLayoutTool.PanelData.mk (Some "panel_1.png") None;
   ComicLayoutTool.PanelData.mk (Some "panel_2.png") None;
   ComicLayoutTool.PanelData.mk None None;
   ComicLayoutTool.PanelData.mk (Some "panel_4.png") None;
   ComicLayoutTool.PanelData.mk (Some "panel_5.png") None].

(** The exporter call [export_all] makes for one format name; [None] for a
    name it does not know, which it passes over in silence. *)
Definition run_format {World} (sys : Sys.t World) (pages : list string)
  (output_dir title format_name : string) : option (IO World ExportResult.t) :=
  if String.eqb format_name "pdf" then
    Some (PDFExportTool._run sys pages
            (Sys.joinpath sys output_dir (title +:+ ".pdf")) title "AI Generated")
  else if String.eqb format_name "cbz" then
    Some (CBZExportTool._run sys pages
            (Sys.joinpath sys output_dir (title +:+ ".cbz")) title)
  else if String.eqb format_name "web" then
    Some (WebExportTool._run sys pages (Sys.joinpath sys output_dir "web") title true)
  else None.

Definition known_format (format_name : string) : bool :=
  String.eqb format_name "pdf" || String.eqb format_name "cbz"
  || String.eqb format_name "web".

(** The exports attempted for a list of formats, in order, each with its
    outcome, every one starting in the world its predecessor left. *)
Fixpoint attempts {World} (sys : Sys.t World) (pages : list string)
  (output_dir title : string) (formats : list string) (w : World)
  : list (string * result ExportResult.t) :=
  match formats with
  | [] => []
  | format_name :: formats =>
      match run_format sys pages output_dir title format_name with
      | None => attempts sys pages output_dir title formats w
      | Some run =>
          let '(outcome, w') := run w in
          (format_name, outcome) :: attempts sys pages output_dir title formats w'
      end
  end.

(** For the example worlds: a path split at its last dot. *)
Fixpoint split_suffix (p : string) : string * string :=
  match p with
  | EmptyString => ("", "")
  | String c rest =>
      let '(stem, suffix) := split_suffix rest in
      match suffix with
      | EmptyString =>
          if Ascii.eqb c (Ascii.ascii_of_nat 46) then ("", p) else (String c stem, "")
      | _ => (String c stem, suffix)
      end
  end.

(** A file system as the state of the world: the set of the files that
    exist, and the file of the PDF canvas that is open.  Reading a file
    that does not exist fails; writing a file creates or replaces it.
    Directories are not recorded. *)
Definition FileSystem : Type := gset string * option string.

Definition missing_file {A} (path : string) (w : FileSystem) : result A * FileSystem :=
  (Raise (OSError ("No such file or directory: '" +:+ path +:+ "'")), w).

Definition sys_files : Sys.t FileSystem :=
  Sys.mk FileSystem
    (fun p => p) (fun p => p) (fun p => (split_suffix p).2) (fun s => s)
    (fun p suffix => (split_suffix p).1 +:+ suffix) (fun a b => a +:+ "/" +:+ b)
    (fun _ w => (Ok (), w))
    (fun p w => if bool_decide (p ∈ w.1) then (Ok 1000, w) else missing_file p w)
    (fun file _ _ w => (Ok (), (w.1, Some file)))
    (fun p w => if bool_decide (p ∈ w.1) then (Ok (), w) else missing_file p w)
    (fun w =>
       match w.2 with
       | Some file => (Ok (), ({[file]} ∪ w.1, None))
       | None => (Raise (OSError "no canvas"), w)
       end)
    (fun file w => (Ok (), ({[file]} ∪ w.1, w.2)))
    (fun p _ w => if bool_decide (p ∈ w.1) then (Ok (), w) else missing_file p w)
    (fun _ _ w => (Ok (), w))
    (fun w => (Ok (), w))
    (fun p _ web_page_path w =>
       if bool_decide (p ∈ w.1) then (Ok (), ({[web_page_path]} ∪ w.1, w.2))
       else missing_file p w)
    (fun _ _ => "")
    (fun p _ w => (Ok (), ({[p]} ∪ w.1, w.2))).

(** Whether the page loop of the web export saves the image of each of
    [entries], in order, when it starts in [w]. *)
Fixpoint save_outcomes {World} (sys : Sys.t World) (optimize : bool)
  (images_dir : string) (entries : list (Z * string)) (w : World) : list bool :=
  match entries with
  | [] => []
  | entry :: entries =>
      is_ok (Sys.web_save_page sys entry.2 optimize
               (Sys.joinpath sys images_dir ("page_" +:+ fmt_03d entry.1 +:+ ".jpg")) w).1
      :: save_outcomes sys optimize images_dir entries
           (WebExportTool.process_page sys optimize images_dir (0, []) entry w).2
  end.

(** The same for a run of the web export started in [w]: the loop starts
    after the two directories are made. *)
Definition web_save_outcomes {World} (sys : Sys.t World) (pages : list string)
  (output_dir : string) (optimize : bool) (w : World) : list bool :=
  let output_path := Sys.Path sys output_dir in
  let images_dir := Sys.joinpath sys output_path "images" in
  save_outcomes sys optimize images_dir (enumerate 1 pages)
    (Sys.mkdir sys images_dir (Sys.mkdir sys output_path w).2).2.

(** The number of page images saved. *)
Definition saved_pages (outcomes : list bool) : Z :=
  len (filter (fun saved => saved = true) outcomes).

(** A world in which saving the PDF canvas fails and nothing else does. *)
Definition sys_pdf_fails : Sys.t unit :=
  Sys.mk unit
    (fun p => p) (fun p => p) (fun p => (split_suffix p).2) (fun s => s)
    (fun p suffix => (split_suffix p).1 +:+ suffix) (fun a b => a +:+ "/" +:+ b)
    (fun _ w => (Ok (), w)) (fun _ w => (Ok 1000, w))
    (fun _ _ _ w => (Ok (), w)) (fun _ w => (Ok (), w))
    (fun w => (Raise (OSError "Permission denied"), w))
    (fun _ w => (Ok (), w)) (fun _ _ w => (Ok (), w)) (fun _ _ w => (Ok (), w))
    (fun w => (Ok (), w))
    (fun _ _ _ w => (Ok (), w))
    (fun _ _ => "") (fun _ _ w => (Ok (), w)).

(** The outcomes recorded in a result map: successes are inserted under
    their format name, failures leave the map as it is. *)
Definition record_outcomes (results : gmap string ExportResult.t)
  (outcomes : list (string * result ExportResult.t)) : gmap string ExportResult.t :=
  foldl (fun results '(format_name, outcome) =>
           match outcome with
           | Ok r => <[format_name := r]> results
           | Raise _ => results
           end) results outcomes.

(** An image service that answers from a queue, the state of the world:
    each request takes the next answer. *)
Definition text_to_image_queue (request : Text2Image.t)
  : IO (list Response.t) Response.t :=
  fun w =>
    match w with
    | response :: rest => (Ok response, rest)
    | [] => (Raise (Exception "connection refused"), [])
    end.

(** The tool as [VisualCrew] configures it by default. *)
Definition default_image_tool : ModelsLabImageTool.t :=
  ModelsLabImageTool.mk "flux" 1024 1024 1 30 (15 # 2) true.


(** A visual crew that draws every panel it is given and answers in the
    order asked, and the other crews doing nothing of interest. *)
Definition drawn (input : PanelInput.t) : CrewOutput.t :=
  CrewOutput.mk ""
    (Some (PanelArtwork.mk (PanelInput.panel_number input) (PanelInput.page_number input)
             (PanelInput.description input) "https://cdn/panel.png")).

Definition crews_in_order : Crews.t unit :=
  Crews.mk unit
    (fun _ _ w => (Ok None, w))
    (fun _ w => (Ok (ContentOutput.mk None None), w))
    (fun inputs w => (Ok (drawn <$> inputs), w))
    (fun _ w => (Ok None, w)).

Definition three_panel_script : ComicScript.t :=
  ComicScript.mk "Robot" 1 3
    [Panel.mk 1 1 "A robot walks" "wide" "calm";
     Panel.mk 2 1 "It finds a flower" "close-up" "wonder";
     Panel.mk 3 1 "It kneels" "medium" "tender"]
    ["#ffcc00"].

(** The artworks are one per panel, in the order of the panels, each
    carrying the [panel_number] of its panel. *)
Definition in_script_order (panels : list Panel.t)
  (artworks : list (option PanelArtwork.t)) : Prop :=
  Forall2 (fun panel artwork =>
             exists a, artwork = Some a
                       /\ PanelArtwork.panel_number a = Panel.panel_number panel)
    panels artworks.



(** The transitions of the job state machine. *)
Inductive status_step : string -> string -> Prop :=
| queued_to_processing : status_step "queued" "processing"
| processing_to_completed : status_step "processing" "completed"
| processing_to_failed : status_step "processing" "failed".

(** Every element of a list is related to the next one. *)
Fixpoint chain {A} (R : A -> A -> Prop) (l : list A) : Prop :=
  match l with
  | a :: rest => match rest with b :: _ => R a b /\ chain R rest | [] => True end
  | [] => True
  end.

(** An update of a job keeps its status or takes a transition. *)
Definition status_fine (j j' : Job.t) : Prop :=
  Job.status j' = Job.status j \/ status_step (Job.status j) (Job.status j').

(** An update of a job does not lower its progress. *)
Definition progress_fine (j j' : Job.t) : Prop :=
  (Job.progress j <= Job.progress j')%Q.

(** The successive values of a job under a list of updates. *)
Fixpoint scan (job : Job.t) (updates : list (Job.t -> Job.t)) : list Job.t :=
  match updates with
  | [] => []
  | upd :: updates => upd job :: scan (upd job) updates
  end.

(** The updates [generate_comic_task] makes before it calls the generator,
    after the generator returned, and after it raised. *)
Definition updates_before : list (Job.t -> Job.t) :=
  [Job.set_status "processing"; Job.set_current_stage "Initializing";
   Job.set_progress (1 # 10); Job.set_current_stage "Generating content";
   Job.set_progress (3 # 10); Job.set_current_stage "Generating artwork";
   Job.set_progress (6 # 10)].

Definition updates_completed (result : ComicBook.t) : list (Job.t -> Job.t) :=
  [Job.set_status "completed"; Job.set_current_stage "Complete"; Job.set_progress 1;
   Job.set_result (Some
     (JobResult.mk (ComicBook.title result) (ComicBook.total_pages result)
        (ComicBook.format result) (head (ComicBook.pages result))))].

Definition updates_failed (e : exn) : list (Job.t -> Job.t) :=
  [Job.set_status "failed"; Job.set_message (str_exn e)].

(** The record [generate_comic] registers. *)
Definition queued_job (job_id : string) : Job.t :=
  Job.mk job_id "queued" 0 "Queued" "Comic generation queued" None.

(** Since the registry was [r0], the job [job_id] has been written to and
    no other: it now holds [job], went through [hist], and every other key
    kept the value it had in [r0] in every state since. *)
Definition tracks (job_id : string) (r0 r : Registry.t) (job : Job.t)
  (hist : list Job.t) : Prop :=
  Registry.jobs r !! job_id = Some job
  /\ job_history job_id (Registry.history r) = hist
  /\ exists ext,
       Registry.history r = Registry.history r0 ++ ext
       /\ Forall (fun jobs' => forall other, other <> job_id ->
                    jobs' !! other = Registry.jobs r0 !! other)
            (Registry.jobs r :: ext).

(** The endpoints wired to the generator over [crews_in_order], with a
    fixed job id and an upload that always succeeds. *)
Definition api_generate_from_pdf (pdf_path art_style : string) (target_pages : Z)
  : IO unit ComicBook.t :=
  ComicBookGenerator.generate_from_pdf crews_in_order
    (GeneratorConfig.mk None None None) pdf_path "en" art_style target_pages None.

Definition api_generate_from_text (text : option string) (title : string)
  (kwargs : Kwargs.t) : IO unit ComicBook.t :=
  ComicBookGenerator.generate_from_text crews_in_order
    (GeneratorConfig.mk None None None) text title kwargs.

Definition api_uuid4 : IO unit string := fun w => (Ok "job-1", w).

Definition api_save_upload (job_id filename : string) : IO unit string :=
  fun w => (Ok ("temp/" +:+ job_id +:+ "_" +:+ filename), w).

(** ** [layout_tools.py]: [TypographyTool] *)

(** The values a typography configuration holds. *)
Inductive PyVal : Type :=
| VNone
| VBool (b : bool)
| VInt (n : Z)
| VStr (s : string).

Module TypographyTool.

(** The [defaults] dictionary of [_run], one dictionary per text type. *)
Definition defaults : gmap string (gmap string PyVal) :=
  list_to_map
    [("dialogue",
      list_to_map
        [("font_family", VStr "DejaVu Sans"); ("font_size", VInt 16);
         ("font_weight", VStr "normal"); ("color", VStr "black");
         ("background", VStr "white"); ("border", VBool true)]);
     ("caption",
      list_to_map
        [("font_family", VStr "DejaVu Sans"); ("font_size", VInt 14);
         ("font_weight", VStr "normal"); ("color", VStr "black");
         ("background", VStr "lightyellow"); ("border", VBool true)]);
     ("sound_effect",
      list_to_map
        [("font_family", VStr "DejaVu Sans Bold"); ("font_size", VInt 24);
         ("font_weight", VStr "bold"); ("color", VStr "red");
         ("background", VNone); ("border", VBool false);
         ("outline", VBool true)])].

(** [TypographyTool._run]: [dict.update] lets the right-hand dictionary
    win, which is the left-biased union with [style] on the left. *)
Definition _run (text text_type : string) (style : option (gmap string PyVal))
  : gmap string PyVal :=
  let style := default ∅ style in
  let config := default (defaults !!! "dialogue") (defaults !! text_type) in
  let config := style ∪ config in
  let config := <["text" := VStr text]> config in
  let config := <["text_type" := VStr text_type]> config in
  config.

End TypographyTool.

(** ** [api/main.py]: reading the registry *)

Module FileResponse.
Record t : Type := mk { path : string; media_type : string; filename : string }.
End FileResponse.

Module ApiQueries.
Section Endpoints.
Context {W : Type}.
(** [Path.exists] *)
Context (path_exists : string -> IO W bool).

(** [get_job_status]: the record itself, as a [JobStatusResponse]. *)
Definition get_job_status (job_id : string) : IO (Registry.t * W) Job.t :=
  fun '(r, w) =>
    match Registry.jobs r !! job_id with
    | None => (Raise (HTTPException 404 "Job not found"), (r, w))
    | Some job => (Ok job, (r, w))
    end.

(** [download_comic] *)
Definition download_comic (job_id format : string)
  : IO (Registry.t * W) FileResponse.t :=
  fun '(r, w) =>
    match Registry.jobs r !! job_id with
    | None => (Raise (HTTPException 404 "Job not found"), (r, w))
    | Some job =>
        if negb (String.eqb (Job.status job) "completed") then
          (Raise (HTTPException 400 "Comic not ready"), (r, w))
        else
          match Job.result job with
          | None => (Raise (HTTPException 404 "File not found"), (r, w))
          | Some result =>
              match truthy_str (JobResult.file_path result) with
              | None => (Raise (HTTPException 404 "File not found"), (r, w))
              | Some file_path =>
                  match path_exists file_path w with
                  | (Raise e, w') => (Raise e, (r, w'))
                  | (Ok false, w') =>
                      (Raise (HTTPException 404 "File not found"), (r, w'))
                  | (Ok true, w') =>
                      (Ok (FileResponse.mk file_path
                             (if String.eqb format "pdf" then "application/pdf"
                              else "application/x-cbz")
                             (JobResult.title result +:+ "." +:+ format)),
                       (r, w'))
                  end
              end
          end
    end.

End Endpoints.
End ApiQueries.

(** ** [layout_tools.py]: [ComicLayoutTool._run] on values of any type

    [config] and the panels are [Dict[str, Any]], and [_run] checks no
    value before it uses it.  [ComicLayoutTool] above is [_run] on
    dictionaries whose values have the types the code expects; here a value
    may be anything, as far as [_run] can tell the difference outside the
    [try] blocks of [_place_panel] and [_add_text_element]. *)

(** The value under a key of [config] as [LayoutConfig] sees it: no such
    key, a value pydantic accepts for the field, or one it rejects. *)
Inductive ConfigValue (A : Type) : Type :=
| NoKey
| Accepted (a : A)
| Rejected.
Arguments NoKey {A}.
Arguments Accepted {A} a.
Arguments Rejected {A}.

Module AnyConfig.
Record t : Type := mk {
  page_width : ConfigValue Z;
  page_height : ConfigValue Z;
  margin : ConfigValue Z;
  gutter : ConfigValue Z;
  background_color : ConfigValue string
}.
End AnyConfig.

(** The value under ['text_elements']: no such key, a value that cannot
    be iterated, named by its type, or a sequence, whose items are
    dictionaries ([Some]) or anything else ([None]). *)
Inductive TextElements : Type :=
| NoTextElements
| NotIterable (type_name : string)
| Elements (items : list (option ComicLayoutTool.TextElem.t)).

Module AnyPanel.
Record t : Type := mk {
  image_path : option string;
  text_elements : TextElements
}.
End AnyPanel.

Module ComicLayoutToolAny.

Definition accepted {A} (v : ConfigValue A) : bool :=
  match v with
  | Rejected => false
  | _ => true
  end.

Definition field {A} (d : A) (v : ConfigValue A) : A :=
  match v with
  | Accepted a => a
  | _ => d
  end.

(** [LayoutConfig] built from [config or {}]: a missing key takes the class
    default, and a rejected value raises pydantic's ValidationError, a
    ValueError. *)
Definition LayoutConfig_new (config : option AnyConfig.t) : result LayoutConfig.t :=
  match config with
  | None => Ok (LayoutConfig_of None)
  | Some d =>
      if accepted (AnyConfig.page_width d) && accepted (AnyConfig.page_height d)
         && accepted (AnyConfig.margin d) && accepted (AnyConfig.gutter d)
         && accepted (AnyConfig.background_color d)
      then
        Ok (LayoutConfig.mk
              (field 1200 (AnyConfig.page_width d))
              (field 1600 (AnyConfig.page_height d))
              (field 50 (AnyConfig.margin d))
              (field 20 (AnyConfig.gutter d))
              (field "white" (AnyConfig.background_color d)))
      else Raise (ValueError "validation error for LayoutConfig")
  end.

Section Rendering.
Context {Img Font : Type} (pil : ComicLayoutTool.PIL.t Img Font).

Local Abbreviation PageT := (ComicLayoutTool.Page.t Img Font).

(** [_add_text_element] on any item: reading a key of something that is
    not a dictionary raises inside the [try], and nothing is drawn. *)
Definition _add_text_element (page : PageT)
  (text_elem : option ComicLayoutTool.TextElem.t) : PageT :=
  match text_elem with
  | Some text_elem => ComicLayoutTool._add_text_element pil page text_elem
  | None => page
  end.

(** The first loop of [_run]; [_place_panel] reads ['image_path'] only. *)
Definition place_panels (page : PageT)
  (placed : list (AnyPanel.t * PanelPosition.t)) : PageT :=
  foldl (fun page '(panel_data, position) =>
           ComicLayoutTool._place_panel pil page
             (ComicLayoutTool.PanelData.mk (AnyPanel.image_path panel_data) None)
             position)
    page placed.

(** The second loop of [_run]: the [for] over ['text_elements'] is not
    inside a [try], so a value that cannot be iterated raises TypeError. *)
Definition add_text_elements (page : PageT) (panels : list AnyPanel.t)
  : result PageT :=
  for_each (fun page panel_data =>
    match AnyPanel.text_elements panel_data with
    | NoTextElements => Ok page
    | NotIterable type_name =>
        Raise (Exception ("'" +:+ type_name +:+ "' object is not iterable"))
    | Elements items => Ok (foldl _add_text_element page items)
    end) page panels.

Definition _run (panels : list AnyPanel.t) (layout_style : string)
  (config : option AnyConfig.t) : result (string * PageT) :=
  layout_config ← LayoutConfig_new config;
  let size := (LayoutConfig.page_width layout_config,
               LayoutConfig.page_height layout_config) in
  _ ← ComicLayoutTool.PIL.Image_new pil size
        (LayoutConfig.background_color layout_config);
  let page :=
    ComicLayoutTool.Page.mk size (LayoutConfig.background_color layout_config) [] in
  panel_positions ←
    ComicLayoutTool._calculate_positions (len panels) layout_style layout_config;
  let page := place_panels page (zip panels panel_positions) in
  page ← add_text_elements page panels;
  let output_path :=
    "/tmp/page_" +:+ pretty (ComicLayoutTool.PIL.id pil) +:+ ".png" in
  _ ← ComicLayoutTool.PIL.save pil output_path;
  Ok (output_path, page).

End Rendering.

End ComicLayoutToolAny.

(** Values of the expected types, as values of any type. *)
Definition any_value {A} (v : option A) : ConfigValue A :=
  match v with
  | Some a => Accepted a
  | None => NoKey
  end.

Definition any_config (config : ConfigDict.t) : AnyConfig.t :=
  AnyConfig.mk
    (any_value (ConfigDict.page_width config)) (any_value (ConfigDict.page_height config))
    (any_value (ConfigDict.margin config)) (any_value (ConfigDict.gutter config))
    (any_value (ConfigDict.background_color config)).

Definition any_panel (panel_data : ComicLayoutTool.PanelData.t) : AnyPanel.t :=
  AnyPanel.mk (ComicLayoutTool.PanelData.image_path panel_data)
    match ComicLayoutTool.PanelData.text_elements panel_data with
    | Some elems => Elements (Some <$> elems)
    | None => NoTextElements
    end.

(** The value under ['text_elements'], if any, can be iterated. *)
Definition text_iterable (panel_data : AnyPanel.t) : bool :=
  match AnyPanel.text_elements panel_data with
  | NotIterable _ => false
  | _ => true
  end.

(** A panel whose ['text_elements'] is [None]. *)
Definition panel_with_none_text : AnyPanel.t :=
  AnyPanel.mk (Some "panel_1.png") (NotIterable "NoneType").

(** ** Vocabulary of the further statements *)



(** Every operation of an export other than the work on a single page
    succeeds. *)
Definition setup_never_fails {World} (sys : Sys.t World) : Prop :=
  (forall p w, is_ok (Sys.mkdir sys p w).1 = true)
  /\ (forall p w, is_ok (Sys.st_size sys p w).1 = true)
  /\ (forall file title author w, is_ok (Sys.canvas_new sys file title author w).1 = true)
  /\ (forall w, is_ok (Sys.canvas_save sys w).1 = true)
  /\ (forall p w, is_ok (Sys.zip_open sys p w).1 = true)
  /\ (forall name content w, is_ok (Sys.zip_writestr sys name content w).1 = true)
  /\ (forall w, is_ok (Sys.zip_close sys w).1 = true)
  /\ (forall p content w, is_ok (Sys.write_text sys p content w).1 = true).

(** A world in which no page can be drawn, archived or saved, and
    everything else succeeds. *)
Definition sys_pages_fail : Sys.t unit :=
  Sys.mk unit
    (fun p => p) (fun p => p) (fun p => (split_suffix p).2) (fun s => s)
    (fun p suffix => (split_suffix p).1 +:+ suffix) (fun a b => a +:+ "/" +:+ b)
    (fun _ w => (Ok (), w)) (fun _ w => (Ok 22, w))
    (fun _ _ _ w => (Ok (), w))
    (fun _ w => (Raise (OSError "cannot identify image file"), w))
    (fun w => (Ok (), w))
    (fun _ w => (Ok (), w))
    (fun _ _ w => (Raise (OSError "No such file or directory"), w))
    (fun _ _ w => (Ok (), w))
    (fun w => (Ok (), w))
    (fun _ _ _ w => (Raise (OSError "cannot identify image file"), w))
    (fun _ _ => "") (fun _ _ w => (Ok (), w)).

(** The generator call [generate_comic_task] makes for [data]. *)
Definition generator_call {W}
  (generate_from_pdf : string -> string -> Z -> IO W ComicBook.t)
  (generate_from_text : option string -> string -> Kwargs.t -> IO W ComicBook.t)
  (data : TaskData.t) : IO W ComicBook.t :=
  match truthy_str (TaskData.file_path data) with
  | Some file_path =>
      generate_from_pdf file_path (TaskData.art_style data) (TaskData.target_pages data)
  | None =>
      generate_from_text (TaskData.text data) (TaskData.title data)
        (Kwargs.mk None None None (Some (TaskData.target_pages data))
           (Some (TaskData.art_style data)) None)
  end.

(** A job after a list of updates. *)
Definition updated (job : Job.t) (updates : list (Job.t -> Job.t)) : Job.t :=
  foldl (fun job upd => upd job) job updates.

(** A generator that fails as the service is down, and one that returns a
    comic of two pages. *)
Definition generator_down : IO unit ComicBook.t :=
  fun w => (Raise (Exception "ModelsLab API error: service unavailable"), w).

Definition robot_comic : ComicBook.t :=
  ComicBook.mk "Robot" "AI Generated" ["out/page_1.png"; "out/page_2.png"] 2 0 "pdf".

Definition generator_done : IO unit ComicBook.t := fun w => (Ok robot_comic, w).

Definition every_path_exists (p : string) : IO unit bool := fun w => (Ok true, w).

(** A registry holding one queued job. *)
Definition registry_one_queued : Registry.t :=
  Registry.mk {["job-1" := queued_job "job-1"]} [].

Definition text_task : TaskData.t :=
  TaskData.mk (Some "A robot finds a flower in a desert.") "Robot" "cartoon" 1
    "general" None.

(** Crews whose document processing succeeds; the others as in
    [crews_in_order]. *)
Definition desert_document : ProcessedDocument.t :=
  ProcessedDocument.mk "A robot finds a flower in a desert." "en" 8.

Definition crews_with_document : Crews.t unit :=
  Crews.mk unit
    (fun _ _ w => (Ok (Some desert_document), w))
    (fun _ w => (Ok (ContentOutput.mk (Some three_panel_script) None), w))
    (fun inputs w => (Ok (drawn <$> inputs), w))
    (fun inputs w =>
       (Ok (Some (ComicBook.mk (SynthesisInputs.title inputs)
                    (SynthesisInputs.author inputs) ["out/page_1.png"] 1 0 "pdf")), w)).

(** ** Python [str] values

    Where the code looks inside a string (splits it, strips it, tests it for
    a character), a [str] is modelled as the list of its code points. *)

Module PyStr.

Definition t : Type := list N.

(** An ASCII literal. *)
Definition lit (s : string) : t := Ascii.N_of_ascii <$> String.list_ascii_of_string s.

(** [str.isspace] for one character: the code points Python treats as
    whitespace, which [strip()] and [split()] use. *)
Definition isspace (c : N) : bool :=
  ((9 <=? c) && (c <=? 13) || (28 <=? c) && (c <=? 32) || (c =? 133) || (c =? 160)
   || (c =? 5760) || (8192 <=? c) && (c <=? 8202) || (c =? 8232) || (c =? 8233)
   || (c =? 8239) || (c =? 8287) || (c =? 12288))%N.

Fixpoint lstrip (s : t) : t :=
  match s with
  | [] => []
  | c :: s' => if isspace c then lstrip s' else s
  end.

Fixpoint rstrip (s : t) : t :=
  match s with
  | [] => []
  | c :: s' =>
      match rstrip s' with
      | [] => if isspace c then [] else [c]
      | r => c :: r
      end
  end.

(** [s.strip()] *)
Definition strip (s : t) : t := rstrip (lstrip s).

(** The pieces of [s] between the characters [is_sep] holds of; there is
    always at least one piece. *)
Fixpoint split_by (is_sep : N -> bool) (s : t) : list t :=
  match s with
  | [] => [[]]
  | c :: s' =>
      if is_sep c then [] :: split_by is_sep s'
      else match split_by is_sep s' with
           | piece :: pieces => (c :: piece) :: pieces
           | [] => [[c]]
           end
  end.

(** [s.split(sep)] for a one-character [sep]. *)
Definition split (sep : N) (s : t) : list t := split_by (N.eqb sep) s.

(** [s.split()]: runs of whitespace separate, and no piece is empty. *)
Definition words (s : t) : list t := filter (fun w => w <> []) (split_by isspace s).

(** [sep.join(parts)] *)
Fixpoint join (sep : t) (parts : list t) : t :=
  match parts with
  | [] => []
  | p :: rest =>
      match rest with
      | [] => p
      | _ => p ++ sep ++ join sep rest
      end
  end.

(** [sep in s] for a one-character [sep]. *)
Definition contains (sep : N) (s : t) : bool := bool_decide (sep ∈ s).

(** [s.split(sep, 1)] for a one-character [sep]: cut at the first [sep]. *)
Fixpoint split1 (sep : N) (s : t) : list t :=
  match s with
  | [] => [[]]
  | c :: s' =>
      if (c =? sep)%N then [[]; s']
      else match split1 sep s' with
           | piece :: pieces => (c :: piece) :: pieces
           | [] => [[c]]
           end
  end.

End PyStr.

(** ** [pdf_tools.py]: [TextProcessorTool] *)

(** What the text tool asks of the file system.  [read_text path encoding]
    is the [with open(path, 'r', encoding=encoding)] block: [Some content],
    [None] for a [UnicodeDecodeError], the one exception the loop catches. *)
Module TextFiles.
Record t (World : Type) : Type := mk {
  path_exists : string -> IO World bool;
  read_text : string -> string -> IO World (option PyStr.t)
}.
Arguments path_exists {World} t.
Arguments read_text {World} t.
End TextFiles.

Module TextProcessorTool.

Definition _normalize_text (text : PyStr.t) : PyStr.t :=
  let lines := PyStr.strip <$> PyStr.split 10 text in
  let lines := filter (fun line => line <> []) lines in
  PyStr.join [10; 10]%N lines.

Section Tool.
Context {World : Type} (fs : TextFiles.t World).

(** The loop over [encodings]: the first reading that decodes is
    normalized and returned. *)
Fixpoint try_encodings (text_path : string) (encodings : list string)
  : IO World PyStr.t :=
  match encodings with
  | [] =>
      lift_result
        (Raise (ValueError
                  ("Could not decode file with any supported encoding: " +:+ text_path)))
  | encoding :: encodings' =>
      content ← TextFiles.read_text fs text_path encoding;
      match content with
      | Some content => mret (_normalize_text content)
      | None => try_encodings text_path encodings'
      end
  end.

(** [FileNotFoundError] is the [OSError] raised here. *)
Definition _process_file (text_path : string) : IO World PyStr.t :=
  found ← TextFiles.path_exists fs text_path;
  if negb found then
    lift_result (Raise (OSError ("Text file not found: " +:+ text_path)))
  else try_encodings text_path ["utf-8"; "latin-1"; "cp1252"; "iso-8859-1"].

Definition _run (text_path : option string) (text_content : option PyStr.t)
  : IO World PyStr.t :=
  match truthy_str text_path with
  | Some text_path => _process_file text_path
  | None =>
      match text_content with
      | Some (c :: s) => mret (_normalize_text (c :: s))
      | _ =>
          lift_result
            (Raise (ValueError "Either text_path or text_content must be provided"))
      end
  end.

End Tool.
End TextProcessorTool.

(** ** [pdf_tools.py]: [PDFProcessorTool] *)

(** A local variable that a [try] body fills and that is read after the
    [except]: it is threaded beside the world, so that what was stored
    before an exception is still there. *)
Definition with_local {L World A} (m : IO World A) : IO (L * World) A :=
  fun '(l, w) => let '(r, w') := m w in (r, (l, w')).

Definition modify_local {L World} (f : L -> L) : IO (L * World) unit :=
  fun '(l, w) => (Ok (), (f l, w)).

(** [x = init; try: body; except Exception: pass; return x] *)
Definition collect {L World} (init : L) (body : IO (L * World) unit)
  : World -> L * World :=
  fun w => (body (init, w)).2.

(** A value of the [metadata] dictionary: an entry of the document
    information, the default [''] of [.get], or the page count. *)
Inductive MetaVal (Info : Type) : Type :=
| MInfo (o : Info)
| MStr (s : PyStr.t)
| MInt (n : Z).
Arguments MInfo {Info} o.
Arguments MStr {Info} s.
Arguments MInt {Info} n.

Module PDFExtractionResult.
Record t (Info : Type) : Type := mk {
  text : PyStr.t;
  images : list string;
  metadata : gmap string (MetaVal Info);
  page_count : Z;
  word_count : Z
}.
Arguments mk {Info}.
Arguments text {Info} t.
Arguments images {Info} t.
Arguments metadata {Info} t.
Arguments page_count {Info} t.
Arguments word_count {Info} t.
End PDFExtractionResult.

(** What the PDF tool asks of [pathlib], [pdfplumber] and [PyPDF2].

    - [plumber_open path], [plumber_pages] and [plumber_close] are
      [pdfplumber.open], [pdf.pages] and the end of the [with] block;
    - [extract_text page] is [page.extract_text()], which may be [None];
    - [page_images page] is [page.images], [None] when [hasattr] fails;
    - [file_open path], [PdfReader] and [file_close] are the [with
      open(pdf_path, 'rb')] block and the reader made in it;
    - [reader_metadata] is one reading of [pdf_reader.metadata];
      [reader_num_pages] is [len(pdf_reader.pages)]. *)
Module PdfLib.
Record t (World Page Image Info : Type) : Type := mk {
  path_exists : string -> IO World bool;
  plumber_open : string -> IO World unit;
  plumber_pages : IO World (list Page);
  plumber_close : IO World unit;
  extract_text : Page -> IO World (option PyStr.t);
  page_images : Page -> IO World (option (list Image));
  file_open : string -> IO World unit;
  PdfReader : IO World unit;
  file_close : IO World unit;
  reader_metadata : IO World (option (gmap string Info));
  reader_num_pages : IO World Z
}.
Arguments path_exists {World Page Image Info} t.
Arguments plumber_open {World Page Image Info} t.
Arguments plumber_pages {World Page Image Info} t.
Arguments plumber_close {World Page Image Info} t.
Arguments extract_text {World Page Image Info} t.
Arguments page_images {World Page Image Info} t.
Arguments file_open {World Page Image Info} t.
Arguments PdfReader {World Page Image Info} t.
Arguments file_close {World Page Image Info} t.
Arguments reader_metadata {World Page Image Info} t.
Arguments reader_num_pages {World Page Image Info} t.
End PdfLib.

Module PDFProcessorTool.
Section Tool.
Context {World Page Image Info : Type} (lib : PdfLib.t World Page Image Info).

(** One iteration of the page loop of [_extract_text]. *)
Definition add_page_text (text_parts : list PyStr.t) (page : Page)
  : IO World (list PyStr.t) :=
  text ← PdfLib.extract_text lib page;
  mret (match text with
        | Some (c :: s) => text_parts ++ [c :: s]
        | _ => text_parts
        end).

Definition _extract_text (pdf_path : string) : IO World PyStr.t :=
  _ ← PdfLib.plumber_open lib pdf_path;
  text_parts ← try_finally
    (pages ← PdfLib.plumber_pages lib;
     io_for add_page_text [] pages)
    (PdfLib.plumber_close lib);
  mret (PyStr.join [10; 10]%N text_parts).

Definition _extract_images (pdf_path : string) : World -> list string * World :=
  collect []
    (_ ← with_local (PdfLib.plumber_open lib pdf_path);
     try_finally
       (pages ← with_local (PdfLib.plumber_pages lib);
        io_for (fun (_ : unit) '(page_num, page) =>
          page_images ← with_local (PdfLib.page_images lib page);
          match page_images with
          | None => mret ()
          | Some page_images =>
              io_for (fun (_ : unit) '(img_idx, _) =>
                modify_local (fun images =>
                  images ++ ["page_" +:+ pretty page_num +:+ "_img_" +:+ pretty img_idx]))
                () (enumerate 0 page_images)
          end)
          () (enumerate 0 pages))
       (with_local (PdfLib.plumber_close lib))).

(** [pdf_reader.metadata.get(key, '')] *)
Definition get_info (key : string) : IO (gmap string (MetaVal Info) * World) (MetaVal Info) :=
  info ← with_local (PdfLib.reader_metadata lib);
  match info with
  | Some info => mret (default (MStr []) (MInfo <$> info !! key))
  | None =>
      lift_result (Raise (Exception "'NoneType' object has no attribute 'get'"))
  end.

(** Truthiness of [pdf_reader.metadata]: [None] and the empty dictionary
    are false. *)
Definition truthy_info (info : option (gmap string Info)) : bool :=
  match info with
  | Some info => bool_decide (info <> ∅)
  | None => false
  end.

Definition _extract_metadata (pdf_path : string)
  : World -> gmap string (MetaVal Info) * World :=
  collect ∅
    (_ ← with_local (PdfLib.file_open lib pdf_path);
     try_finally
       (_ ← with_local (PdfLib.PdfReader lib);
        info ← with_local (PdfLib.reader_metadata lib);
        _ ← (if truthy_info info then
               title ← get_info "/Title";
               author ← get_info "/Author";
               subject ← get_info "/Subject";
               creator ← get_info "/Creator";
               producer ← get_info "/Producer";
               modify_local (fun metadata =>
                 list_to_map
                   [("title", title); ("author", author); ("subject", subject);
                    ("creator", creator); ("producer", producer)] ∪ metadata)
             else mret ());
        num_pages ← with_local (PdfLib.reader_num_pages lib);
        modify_local (<["page_count" := MInt num_pages]>))
       (with_local (PdfLib.file_close lib))).

(** [metadata.get("page_count", 0)] as the [int] field [page_count]. *)
Definition page_count_of (metadata : gmap string (MetaVal Info)) : result Z :=
  match metadata !! "page_count" with
  | None => Ok 0
  | Some (MInt n) => Ok n
  | Some _ => Raise (ValueError "page_count: Input should be a valid integer")
  end.

(** The outer [except] logs and raises again, so it is left implicit;
    [FileNotFoundError] is the [OSError] raised here. *)
Definition _run (pdf_path : string) : IO World (PDFExtractionResult.t Info) :=
  found ← PdfLib.path_exists lib pdf_path;
  if negb found then
    lift_result (Raise (OSError ("PDF file not found: " +:+ pdf_path)))
  else
    text_content ← _extract_text pdf_path;
    images ← (fun w => let '(images, w') := _extract_images pdf_path w in (Ok images, w'));
    metadata ← (fun w => let '(metadata, w') := _extract_metadata pdf_path w in (Ok metadata, w'));
    let word_count := len (PyStr.words text_content) in
    page_count ← lift_result (page_count_of metadata);
    mret (PDFExtractionResult.mk text_content images metadata page_count word_count).

End Tool.
End PDFProcessorTool.

(** ** [api/main.py]: the dialogue endpoint *)

Module DialogueRequest.
Record t : Type := mk {
  characters : list PyStr.t;
  scene_description : PyStr.t;
  context : PyStr.t;
  num_exchanges : Z
}.
End DialogueRequest.

Module DialogueLine.
Record t : Type := mk { character : PyStr.t; text : PyStr.t }.
End DialogueLine.

Module ApiDialogue.
Section Endpoint.
Context {W : Type}.
(** [LLMFactory.get_llm(task_type=...)], [llm.invoke(prompt)] and the
    [content] of the response. *)
Context (llm_invoke : string -> PyStr.t -> IO W PyStr.t).

Definition dialogue_prompt (request : DialogueRequest.t) : PyStr.t :=
  PyStr.lit "Write dialogue for "
  ++ PyStr.join (PyStr.lit ", ") (DialogueRequest.characters request)
  ++ PyStr.lit " in this scene: " ++ DialogueRequest.scene_description request
  ++ PyStr.lit ". Context: " ++ DialogueRequest.context request
  ++ PyStr.lit ". Exchanges: "
  ++ PyStr.lit (pretty (DialogueRequest.num_exchanges request))
  ++ PyStr.lit ".".

(** The body of the loop over [lines]; the unpacking of [line.split(":",
    1)] needs two pieces. *)
Definition parse_line (dialogue : list DialogueLine.t) (line : PyStr.t)
  : result (list DialogueLine.t) :=
  if PyStr.contains 58 line then
    match PyStr.split1 58 line with
    | [char; text] =>
        Ok (dialogue ++ [DialogueLine.mk (PyStr.strip char) (PyStr.strip text)])
    | [_] => Raise (ValueError "not enough values to unpack (expected 2, got 1)")
    | _ => Raise (ValueError "too many values to unpack (expected 2)")
    end
  else Ok dialogue.

Definition generate_dialogue (request : DialogueRequest.t)
  : IO W (list DialogueLine.t) :=
  try_except
    (content ← llm_invoke "dialogue" (dialogue_prompt request);
     let lines := PyStr.split 10 content in
     dialogue ← lift_result (for_each parse_line [] lines);
     match dialogue with
     | [] =>
         match DialogueRequest.characters request with
         | first :: _ => mret [DialogueLine.mk first content]
         | [] => lift_result (Raise IndexError)
         end
     | _ => mret dialogue
     end)
    (fun e => lift_result (Raise (HTTPException 500 (str_exn e)))).

End Endpoint.
End ApiDialogue.

(** *** Vocabulary of the statements on these tools *)

(** Running [f] on every element in turn, as the page loop does. *)
Fixpoint io_mapM {World A B} (f : A -> IO World B) (l : list A) : IO World (list B) :=
  match l with
  | [] => mret []
  | a :: l' => b ← f a; bs ← io_mapM f l'; mret (b :: bs)
  end.

(** A text file that is not valid UTF-8 and reads as Latin-1. *)
Definition latin1_file : TextFiles.t unit :=
  TextFiles.mk unit
    (fun _ w => (Ok true, w))
    (fun _ encoding w =>
       if String.eqb encoding "utf-8" then (Ok None, w)
       else (Ok (Some [32; 233; 116; 233; 32; 10; 10; 10; 9; 111; 107; 32]%N), w)).

(** A two-page document whose metadata cannot be read; its second page
    has no text. *)
Definition two_page_pdf : PdfLib.t unit Z unit unit :=
  PdfLib.mk unit Z unit unit
    (fun _ w => (Ok true, w))
    (fun _ w => (Ok (), w))
    (fun w => (Ok [0; 1], w))
    (fun w => (Ok (), w))
    (fun page w => (Ok (if page =? 0 then Some (PyStr.lit "A robot wakes") else None), w))
    (fun page w => (if page =? 0 then Ok (Some [(); ()]) else Raise (Exception "bad stream"), w))
    (fun _ w => (Ok (), w))
    (fun w => (Raise (Exception "EOF marker not found"), w))
    (fun w => (Ok (), w))
    (fun w => (Ok None, w))
    (fun w => (Ok 2, w)).

(** A language model that answers with two spoken lines and a stage
    direction. *)
Definition scripted_llm : string -> PyStr.t -> IO unit PyStr.t :=
  fun _ _ w =>
    (Ok (PyStr.lit "Robot: Hello" ++ [10%N] ++ PyStr.lit "(a pause)" ++ [10%N]
         ++ PyStr.lit " Flower : Hi: there "), w).

(** The lines [_normalize_text] keeps: not empty, stripped, and without a
    newline. *)
Definition kept_line (line : PyStr.t) : Prop :=
  line <> [] /\ PyStr.strip line = line /\ Forall (fun c => (10 =? c)%N = false) line.

(** [m] keeps the invariant [I] of the local variable, whether it returns
    or raises. *)
Definition keeps {L World A} (I : L -> Prop) (m : IO (L * World) A) : Prop :=
  forall l w, I l -> I (m (l, w)).2.1.

(** The ["page_count"] entry of a metadata dictionary is absent or an
    integer. *)
Definition page_count_known {Info} (metadata : gmap string (MetaVal Info)) : Prop :=
  metadata !! "page_count" = None \/ exists n, metadata !! "page_count" = Some (MInt n).

(** The page texts that [_extract_text] keeps: [None] and [''] are left
    out. *)
Definition page_texts (texts : list (option PyStr.t)) : list PyStr.t :=
  filter (fun text => text <> []) (default [] <$> texts).

(** [entry] is what the dialogue endpoint makes of [line]: the line cut at
    its first colon, both sides stripped. *)
Definition speaks (line : PyStr.t) (entry : DialogueLine.t) : Prop :=
  exists name said,
    line = name ++ 58%N :: said /\ (58%N ∉ name)
    /\ DialogueLine.character entry = PyStr.strip name
    /\ DialogueLine.text entry = PyStr.strip said.

(** A parsed entry is stripped on both sides, spans no line break, and its
    character holds no colon. *)
Definition clean_entry (entry : DialogueLine.t) : Prop :=
  PyStr.strip (DialogueLine.character entry) = DialogueLine.character entry
  /\ PyStr.strip (DialogueLine.text entry) = DialogueLine.text entry
  /\ (58%N ∉ DialogueLine.character entry)
  /\ (10%N ∉ DialogueLine.character entry)
  /\ (10%N ∉ DialogueLine.text entry).

Definition robot_request : DialogueRequest.t :=
  DialogueRequest.mk [PyStr.lit "Robot"; PyStr.lit "Flower"]
    (PyStr.lit "A desert at dawn") [] 2.

Definition scripted_answer : PyStr.t :=
  PyStr.lit "Robot: Hello" ++ [10%N] ++ PyStr.lit "(a pause)" ++ [10%N]
  ++ PyStr.lit " Flower : Hi: there ".

(** * Properties *)

(** ** Grid geometry *)

(** The default page, 1200 by 1600 with margin 50 and gutter 20, with five
    panels: two columns of width 540, three rows of height 486. *)
Example grid_layout_five_panels :
  ComicLayoutTool._grid_layout 5 (LayoutConfig_of None)
  = Ok [PanelPosition.mk 50 50 540 486; PanelPosition.mk 610 50 540 486;
        PanelPosition.mk 50 556 540 486; PanelPosition.mk 610 556 540 486;
        PanelPosition.mk 50 1062 540 486].
Proof. reflexivity. Qed.

Example grid_layout_one_panel :
  ComicLayoutTool._grid_layout 1 (LayoutConfig_of None)
  = Ok [PanelPosition.mk 50 50 1100 1500].
Proof. reflexivity. Qed.

Example grid_layout_no_panel :
  ComicLayoutTool._grid_layout 0 (LayoutConfig_of None) = Raise ZeroDivisionError.
Proof. reflexivity. Qed.

Lemma range_length n : length (range n) = Z.to_nat n.
Proof. unfold range. by rewrite length_fmap, length_seq. Qed.

Lemma range_lookup n (i : nat) :
  (i < Z.to_nat n)%nat -> range n !! i = Some (Z.of_nat i).
Proof.
  intros Hi. unfold range. rewrite list_lookup_fmap, lookup_seq_lt by done.
  done.
Qed.

Lemma range_elem n i : i ∈ range n <-> 0 <= i < n.
Proof.
  unfold range. rewrite list_elem_of_fmap. split.
  - intros (k & -> & Hk). apply elem_of_seq in Hk. lia.
  - intros Hi. exists (Z.to_nat i). split; [lia|]. apply elem_of_seq. lia.
Qed.

Lemma range_app a b :
  0 <= a -> 0 <= b -> range (a + b) = range a ++ ((fun j => a + j) <$> range b).
Proof.
  intros Ha Hb. unfold range.
  rewrite Z2Nat.inj_add, seq_app, fmap_app by lia. f_equal.
  rewrite Nat.add_0_l, <- (Nat.add_0_r (Z.to_nat a)) at 1.
  rewrite <- fmap_add_seq, <- !list_fmap_compose.
  apply list_fmap_ext. intros _ k _. simpl. lia.
Qed.

Lemma for_each_collect {A B} (g : A -> B) (body : list B -> A -> result (list B)) (l : list A) :
  (forall acc a, a ∈ l -> body acc a = Ok (acc ++ [g a])) ->
  forall acc, for_each body acc l = Ok (acc ++ (g <$> l)).
Proof.
  induction l as [|a l IH]; intros Hbody acc; simpl.
  - by rewrite app_nil_r.
  - rewrite Hbody by left. simpl. unfold mbind, result_bind.
    rewrite IH.
    + by rewrite <- app_assoc.
    + intros acc' a' Ha'. apply Hbody. by right.
Qed.

Lemma floordiv_ok a b : b <> 0 -> floordiv a b = Ok (a / b).
Proof. intros Hb. unfold floordiv. by destruct (Z.eqb_spec b 0). Qed.

Lemma pymod_ok a b : b <> 0 -> pymod a b = Ok (a mod b).
Proof. intros Hb. unfold pymod. by destruct (Z.eqb_spec b 0). Qed.

Lemma cols_cases n :
  (n <= 1 /\ GridVars.cols n = 1) \/ (1 < n /\ GridVars.cols n = 2).
Proof. unfold GridVars.cols. destruct (Z.ltb_spec 1 n); lia. Qed.

Lemma rows_bounds n :
  1 <= n ->
  1 <= GridVars.rows n
  /\ GridVars.cols n * (GridVars.rows n - 1) < n <= GridVars.cols n * GridVars.rows n.
Proof.
  intros Hn. unfold GridVars.rows.
  destruct (cols_cases n) as [[H1 ->]|[H1 ->]].
  - rewrite Z.div_1_r. lia.
  - pose proof (Z.div_mod (n + 2 - 1) 2 ltac:(lia)) as Hdm.
    pose proof (Z.mod_pos_bound (n + 2 - 1) 2 ltac:(lia)). lia.
Qed.

(** For every panel count other than zero the layout is computed, and the
    i-th rectangle is the one of the local variables at index [i]. *)
Lemma _grid_layout_eq n config :
  n <> 0 ->
  ComicLayoutTool._grid_layout n config
  = Ok (GridVars.position n config <$> range n).
Proof.
  intros Hn. unfold ComicLayoutTool._grid_layout.
  fold (GridVars.cols n).
  assert (GridVars.cols n <> 0) as Hc by (destruct (cols_cases n); lia).
  rewrite floordiv_ok by done. simpl. fold (GridVars.rows n).
  rewrite (floordiv_ok _ (GridVars.cols n)) by done. simpl.
  fold (GridVars.panel_width n config).
  assert (GridVars.rows n <> 0) as Hr.
  { destruct (Z_le_gt_dec 1 n) as [H1|H1].
    - pose proof (rows_bounds n H1). lia.
    - unfold GridVars.rows. destruct (cols_cases n) as [[_ ->]|[? _]]; [|lia].
      rewrite Z.div_1_r. lia. }
  rewrite floordiv_ok by done. simpl. fold (GridVars.panel_height n config).
  rewrite (for_each_collect (GridVars.position n config)); [done|].
  intros acc i _. rewrite floordiv_ok, pymod_ok by done. done.
Qed.

Lemma floor_bounds a c : 0 < c -> c * (a / c) <= a < c * (a / c) + c.
Proof.
  intros Hc. pose proof (Z.div_mod a c ltac:(lia)).
  pose proof (Z.mod_pos_bound a c Hc). lia.
Qed.








(** The default page holds the gutters of five panels, and so does a page
    that is nothing but margins and gutters. *)
Example default_page_holds_gutters :
  holds_gutters 5 (LayoutConfig_of None)
  /\ holds_gutters 4 (LayoutConfig.mk 101 101 50 1 "white").
Proof. unfold holds_gutters. vm_compute. intuition discriminate. Qed.


(** ** The grid against its design *)

Lemma spec_cols_eq n : GridSpec.cols n = GridVars.cols n.
Proof.
  unfold GridSpec.cols, GridVars.cols.
  destruct (Z.gtb_spec n 1), (Z.ltb_spec 1 n); lia.
Qed.

Lemma spec_rows_eq n : GridSpec.rows n = GridVars.rows n.
Proof.
  unfold GridSpec.rows, GridVars.rows. rewrite spec_cols_eq.
  destruct (cols_cases n) as [[_ ->]|[_ ->]];
    unfold Qceiling, Qfloor, Qdiv, Qmult, Qinv, Qopp, inject_Z; simpl.
  - rewrite !Z.div_1_r. lia.
  - rewrite Z.mul_1_r. change (Z.pos (1 * 2)) with 2.
    pose proof (floor_bounds (- n) 2 ltac:(lia)).
    pose proof (floor_bounds (n + 2 - 1) 2 ltac:(lia)). lia.
Qed.

Lemma spec_cell_eq n config i :
  GridSpec.cell n config (i / GridSpec.cols n) (i mod GridSpec.cols n)
  = GridVars.position n config i.
Proof.
  unfold GridSpec.cell, GridSpec.cell_width, GridSpec.cell_height, GridVars.position,
    GridVars.panel_width, GridVars.panel_height.
  by rewrite spec_rows_eq, spec_cols_eq.
Qed.

Lemma range_succ (k : nat) : range (Z.of_nat (S k)) = range (Z.of_nat k) ++ [Z.of_nat k].
Proof.
  rewrite Nat2Z.inj_succ, <- Z.add_1_r, range_app by lia.
  f_equal. simpl. f_equal. lia.
Qed.

(** Rows of [c] cells, one after the other, are the cells numbered from 0
    with row [i / c] and column [i mod c]. *)
Lemma reading_order {B} (f : Z -> Z -> B) (c : Z) (k : nat) :
  0 < c ->
  (row ← range (Z.of_nat k); f row <$> range c)
  = (fun i => f (i / c) (i mod c)) <$> range (Z.of_nat k * c).
Proof.
  intros Hc. induction k as [|k IH].
  - done.
  - rewrite range_succ, bind_app, IH. simpl. rewrite app_nil_r.
    replace (Z.of_nat (S k) * c) with (Z.of_nat k * c + c) by lia.
    rewrite range_app, fmap_app by lia. f_equal.
    rewrite <- list_fmap_compose. apply list_fmap_ext.
    intros ix j Hj. apply list_elem_of_lookup_2, range_elem in Hj. simpl.
    assert ((Z.of_nat k * c + j) / c = Z.of_nat k) as ->.
    { rewrite Z.add_comm, Z.div_add by lia. rewrite Z.div_small; lia. }
    assert ((Z.of_nat k * c + j) mod c = j) as ->; [|done].
    rewrite Z.add_comm, Z.mod_add by lia. apply Z.mod_small. lia.
Qed.

Lemma take_range n m : 0 <= n <= m -> take (Z.to_nat n) (range m) = range n.
Proof.
  intros Hnm. replace m with (n + (m - n)) by lia.
  rewrite range_app by lia.
  rewrite <- (range_length n) at 1. apply take_app_length.
Qed.

Lemma spec_grid_eq n config :
  1 <= n -> GridSpec.grid n config = GridVars.position n config <$> range n.
Proof.
  intros Hn. unfold GridSpec.grid, GridSpec.cells.
  destruct (rows_bounds n Hn) as [Hr [_ Hle]].
  assert (0 < GridSpec.cols n) as Hc
    by (rewrite spec_cols_eq; destruct (cols_cases n); lia).
  rewrite <- (Z2Nat.id (GridSpec.rows n)) at 1 by (rewrite spec_rows_eq; lia).
  rewrite (reading_order (GridSpec.cell n config)) by done.
  rewrite Z2Nat.id by (rewrite spec_rows_eq; lia).
  rewrite <- fmap_take, take_range.
  - apply list_fmap_ext. intros _ i _. apply spec_cell_eq.
  - rewrite spec_rows_eq, spec_cols_eq. lia.
Qed.

(** C2: for every panel count [n >= 1] the grid layout is the grid of the
    design: [cols] is 2 when [n > 1] and 1 otherwise, [rows] is the ceiling
    of [n / cols], the interior (page size minus twice the margin minus the
    gutters) is divided evenly among the cells, the i-th panel in reading
    order sits in cell (row [i div cols], column [i mod cols]), and the
    cells after the n-th, when [n < cols * rows], receive no panel. *)
Theorem grid_layout_refines_design n config :
  1 <= n ->
  ComicLayoutTool._grid_layout n config = Ok (GridSpec.grid n config)
  /\ (forall i, 0 <= i < n ->
        GridSpec.grid n config !! Z.to_nat i
        = Some (GridSpec.cell n config (i / GridSpec.cols n) (i mod GridSpec.cols n)))
  /\ length (GridSpec.grid n config) = Z.to_nat n
  /\ n <= GridSpec.cols n * GridSpec.rows n
  /\ (forall k : nat, (Z.to_nat n <= k)%nat -> GridSpec.grid n config !! k = None).
Proof.
  intros Hn. rewrite spec_grid_eq by done.
  assert (length (GridVars.position n config <$> range n) = Z.to_nat n) as Hlen
    by (by rewrite length_fmap, range_length).
  split; [|split; [|split; [|split]]].
  - apply _grid_layout_eq. lia.
  - intros i Hi. rewrite list_lookup_fmap, range_lookup by lia. simpl.
    rewrite Z2Nat.id by lia. by rewrite spec_cell_eq.
  - done.
  - rewrite spec_rows_eq, spec_cols_eq. by apply rows_bounds.
  - intros k Hk. apply lookup_ge_None. lia.
Qed.

Lemma grid_layout_refines_design_witness :
  ComicLayoutTool._grid_layout 5 (LayoutConfig_of None)
  = Ok (GridSpec.grid 5 (LayoutConfig_of None))
  /\ (forall i, 0 <= i < 5 ->
        GridSpec.grid 5 (LayoutConfig_of None) !! Z.to_nat i
        = Some (GridSpec.cell 5 (LayoutConfig_of None)
                  (i / GridSpec.cols 5) (i mod GridSpec.cols 5)))
  /\ length (GridSpec.grid 5 (LayoutConfig_of None)) = Z.to_nat 5
  /\ 5 <= GridSpec.cols 5 * GridSpec.rows 5
  /\ (forall k : nat, (Z.to_nat 5 <= k)%nat ->
        GridSpec.grid 5 (LayoutConfig_of None) !! k = None).
Proof. apply (grid_layout_refines_design 5 (LayoutConfig_of None)). lia. Defined.

(** ** Layout policies and the empty page *)

(** C9: the "dynamic" and "traditional" policies, and any unrecognized
    [layout_style], compute exactly the positions of the "grid" policy, for
    every panel count and configuration. *)
Theorem every_layout_style_is_grid n layout_style config :
  ComicLayoutTool._calculate_positions n layout_style config
  = ComicLayoutTool._calculate_positions n "grid" config
  /\ ComicLayoutTool._calculate_positions n "dynamic" config
     = ComicLayoutTool._grid_layout n config
  /\ ComicLayoutTool._calculate_positions n "traditional" config
     = ComicLayoutTool._grid_layout n config
  /\ ComicLayoutTool._dynamic_layout n config = ComicLayoutTool._grid_layout n config
  /\ ComicLayoutTool._traditional_layout n config = ComicLayoutTool._grid_layout n config.
Proof.
  repeat split; try reflexivity.
  unfold ComicLayoutTool._calculate_positions,
    ComicLayoutTool._dynamic_layout, ComicLayoutTool._traditional_layout.
  simpl. by repeat case_match.
Qed.

Lemma calculate_positions_grid n layout_style config :
  ComicLayoutTool._calculate_positions n layout_style config
  = ComicLayoutTool._grid_layout n config.
Proof.
  unfold ComicLayoutTool._calculate_positions,
    ComicLayoutTool._dynamic_layout, ComicLayoutTool._traditional_layout.
  by repeat case_match.
Qed.

(** C10: the grid layout is total only for [num_panels >= 1].  For
    [num_panels = 0] the row count is 0 and the panel height divides by it,
    so the layout raises; called with an empty panel list the tool raises
    instead of returning an empty position list. *)
Theorem grid_layout_total_iff_panels {Img Font} (pil : ComicLayoutTool.PIL.t Img Font)
  (panels : list ComicLayoutTool.PanelData.t) layout_style config :
  GridVars.rows 0 = 0
  /\ ComicLayoutTool._grid_layout 0 (LayoutConfig_of config) = Raise ZeroDivisionError
  /\ (is_ok (ComicLayoutTool._calculate_positions (len panels) layout_style
               (LayoutConfig_of config)) = true
      <-> 1 <= len panels)
  /\ is_ok (ComicLayoutTool._run pil [] layout_style config) = false
  /\ (is_ok (ComicLayoutTool.PIL.Image_new pil
              (LayoutConfig.page_width (LayoutConfig_of config),
               LayoutConfig.page_height (LayoutConfig_of config))
              (LayoutConfig.background_color (LayoutConfig_of config))) = true ->
      ComicLayoutTool._run pil [] layout_style config = Raise ZeroDivisionError).
Proof.
  split; [done|]. split; [done|]. split; [|split].
  - rewrite calculate_positions_grid. unfold len. destruct panels as [|p panels].
    + split; intros H.
      * by vm_compute in H.
      * change (1 <= 0) in H. lia.
    + rewrite _grid_layout_eq by (simpl length; lia). split; [intros _|done].
      simpl length. lia.
  - unfold ComicLayoutTool._run. destruct (ComicLayoutTool.PIL.Image_new _ _ _); [|done].
    simpl. by rewrite calculate_positions_grid.
  - unfold ComicLayoutTool._run. destruct (ComicLayoutTool.PIL.Image_new _ _ _); [|done].
    intros _. simpl. by rewrite calculate_positions_grid.
Qed.

(** ** Panels without artwork *)

Section Placement.
Context {Img Font : Type} (pil : ComicLayoutTool.PIL.t Img Font).

Lemma place_panel_skips page panel_data position :
  artwork_loads pil (panel_data, position) = false ->
  ComicLayoutTool._place_panel pil page panel_data position = page.
Proof.
  unfold artwork_loads, ComicLayoutTool._place_panel, ComicLayoutTool._place_panel_try.
  simpl. destruct (truthy_str _) as [path|]; [|done].
  destruct (ComicLayoutTool.PIL.Image_open pil path) as [img|e]; [|done]. simpl.
  by destruct (ComicLayoutTool.PIL.resize pil img _).
Qed.

Lemma place_panel_draws page panel_data position :
  artwork_loads pil (panel_data, position) = true ->
  exists img,
    ComicLayoutTool.Page.ops (ComicLayoutTool._place_panel pil page panel_data position)
    = ComicLayoutTool.Page.ops page
      ++ [ComicLayoutTool.Paste img (PanelPosition.x position, PanelPosition.y position);
          ComicLayoutTool.Rectangle (outline_of position) None "black" 2].
Proof.
  unfold artwork_loads, ComicLayoutTool._place_panel, ComicLayoutTool._place_panel_try.
  simpl. destruct (truthy_str _) as [path|]; [|done].
  destruct (ComicLayoutTool.PIL.Image_open pil path) as [img|e]; [|done]. simpl.
  destruct (ComicLayoutTool.PIL.resize pil img _) as [img'|e]; [|done]. simpl.
  intros _. exists img'. by rewrite <- app_assoc.
Qed.

Lemma panel_borders_app (page : ComicLayoutTool.Page.t Img Font) ops :
  panel_borders
    (ComicLayoutTool.Page.mk (ComicLayoutTool.Page.size page)
       (ComicLayoutTool.Page.color page) (ComicLayoutTool.Page.ops page ++ ops))
  = panel_borders page
    ++ omap (fun op =>
               match op with
               | ComicLayoutTool.Rectangle box None _ _ => Some box
               | _ => None
               end) ops.
Proof. unfold panel_borders. simpl. apply omap_app. Qed.

Lemma place_panel_borders page panel_data position :
  panel_borders (ComicLayoutTool._place_panel pil page panel_data position)
  = panel_borders page
    ++ (if artwork_loads pil (panel_data, position) then [outline_of position] else []).
Proof.
  destruct (artwork_loads pil (panel_data, position)) eqn:E.
  - destruct (place_panel_draws page panel_data position E) as [img Hops].
    unfold panel_borders. rewrite Hops, omap_app. done.
  - rewrite place_panel_skips by done. by rewrite app_nil_r.
Qed.

Lemma place_panels_borders placed : forall page,
  panel_borders (ComicLayoutTool.place_panels pil page placed)
  = panel_borders page ++ (outline_of <$> (List.filter (artwork_loads pil) placed).*2).
Proof.
  induction placed as [|[panel_data position] placed IH]; intros page; simpl.
  - by rewrite app_nil_r.
  - unfold ComicLayoutTool.place_panels in *. simpl. rewrite IH, place_panel_borders.
    rewrite <- app_assoc. by destruct (artwork_loads pil (panel_data, position)).
Qed.

Lemma draw_borders (page : ComicLayoutTool.Page.t Img Font) op :
  panel_borders (ComicLayoutTool.draw page op)
  = panel_borders page
    ++ match op with
       | ComicLayoutTool.Rectangle box None _ _ => [box]
       | _ => []
       end.
Proof.
  unfold ComicLayoutTool.draw. rewrite panel_borders_app. f_equal.
  by destruct op as [| ? [] | |].
Qed.

(** Text elements add ellipses, filled boxes and text, never a border. *)
Lemma add_text_element_borders page text_elem :
  panel_borders (ComicLayoutTool._add_text_element pil page text_elem)
  = panel_borders page.
Proof.
  unfold ComicLayoutTool._add_text_element,
    ComicLayoutTool._draw_speech_bubble, ComicLayoutTool._draw_caption,
    ComicLayoutTool._draw_sound_effect, mbind, result_bind.
  repeat case_match; simplify_eq; try done;
    simpl; rewrite ?draw_borders, ?app_nil_r; done.
Qed.

Lemma add_text_elements_borders panels : forall page,
  panel_borders (ComicLayoutTool.add_text_elements pil page panels)
  = panel_borders page.
Proof.
  unfold ComicLayoutTool.add_text_elements.
  induction panels as [|panel_data panels IH]; intros page; simpl; [done|].
  rewrite IH. destruct (ComicLayoutTool.PanelData.text_elements panel_data) as [elems|];
    [|done].
  revert page. induction elems as [|text_elem elems IHe]; intros page; simpl; [done|].
  by rewrite IHe, add_text_element_borders.
Qed.

(** C3 (as amended): when a panel's artwork is missing or cannot be loaded,
    [_place_panel] draws nothing and leaves the page as it was, without
    raising; a panel whose artwork loads is pasted and outlined at its own
    rectangle.  So the page [_run] renders has one rectangle computed per
    panel, and carries the borders of the panels whose artwork loaded, each
    at the position computed for that panel: at most as many as panels. *)
Theorem missing_artwork_draws_nothing :
  (forall page panel_data position,
     artwork_loads pil (panel_data, position) = false ->
     ComicLayoutTool._place_panel pil page panel_data position = page)
  /\ (forall page panel_data position,
        artwork_loads pil (panel_data, position) = true ->
        exists img,
          ComicLayoutTool.Page.ops
            (ComicLayoutTool._place_panel pil page panel_data position)
          = ComicLayoutTool.Page.ops page
            ++ [ComicLayoutTool.Paste img
                  (PanelPosition.x position, PanelPosition.y position);
                ComicLayoutTool.Rectangle (outline_of position) None "black" 2])
  /\ (forall panels layout_style config path page,
        ComicLayoutTool._run pil panels layout_style config = Ok (path, page) ->
        exists positions,
          ComicLayoutTool._grid_layout (len panels) (LayoutConfig_of config) = Ok positions
          /\ length positions = length panels
          /\ panel_borders page
             = outline_of <$> (List.filter (artwork_loads pil) (zip panels positions)).*2
          /\ (length (panel_borders page) <= length panels)%nat).
Proof.
  split; [apply place_panel_skips|]. split; [apply place_panel_draws|].
  intros panels layout_style config path page Hrun.
  unfold ComicLayoutTool._run in Hrun.
  destruct (ComicLayoutTool.PIL.Image_new pil _ _) as [[]|e]; [|done].
  simpl in Hrun. rewrite calculate_positions_grid in Hrun.
  destruct (ComicLayoutTool._grid_layout _ _) as [positions|e] eqn:Hgrid; [|done].
  simpl in Hrun. destruct (ComicLayoutTool.PIL.save pil _) as [[]|e]; [|done].
  simpl in Hrun. injection Hrun as _ <-.
  assert (length positions = length panels) as Hlen.
  { destruct panels as [|panel_data panels]; [done|].
    rewrite _grid_layout_eq in Hgrid by (unfold len; simpl length; lia).
    injection Hgrid as <-. rewrite length_fmap, range_length. unfold len. lia. }
  exists positions. split; [done|]. split; [done|].
  rewrite add_text_elements_borders, place_panels_borders.
  change (panel_borders (ComicLayoutTool.Page.mk _ _ [])) with (@nil Box).
  rewrite app_nil_l. split; [done|].
  rewrite !length_fmap.
  etrans; [apply List.filter_length_le|]. rewrite length_zip. lia.
Qed.

End Placement.

(** C3 as stated fails: of five panels whose third has no artwork, the
    rendered page carries four borders and four pasted images; nothing at
    all is drawn in the third panel's rectangle (50, 556, 590, 1042). *)
Lemma missing_panel_counterexample :
  exists path page positions,
    ComicLayoutTool._run pil_all_ok five_panels_third_missing "grid" None
    = Ok (path, page)
    /\ ComicLayoutTool._grid_layout (len five_panels_third_missing) (LayoutConfig_of None)
       = Ok positions
    /\ outline_of <$> positions !! 2%nat = Some (50, 556, 590, 1042)
    /\ length five_panels_third_missing = 5%nat
    /\ length (panel_borders page) = 4%nat
    /\ ((50, 556, 590, 1042) ∉ panel_borders page)
    /\ ComicLayoutTool.Page.ops page
       = [ComicLayoutTool.Paste "panel_1.png" (50, 50);
          ComicLayoutTool.Rectangle (50, 50, 590, 536) None "black" 2;
          ComicLayoutTool.Paste "panel_2.png" (610, 50);
          ComicLayoutTool.Rectangle (610, 50, 1150, 536) None "black" 2;
          ComicLayoutTool.Paste "panel_4.png" (610, 556);
          ComicLayoutTool.Rectangle (610, 556, 1150, 1042) None "black" 2;
          ComicLayoutTool.Paste "panel_5.png" (50, 1062);
          ComicLayoutTool.Rectangle (50, 1062, 590, 1548) None "black" 2].
Proof.
  eexists _, _, _. split; [vm_compute; reflexivity|].
  split; [vm_compute; reflexivity|].
  split; [reflexivity|]. split; [reflexivity|]. split; [reflexivity|].
  split; [|reflexivity].
  vm_compute. intros H. repeat (apply elem_of_cons in H as [H|H]; [discriminate H|]).
  by apply elem_of_nil in H.
Qed.

(** ** Export *)

Section ExportProperties.
Context {World : Type} (sys : Sys.t World).

Lemma io_for_cons {A S} (body : S -> A -> IO World S) s a l w :
  io_for body s (a :: l) w
  = match body s a w with
    | (Ok s', w') => io_for body s' l w'
    | (Raise e, w') => (Raise e, w')
    end.
Proof. reflexivity. Qed.

Lemma pdf_run_fields pages output_path title author w r w' :
  PDFExportTool._run sys pages output_path title author w = (Ok r, w') ->
  ExportResult.format r = "pdf" /\ ExportResult.page_count r = len pages.
Proof.
  unfold PDFExportTool._run, mbind, io_bind, mret, io_ret. intros H.
  repeat case_match; simplify_eq. done.
Qed.

Lemma cbz_run_fields pages output_path title w r w' :
  CBZExportTool._run sys pages output_path title w = (Ok r, w') ->
  ExportResult.format r = "cbz" /\ ExportResult.page_count r = len pages.
Proof.
  unfold CBZExportTool._run, mbind, io_bind, mret, io_ret. intros H.
  repeat case_match; simplify_eq; done.
Qed.

Lemma enumerate_length {A} (l : list A) start : length (enumerate start l) = length l.
Proof. revert start. induction l as [|a l IH]; intros start; simpl; [done|]. by rewrite IH. Qed.

(** The page loop of the web export never raises, and [web_pages] grows by
    at most one entry per page. *)
Lemma web_loop_pages optimize images_dir entries : forall total_size web_pages w,
  exists total_size' web_pages' w',
    io_for (WebExportTool.process_page sys optimize images_dir)
      (total_size, web_pages) entries w
    = (Ok (total_size', web_pages'), w')
    /\ (length web_pages <= length web_pages' <= length web_pages + length entries)%nat.
Proof.
  induction entries as [|[idx page_path] entries IH]; intros total_size web_pages w.
  - exists total_size, web_pages, w. split; [done|lia].
  - rewrite io_for_cons.
    destruct (WebExportTool.process_page sys optimize images_dir
                (total_size, web_pages) (idx, page_path) w) as [[[t1 p1]|e] w1] eqn:E.
    + assert (length web_pages <= length p1 <= length web_pages + 1)%nat as Hstep.
      { unfold WebExportTool.process_page in E.
        repeat case_match; simplify_eq; rewrite ?length_app; simpl; lia. }
      destruct (IH t1 p1 w1) as (t' & p' & w' & -> & Hlen).
      eexists _, _, _. split; [done|]. simpl. lia.
    + unfold WebExportTool.process_page in E. repeat case_match; simplify_eq.
Qed.

(** Where saving a page image never fails, every page is listed. *)
Lemma web_loop_all_pages optimize images_dir entries :
  (forall page_path web_page_path w,
     is_ok (Sys.web_save_page sys page_path optimize web_page_path w).1 = true) ->
  forall total_size web_pages w total_size' web_pages' w',
    io_for (WebExportTool.process_page sys optimize images_dir)
      (total_size, web_pages) entries w
    = (Ok (total_size', web_pages'), w') ->
    length web_pages' = (length web_pages + length entries)%nat.
Proof.
  intros Hsave. induction entries as [|[idx page_path] entries IH];
    intros total_size web_pages w total_size' web_pages' w' H.
  - simpl in H. unfold mret, io_ret in H. simplify_eq. simpl. lia.
  - rewrite io_for_cons in H.
    destruct (WebExportTool.process_page sys optimize images_dir
                (total_size, web_pages) (idx, page_path) w) as [[[t1 p1]|e] w1] eqn:E;
      [|done].
    apply IH in H. rewrite H. simpl.
    assert (length p1 = S (length web_pages)) as ->; [|lia].
    unfold WebExportTool.process_page in E.
    pose proof (Hsave page_path
                  (Sys.joinpath sys images_dir ("page_" +:+ fmt_03d idx +:+ ".jpg")) w)
      as Hok.
    destruct (Sys.web_save_page sys page_path optimize _ w) as [[[]|e] w2]; [|done].
    repeat case_match; simplify_eq; rewrite length_app; simpl; lia.
Qed.

Lemma web_run_all_pages pages output_dir title optimize w r w' :
  (forall page_path web_page_path w,
     is_ok (Sys.web_save_page sys page_path optimize web_page_path w).1 = true) ->
  WebExportTool._run sys pages output_dir title optimize w = (Ok r, w') ->
  ExportResult.page_count r = len pages.
Proof.
  intros Hsave. unfold WebExportTool._run, mbind, io_bind, mret, io_ret. intros H.
  destruct (Sys.mkdir sys _ w) as [[[]|e] w1]; [|done].
  destruct (Sys.mkdir sys _ w1) as [[[]|e] w2]; [|done].
  match type of H with context [io_for ?b (?t, ?p) ?l ?w] =>
    destruct (io_for b (t, p) l w) as [[[t' p']|e] w3] eqn:E; [|done]
  end.
  apply (web_loop_all_pages _ _ _ Hsave) in E.
  destruct (Sys.write_text sys _ _ w3) as [[[]|e] w4]; [|done].
  simplify_eq. simpl in *. rewrite enumerate_length in E. unfold len. by rewrite E.
Qed.

Lemma web_run_fields pages output_dir title optimize w r w' :
  WebExportTool._run sys pages output_dir title optimize w = (Ok r, w') ->
  ExportResult.format r = "web" /\ 0 <= ExportResult.page_count r <= len pages.
Proof.
  unfold WebExportTool._run, mbind, io_bind, mret, io_ret. intros H.
  destruct (Sys.mkdir sys _ w) as [[[]|e] w1]; [|done].
  destruct (Sys.mkdir sys _ w1) as [[[]|e] w2]; [|done].
  match type of H with context [io_for ?b (?t, ?p) ?l ?w] =>
    destruct (web_loop_pages optimize (Sys.joinpath sys (Sys.Path sys output_dir) "images")
                l t p w) as (t' & p' & w3 & E & Hlen)
  end.
  rewrite E in H. clear E.
  destruct (Sys.write_text sys _ _ w3) as [[[]|e] w4]; [|done].
  simplify_eq. simpl in *. rewrite enumerate_length in Hlen.
  split; [done|]. unfold len. lia.
Qed.

(** One turn of the page loop: the page is listed exactly when its image
    was saved, and the world it leaves does not depend on the loop state. *)
Lemma process_page_saved optimize images_dir total_size web_pages entry w :
  exists total_size',
    WebExportTool.process_page sys optimize images_dir (total_size, web_pages) entry w
    = (Ok (total_size',
           web_pages
           ++ (if is_ok (Sys.web_save_page sys entry.2 optimize
                           (Sys.joinpath sys images_dir
                              ("page_" +:+ fmt_03d entry.1 +:+ ".jpg")) w).1
               then ["images/page_" +:+ fmt_03d entry.1 +:+ ".jpg"] else [])),
       (WebExportTool.process_page sys optimize images_dir (0, []) entry w).2).
Proof.
  destruct entry as [idx page_path]. unfold WebExportTool.process_page. simpl.
  destruct (Sys.web_save_page sys page_path optimize _ w) as [[[]|e] w1]; simpl.
  - destruct (Sys.st_size sys _ w1) as [[size|e] w2]; by eexists.
  - eexists. by rewrite app_nil_r.
Qed.

(** The page loop lists as many pages as it saved. *)
Lemma web_loop_saved optimize images_dir entries : forall total_size web_pages w,
  exists total_size' web_pages' w',
    io_for (WebExportTool.process_page sys optimize images_dir)
      (total_size, web_pages) entries w
    = (Ok (total_size', web_pages'), w')
    /\ len web_pages'
       = len web_pages + saved_pages (save_outcomes sys optimize images_dir entries w).
Proof.
  induction entries as [|entry entries IH]; intros total_size web_pages w.
  - exists total_size, web_pages, w. split; [done|]. unfold saved_pages, len. simpl. lia.
  - rewrite io_for_cons.
    destruct (process_page_saved optimize images_dir total_size web_pages entry w)
      as [total_size1 ->].
    destruct (IH total_size1
                (web_pages
                 ++ (if is_ok (Sys.web_save_page sys entry.2 optimize
                                 (Sys.joinpath sys images_dir
                                    ("page_" +:+ fmt_03d entry.1 +:+ ".jpg")) w).1
                     then ["images/page_" +:+ fmt_03d entry.1 +:+ ".jpg"] else []))
                (WebExportTool.process_page sys optimize images_dir (0, []) entry w).2)
      as (total_size' & web_pages' & w' & -> & Hlen).
    eexists _, _, _. split; [done|]. rewrite Hlen. simpl save_outcomes.
    unfold saved_pages, len. rewrite filter_cons.
    destruct (is_ok _); rewrite ?length_app; case_decide; simpl; try done; lia.
Qed.

(** The [page_count] of a web export is the number of pages it saved. *)
Lemma web_run_saved pages output_dir title optimize w r w' :
  WebExportTool._run sys pages output_dir title optimize w = (Ok r, w') ->
  ExportResult.format r = "web"
  /\ ExportResult.page_count r
     = saved_pages (web_save_outcomes sys pages output_dir optimize w).
Proof.
  unfold WebExportTool._run, web_save_outcomes, mbind, io_bind, mret, io_ret. intros H.
  destruct (Sys.mkdir sys _ w) as [[[]|e] w1]; [|done]. simpl.
  destruct (Sys.mkdir sys _ w1) as [[[]|e] w2]; [|done]. simpl.
  match type of H with context [io_for ?b (?t, ?p) ?l ?w] =>
    destruct (web_loop_saved optimize (Sys.joinpath sys (Sys.Path sys output_dir) "images")
                l t p w) as (t' & p' & w3 & E & Hlen)
  end.
  rewrite E in H. clear E.
  destruct (Sys.write_text sys _ _ w3) as [[[]|e] w4]; [|done].
  simplify_eq. simpl in *. split; [done|]. rewrite Hlen. unfold len. simpl. lia.
Qed.

(** C8 (as amended): exporting the same page list and title twice as pdf,
    or twice as cbz, yields results with the same [page_count], the number
    of pages given, and the same format identifier.  Exporting twice as web
    yields the same format identifier; the [page_count] of a web result is
    the number of pages whose image was saved in that run, between 0 and
    the number given, so the two results have the same [page_count]
    exactly when both runs save the same number of pages, which they do
    whenever every page's save has the same outcome in both runs. *)
Theorem export_twice_same_fields pages title :
  (forall output_path author w1 w2 r1 r2 w1' w2',
     PDFExportTool._run sys pages output_path title author w1 = (Ok r1, w1') ->
     PDFExportTool._run sys pages output_path title author w2 = (Ok r2, w2') ->
     ExportResult.page_count r1 = ExportResult.page_count r2
     /\ ExportResult.format r1 = ExportResult.format r2
     /\ ExportResult.page_count r1 = len pages)
  /\ (forall output_path w1 w2 r1 r2 w1' w2',
        CBZExportTool._run sys pages output_path title w1 = (Ok r1, w1') ->
        CBZExportTool._run sys pages output_path title w2 = (Ok r2, w2') ->
        ExportResult.page_count r1 = ExportResult.page_count r2
        /\ ExportResult.format r1 = ExportResult.format r2
        /\ ExportResult.page_count r1 = len pages)
  /\ (forall output_dir optimize w1 w2 r1 r2 w1' w2',
        WebExportTool._run sys pages output_dir title optimize w1 = (Ok r1, w1') ->
        WebExportTool._run sys pages output_dir title optimize w2 = (Ok r2, w2') ->
        let saved1 := web_save_outcomes sys pages output_dir optimize w1 in
        let saved2 := web_save_outcomes sys pages output_dir optimize w2 in
        ExportResult.format r1 = ExportResult.format r2
        /\ ExportResult.page_count r1 = saved_pages saved1
        /\ ExportResult.page_count r2 = saved_pages saved2
        /\ 0 <= ExportResult.page_count r1 <= len pages
        /\ 0 <= ExportResult.page_count r2 <= len pages
        /\ (ExportResult.page_count r1 = ExportResult.page_count r2
            <-> saved_pages saved1 = saved_pages saved2)
        /\ (saved1 = saved2 -> ExportResult.page_count r1 = ExportResult.page_count r2)).
Proof.
  split; [|split].
  - intros * H1 H2. apply pdf_run_fields in H1 as [F1 P1], H2 as [F2 P2].
    by rewrite F1, F2, P1, P2.
  - intros * H1 H2. apply cbz_run_fields in H1 as [F1 P1], H2 as [F2 P2].
    by rewrite F1, F2, P1, P2.
  - intros * H1 H2 saved1 saved2.
    pose proof (web_run_fields _ _ _ _ _ _ _ H1) as [_ B1].
    pose proof (web_run_fields _ _ _ _ _ _ _ H2) as [_ B2].
    apply web_run_saved in H1 as [F1 P1], H2 as [F2 P2].
    fold saved1 in P1. fold saved2 in P2.
    rewrite F1, F2. split; [done|]. split; [done|]. split; [done|].
    split; [done|]. split; [done|]. rewrite P1, P2. split; [done|].
    by intros ->.
Qed.

End ExportProperties.

(** The hypotheses of the statement above are met: where the page file
    exists, each exporter returns a result. *)
Example exports_succeed :
  let w : FileSystem := ({["pages/cover.png"]}, None) in
  (PDFExportTool._run sys_files ["pages/cover.png"] "out/Comic.pdf" "Comic" "AI Generated" w).1
  = Ok (ExportResult.mk "pdf" "out/Comic.pdf" 1000 1)
  /\ (CBZExportTool._run sys_files ["pages/cover.png"] "out/Comic.cbz" "Comic" w).1
     = Ok (ExportResult.mk "cbz" "out/Comic.cbz" 1000 1)
  /\ (WebExportTool._run sys_files ["pages/cover.png"] "out/web" "Comic" true w).1
     = Ok (ExportResult.mk "web" "out/web/index.html" 1000 1).
Proof. vm_compute. repeat split. Qed.

(** Exporting a page list of existing files twice as web saves every page
    both times. *)
Example web_export_twice_same_count :
  let w : FileSystem := ({["pages/cover.png"; "pages/back.png"]}, None) in
  let pages := ["pages/cover.png"; "pages/back.png"] in
  let first := WebExportTool._run sys_files pages "out/web" "Comic" true w in
  let second := WebExportTool._run sys_files pages "out/web" "Comic" true first.2 in
  first.1 = Ok (ExportResult.mk "web" "out/web/index.html" 2000 2)
  /\ second.1 = Ok (ExportResult.mk "web" "out/web/index.html" 2000 2)
  /\ web_save_outcomes sys_files pages "out/web" true w = [true; true]
  /\ web_save_outcomes sys_files pages "out/web" true first.2 = [true; true].
Proof. vm_compute. repeat split. Qed.

(** C8 as stated fails for the web format: the page list names, before the
    cover, the file that the export itself writes for its second page.  On
    the first export that file does not exist yet, so only the cover is
    saved, as [images/page_002.jpg]; on the second export of the same list
    to the same place it exists, and both pages are saved. *)
Lemma web_export_twice_counterexample :
  let w : FileSystem := ({["pages/cover.png"]}, None) in
  let pages := ["out/web/images/page_002.jpg"; "pages/cover.png"] in
  exists r1 r2 w1 w2,
    WebExportTool._run sys_files pages "out/web" "Comic" true w = (Ok r1, w1)
    /\ WebExportTool._run sys_files pages "out/web" "Comic" true w1 = (Ok r2, w2)
    /\ web_save_outcomes sys_files pages "out/web" true w = [false; true]
    /\ web_save_outcomes sys_files pages "out/web" true w1 = [true; true]
    /\ ExportResult.page_count r1 = 1
    /\ ExportResult.page_count r2 = 2
    /\ ExportResult.page_count r1 <> ExportResult.page_count r2.
Proof.
  eexists _, _, _, _. split; [vm_compute; reflexivity|].
  split; [vm_compute; reflexivity|].
  split; [vm_compute; reflexivity|]. split; [vm_compute; reflexivity|].
  simpl. repeat split; lia.
Qed.

Section ExportAll.
Context {World : Type} (sys : Sys.t World).
Context (pages : list string) (output_dir title : string).

Lemma run_format_known format_name :
  is_Some (run_format sys pages output_dir title format_name)
  <-> known_format format_name = true.
Proof.
  unfold run_format, known_format.
  destruct (String.eqb format_name "pdf"), (String.eqb format_name "cbz"),
    (String.eqb format_name "web"); simpl; split; intros H;
    try done; try (by eexists); by destruct H.
Qed.

(** One turn of the loop: an unknown name is passed over, a failed export
    is passed over too and the loop goes on in the world it left, a
    successful one is recorded. *)
Lemma export_loop_cons results format_name formats w :
  ExportManager.export_loop sys pages output_dir title results (format_name :: formats) w
  = match run_format sys pages output_dir title format_name with
    | None => ExportManager.export_loop sys pages output_dir title results formats w
    | Some run =>
        match run w with
        | (Ok r, w') =>
            ExportManager.export_loop sys pages output_dir title
              (<[format_name := r]> results) formats w'
        | (Raise _, w') =>
            ExportManager.export_loop sys pages output_dir title results formats w'
        end
    end.
Proof.
  unfold ExportManager.export_loop at 1. rewrite io_for_cons.
  unfold try_except, ExportManager.export_format, run_format.
  destruct (String.eqb_spec format_name "pdf") as [->|_].
  { unfold mbind, io_bind. by destruct (PDFExportTool._run _ _ _ _ _ w) as [[r|e] w']. }
  destruct (String.eqb_spec format_name "cbz") as [->|_].
  { unfold mbind, io_bind. by destruct (CBZExportTool._run _ _ _ _ w) as [[r|e] w']. }
  destruct (String.eqb_spec format_name "web") as [->|_].
  { unfold mbind, io_bind. by destruct (WebExportTool._run _ _ _ _ _ w) as [[r|e] w']. }
  done.
Qed.

Lemma export_loop_outcomes formats : forall results w,
  exists w',
    ExportManager.export_loop sys pages output_dir title results formats w
    = (Ok (record_outcomes results (attempts sys pages output_dir title formats w)), w').
Proof.
  induction formats as [|format_name formats IH]; intros results w.
  - by exists w.
  - rewrite export_loop_cons. simpl.
    destruct (run_format sys pages output_dir title format_name) as [run|]; [|apply IH].
    destruct (run w) as [[r|e] w1]; simpl; apply IH.
Qed.

Lemma attempts_formats formats : forall w,
  (attempts sys pages output_dir title formats w).*1 = List.filter known_format formats.
Proof.
  induction formats as [|format_name formats IH]; intros w; simpl; [done|].
  pose proof (run_format_known format_name) as Hk.
  destruct (run_format sys pages output_dir title format_name) as [run|].
  - assert (known_format format_name = true) as -> by (apply Hk; by eexists).
    destruct (run w) as [outcome w1]. simpl. by rewrite IH.
  - assert (known_format format_name = false) as ->; [|apply IH].
    destruct (known_format format_name); [|done].
    destruct Hk as [_ Hk]. by destruct Hk.
Qed.

Lemma record_outcomes_lookup outcomes : forall results format_name r,
  record_outcomes results outcomes !! format_name = Some r ->
  results !! format_name = Some r \/ (format_name, Ok r) ∈ outcomes.
Proof.
  induction outcomes as [|[f o] outcomes IH]; intros results format_name r H; simpl in H.
  - by left.
  - apply IH in H as [H|H]; [|right; by right].
    destruct o as [r'|e]; [|by left].
    destruct (decide (f = format_name)) as [->|Hne].
    + rewrite lookup_insert_eq in H. injection H as ->. right. by left.
    + rewrite lookup_insert_ne in H by done. by left.
Qed.

Lemma record_outcomes_is_Some outcomes : forall results format_name,
  is_Some (record_outcomes results outcomes !! format_name)
  <-> is_Some (results !! format_name) \/ exists r, (format_name, Ok r) ∈ outcomes.
Proof.
  induction outcomes as [|[f o] outcomes IH]; intros results format_name; simpl.
  - split; [by left|]. intros [H|[r H]]; [done|]. by apply elem_of_nil in H.
  - rewrite IH. split.
    + intros [H|[r H]]; [|right; exists r; by right].
      destruct o as [r'|e]; [|by left].
      destruct (decide (f = format_name)) as [->|Hne].
      * right. exists r'. by left.
      * rewrite lookup_insert_ne in H by done. by left.
    + intros [H|[r H]].
      * left. destruct o as [r'|e]; [|done].
        destruct (decide (f = format_name)) as [->|Hne].
        -- rewrite lookup_insert_eq. by eexists.
        -- by rewrite lookup_insert_ne.
      * apply elem_of_cons in H as [H|H]; [|right; by exists r].
        simplify_eq. left. rewrite lookup_insert_eq. by eexists.
Qed.

(** C4 (as amended): for every requested list of formats [export_all] does
    not raise; every requested pdf, cbz or web export is attempted, in the
    order requested, whatever became of the ones before it; and the map
    returned is made of the successful attempts alone: it holds an entry
    for a format exactly when an attempt at it succeeded, that entry being
    the result of such an attempt.  A format whose export failed has no
    entry. *)
Theorem export_all_keeps_successes formats w :
  exists results w',
    ExportManager.export_all sys pages output_dir title formats w = (Ok results, w')
    /\ results = record_outcomes ∅ (attempts sys pages output_dir title formats w)
    /\ (attempts sys pages output_dir title formats w).*1 = List.filter known_format formats
    /\ (forall format_name,
          is_Some (results !! format_name)
          <-> exists r, (format_name, Ok r) ∈ attempts sys pages output_dir title formats w)
    /\ (forall format_name r,
          results !! format_name = Some r ->
          (format_name, Ok r) ∈ attempts sys pages output_dir title formats w).
Proof.
  unfold ExportManager.export_all.
  destruct (export_loop_outcomes formats ∅ w) as [w' E].
  eexists _, w'. split; [exact E|]. split; [done|].
  split; [apply attempts_formats|]. split.
  - intros format_name. rewrite record_outcomes_is_Some, lookup_empty.
    split; [intros [H|H]; [by destruct H|done]|by right].
  - intros format_name r H. apply record_outcomes_lookup in H as [H|H]; [|done].
    by rewrite lookup_empty in H.
Qed.

End ExportAll.

(** C4 as stated fails: of the formats pdf and cbz, with the PDF canvas
    failing to save, the cbz export still succeeds, and the map returned
    has the single key "cbz": the failed format has no entry. *)
Lemma export_all_failed_format_counterexample :
  exists results,
    ExportManager.export_all sys_pdf_fails ["page_1.png"] "out" "Comic" ["pdf"; "cbz"] ()
    = (Ok results, ())
    /\ "pdf" ∈ ["pdf"; "cbz"]
    /\ attempts sys_pdf_fails ["page_1.png"] "out" "Comic" ["pdf"; "cbz"] ()
       = [("pdf", Raise (OSError "Permission denied"));
          ("cbz", Ok (ExportResult.mk "cbz" "out/Comic.cbz" 1000 1))]
    /\ results !! "pdf" = None
    /\ results !! "cbz" = Some (ExportResult.mk "cbz" "out/Comic.cbz" 1000 1)
    /\ dom results = {["cbz"]}.
Proof.
  eexists. split; [reflexivity|]. split; [by left|]. split; [reflexivity|].
  split; [reflexivity|]. split; [reflexivity|].
  rewrite dom_insert_L, dom_empty_L. set_solver.
Qed.

(** ** The image service's pending state *)

Section ImageTool.
Context {World : Type} (text_to_image : Text2Image.t -> IO World Response.t).

(** C6 (as amended): [_run] sends one request and none after it.  When the
    service answers "processing", [_run] neither polls nor asks again: it
    returns at once, as the panel's result and not as a failure, an
    [ImageGenerationResult] whose [image_url] is "processing:" followed by
    the request id. *)
Theorem processing_is_returned_unpolled (self : ModelsLabImageTool.t) prompt
  negative_prompt width height seed style w response w' :
  text_to_image
    (ModelsLabImageTool.schema self (ModelsLabImageTool.enhance prompt style)
       negative_prompt width height seed) w
  = (Ok response, w') ->
  Response.status response = Some "processing" ->
  ModelsLabImageTool._run text_to_image self prompt negative_prompt width height seed style w
  = (Ok (ImageGenerationResult.mk
           ("processing:" +:+ default "None" (Response.id response))
           (ModelsLabImageTool.enhance prompt style)
           (ModelsLabImageTool.model self)
           (or_int width (ModelsLabImageTool.width self))
           (or_int height (ModelsLabImageTool.height self))),
     w')
  /\ forall w0,
       (ModelsLabImageTool._run text_to_image self prompt negative_prompt width height
          seed style w0).2
       = (text_to_image
            (ModelsLabImageTool.schema self (ModelsLabImageTool.enhance prompt style)
               negative_prompt width height seed) w0).2.
Proof.
  intros Hreq Hstatus. split.
  - unfold ModelsLabImageTool._run, mbind, io_bind. rewrite Hreq.
    unfold lift_result, ModelsLabImageTool.handle_response. by rewrite Hstatus.
  - intros w0. unfold ModelsLabImageTool._run, mbind, io_bind.
    by destruct (text_to_image _ w0) as [[r|e] w1].
Qed.

End ImageTool.

Lemma processing_is_returned_unpolled_witness :
  let pending := Response.mk (Some "processing") None (Some "42") None in
  let finished := Response.mk (Some "success") (Some ["https://cdn/panel.png"]) None None in
  ModelsLabImageTool._run text_to_image_queue default_image_tool "a robot" None None None
    None (Some "cartoon") [pending; finished]
  = (Ok (ImageGenerationResult.mk "processing:42" "a robot, cartoon style" "flux" 1024 1024),
     [finished])
  /\ forall w0,
       (ModelsLabImageTool._run text_to_image_queue default_image_tool "a robot" None
          None None None (Some "cartoon") w0).2
       = (text_to_image_queue
            (ModelsLabImageTool.schema default_image_tool
               (ModelsLabImageTool.enhance "a robot" (Some "cartoon")) None None None None)
            w0).2.
Proof.
  intros pending finished.
  apply (processing_is_returned_unpolled text_to_image_queue default_image_tool
           "a robot" None None None None (Some "cartoon") [pending; finished] pending
           [finished]); reflexivity.
Defined.

(** C6 as stated fails: the service answers "processing" and would answer
    with the finished image if asked again; [_run] asks once and returns
    the pending marker as the panel's result. *)
Lemma processing_counterexample :
  let pending := Response.mk (Some "processing") None (Some "42") None in
  let finished := Response.mk (Some "success") (Some ["https://cdn/panel.png"]) None None in
  exists r,
    ModelsLabImageTool._run text_to_image_queue default_image_tool "a robot" None None None
      None None [pending; finished]
    = (Ok r, [finished])
    /\ ImageGenerationResult.image_url r = "processing:42"
    /\ is_pending r = true.
Proof. simpl. eexists. split; [reflexivity|]. split; reflexivity. Qed.

(** ** The visual stage *)

Section VisualStage.
Context {World : Type} (crews : Crews.t World).





End VisualStage.


(** With a runner that answers in the order asked and a crew that copies
    the panel number of its input, the artworks are in script order. *)
Example visual_stage_in_script_order :
  in_script_order (ComicScript.panels three_panel_script)
    (ComicBookGenerator.panel_artworks
       (drawn <$> ComicBookGenerator.panel_inputs three_panel_script "cartoon")).
Proof. repeat constructor; by eexists. Qed.


(** ** The job registry *)

Lemma job_history_app job_id h1 h2 :
  job_history job_id (h1 ++ h2) = job_history job_id h1 ++ job_history job_id h2.
Proof. apply omap_app. Qed.

(** The histories a job can have: it is registered, and then either never
    started, or taken through the task to completion or to failure. *)
Lemma lifecycle_chains job_id updates :
  updates = []
  \/ (exists result, updates = updates_before ++ updates_completed result)
  \/ (exists e, updates = updates_before ++ updates_failed e) ->
  chain status_fine (queued_job job_id :: scan (queued_job job_id) updates)
  /\ chain progress_fine (queued_job job_id :: scan (queued_job job_id) updates).
Proof.
  intros [->|[[result ->]|[e ->]]]; simpl; unfold status_fine, progress_fine; simpl;
    (split; [repeat split; first [by left | right; constructor]|]);
    repeat split; by vm_compute.
Qed.

Lemma lifecycle_final job_id updates :
  (exists result, updates = updates_before ++ updates_completed result)
  \/ (exists e, updates = updates_before ++ updates_failed e) ->
  exists final,
    last (queued_job job_id :: scan (queued_job job_id) updates) = Some final
    /\ (Job.status final = "completed" \/ Job.status final = "failed").
Proof.
  intros [[result ->]|[e ->]]; simpl; eexists; (split; [reflexivity|]); simpl; auto.
Qed.

Section Jobs.
Context {W : Type}.
Context (generate_from_pdf : string -> string -> Z -> IO W ComicBook.t).
Context (generate_from_text : option string -> string -> Kwargs.t -> IO W ComicBook.t).
Context (uuid4 : IO W string).
Context (save_upload : string -> string -> IO W string).

Lemma jobs_set_tracks job_id job r0 (w : W) :
  Registry.jobs r0 !! job_id = None ->
  job_history job_id (Registry.history r0) = [] ->
  exists r,
    Api.jobs_set job_id job (r0, w) = (Ok (), (r, w))
    /\ tracks job_id r0 r job [job].
Proof.
  intros Hfresh Hhist. eexists. split; [reflexivity|]. unfold tracks. simpl.
  split; [apply lookup_insert_eq|]. split.
  - rewrite job_history_app, Hhist. simpl. by rewrite lookup_insert_eq.
  - eexists. split; [reflexivity|].
    repeat constructor; intros other Hne; by rewrite lookup_insert_ne.
Qed.

Lemma setitem_tracks job_id r0 r job hist upd (w : W) :
  tracks job_id r0 r job hist ->
  exists r',
    Api.setitem job_id upd (r, w) = (Ok (), (r', w))
    /\ tracks job_id r0 r' (upd job) (hist ++ [upd job]).
Proof.
  intros (Hjob & Hhist & ext & Hext & Hframe).
  eexists. split; [unfold Api.setitem; by rewrite Hjob|].
  unfold tracks. simpl. split; [apply lookup_insert_eq|]. split.
  - rewrite job_history_app, Hhist. simpl. by rewrite lookup_insert_eq.
  - exists (ext ++ [<[job_id := upd job]> (Registry.jobs r)]). split.
    + by rewrite Hext, app_assoc.
    + apply Forall_cons in Hframe as [Hnow Hext'].
      assert (forall other, other <> job_id ->
                <[job_id := upd job]> (Registry.jobs r) !! other
                = Registry.jobs r0 !! other) as Hnew.
      { intros other Hne. rewrite lookup_insert_ne by done. by apply Hnow. }
      apply Forall_cons. split; [done|]. apply Forall_app. split; [done|].
      by apply Forall_singleton.
Qed.

Lemma outside_run {A} (m : IO W A) r w :
  Api.outside m (r, w) = ((m w).1, (r, (m w).2)).
Proof. unfold Api.outside. by destruct (m w). Qed.

(** One [setitem] of the program text, run on a tracked registry. *)
Ltac run_setitem H :=
  match goal with
  | |- context [Api.setitem ?id ?upd (?r, ?w)] =>
      let r' := fresh "r" in
      let E := fresh "E" in
      let H' := fresh "H" in
      destruct (setitem_tracks id _ r _ _ upd w H) as (r' & E & H');
      rewrite E; clear E H; rename H' into H; cbv beta iota
  end.

Lemma generate_comic_task_history job_id data r0 r job hist w :
  tracks job_id r0 r job hist ->
  exists r' w' updates job',
    Api.generate_comic_task generate_from_pdf generate_from_text job_id data (r, w)
    = (Ok (), (r', w'))
    /\ ((exists result, updates = updates_before ++ updates_completed result)
        \/ (exists e, updates = updates_before ++ updates_failed e))
    /\ tracks job_id r0 r' job' (hist ++ scan job updates).
Proof.
  intros H. unfold Api.generate_comic_task, try_except, mbind, io_bind.
  do 7 run_setitem H.
  destruct (truthy_str (TaskData.file_path data)) as [file_path|];
    rewrite outside_run;
    match goal with
    | |- context [(?m w).1] => destruct (m w) as [[result|e] w']
    end; simpl fst; simpl snd; cbv beta iota.
  1, 3: do 4 run_setitem H;
    eexists _, w', _, _; (split; [reflexivity|]); (split; [left; by exists result|]);
    simpl; rewrite <- !app_assoc in H; exact H.
  all: do 2 run_setitem H;
    eexists _, w', _, _; (split; [reflexivity|]); (split; [right; by exists e|]);
    simpl; rewrite <- !app_assoc in H; exact H.
Qed.

(** C7: from its creation by [generate_comic] on, through every update made
    by [generate_comic_task], a job's status takes only the transitions
    queued -> processing -> completed | failed, an update otherwise leaving
    the status as it is, and its progress never decreases; once the task
    has run the job is completed or failed.  No other job's record is
    touched on the way. *)
Theorem job_follows_state_machine text title art_style target_pages target_audience
  file r0 w job_id w1 :
  uuid4 w = (Ok job_id, w1) ->
  Registry.jobs r0 !! job_id = None ->
  job_history job_id (Registry.history r0) = [] ->
  exists outcome r' w',
    Api.submit_and_run generate_from_pdf generate_from_text uuid4 save_upload
      text title art_style target_pages target_audience file (r0, w)
    = (outcome, (r', w'))
    /\ head (job_history job_id (Registry.history r')) = Some (queued_job job_id)
    /\ chain status_fine (job_history job_id (Registry.history r'))
    /\ chain progress_fine (job_history job_id (Registry.history r'))
    /\ (is_ok outcome = true ->
        exists final,
          last (job_history job_id (Registry.history r')) = Some final
          /\ (Job.status final = "completed" \/ Job.status final = "failed"))
    /\ exists ext,
         Registry.history r' = Registry.history r0 ++ ext
         /\ Forall (fun jobs' => forall other, other <> job_id ->
                      jobs' !! other = Registry.jobs r0 !! other) ext.
Proof.
  intros Huuid Hfresh Hhist.
  unfold Api.submit_and_run, Api.generate_comic, try_except, mbind, io_bind.
  rewrite outside_run, Huuid. simpl fst. simpl snd. cbv beta iota.
  destruct (jobs_set_tracks job_id (queued_job job_id) r0 w1 Hfresh Hhist)
    as (r1 & E & H).
  unfold queued_job in E at 1. rewrite E. clear E. cbv beta iota.
  assert (forall data w2,
    exists r' w',
      Api.generate_comic_task generate_from_pdf generate_from_text job_id data (r1, w2)
      = (Ok (), (r', w'))
      /\ head (job_history job_id (Registry.history r')) = Some (queued_job job_id)
      /\ chain status_fine (job_history job_id (Registry.history r'))
      /\ chain progress_fine (job_history job_id (Registry.history r'))
      /\ (exists final,
            last (job_history job_id (Registry.history r')) = Some final
            /\ (Job.status final = "completed" \/ Job.status final = "failed"))
      /\ exists ext,
           Registry.history r' = Registry.history r0 ++ ext
           /\ Forall (fun jobs' => forall other, other <> job_id ->
                        jobs' !! other = Registry.jobs r0 !! other) ext) as Htask.
  { intros data w2.
    destruct (generate_comic_task_history job_id data r0 r1 _ _ w2 H)
      as (r' & w' & updates & job' & E & Hupd & _ & Hh & ext & Hext & Hframe).
    exists r', w'. split; [exact E|]. rewrite Hh. simpl.
    split; [done|].
    destruct (lifecycle_chains job_id updates) as [Hs Hp]; [by right|].
    split; [exact Hs|]. split; [exact Hp|].
    split; [by apply lifecycle_final|].
    exists ext. split; [done|]. by apply Forall_cons in Hframe as [_ ?]. }
  destruct file as [filename|].
  - rewrite outside_run.
    destruct (save_upload job_id filename w1) as [[temp_path|e] w2];
      simpl fst; simpl snd; cbv beta iota.
    + unfold mret, io_ret.
      destruct (Htask (TaskData.mk text title art_style target_pages target_audience
                         (Some temp_path)) w2)
        as (r' & w' & E & Hhead & Hs & Hp & Hfinal & Hframe).
      rewrite E. eexists _, r', w'. split; [reflexivity|]. by repeat split.
    + unfold lift_result. eexists _, r1, w2. split; [reflexivity|].
      destruct H as (_ & Hh & ext & Hext & Hframe). rewrite Hh. simpl.
      split; [done|]. split; [done|]. split; [done|]. split; [done|].
      exists ext. split; [done|]. by apply Forall_cons in Hframe as [_ ?].
  - unfold mret, io_ret.
    destruct (Htask (TaskData.mk text title art_style target_pages target_audience None) w1)
      as (r' & w' & E & Hhead & Hs & Hp & Hfinal & Hframe).
    rewrite E. eexists _, r', w'. split; [reflexivity|]. by repeat split.
Qed.

End Jobs.

Lemma job_follows_state_machine_witness :
  exists outcome r' w',
    Api.submit_and_run api_generate_from_pdf api_generate_from_text api_uuid4
      api_save_upload (Some "A robot finds a flower in a desert.") "Robot" "cartoon" 1
      "general" None (Registry.mk ∅ [], ())
    = (outcome, (r', w'))
    /\ head (job_history "job-1" (Registry.history r')) = Some (queued_job "job-1")
    /\ chain status_fine (job_history "job-1" (Registry.history r'))
    /\ chain progress_fine (job_history "job-1" (Registry.history r'))
    /\ (is_ok outcome = true ->
        exists final,
          last (job_history "job-1" (Registry.history r')) = Some final
          /\ (Job.status final = "completed" \/ Job.status final = "failed"))
    /\ exists ext,
         Registry.history r' = Registry.history (Registry.mk ∅ []) ++ ext
         /\ Forall (fun jobs' => forall other, other <> "job-1" ->
                      jobs' !! other = Registry.jobs (Registry.mk ∅ []) !! other) ext.
Proof.
  apply (job_follows_state_machine api_generate_from_pdf api_generate_from_text
           api_uuid4 api_save_upload (Some "A robot finds a flower in a desert.")
           "Robot" "cartoon" 1 "general" None (Registry.mk ∅ []) () "job-1" ());
    reflexivity.
Defined.

(** * Further properties *)

(** ** The grid, rounding and failures of [_run] *)

(** X1: when the interior can hold the gutters, every panel of the grid has
    the same width and the same height, neither negative, and the grid
    leaves fewer than [cols] pixels of the interior's width and fewer than
    [rows] pixels of its height unused. *)
Theorem grid_fills_interior n config :
  1 <= n ->
  2 * LayoutConfig.margin config + (GridVars.cols n - 1) * LayoutConfig.gutter config
  <= LayoutConfig.page_width config ->
  2 * LayoutConfig.margin config + (GridVars.rows n - 1) * LayoutConfig.gutter config
  <= LayoutConfig.page_height config ->
  exists positions panel_width panel_height,
    ComicLayoutTool._grid_layout n config = Ok positions
    /\ (forall p, p ∈ positions ->
          PanelPosition.width p = panel_width /\ PanelPosition.height p = panel_height)
    /\ 0 <= panel_width /\ 0 <= panel_height
    /\ (let used := GridVars.cols n * panel_width
                    + (GridVars.cols n - 1) * LayoutConfig.gutter config in
        let interior := LayoutConfig.page_width config - 2 * LayoutConfig.margin config in
        used <= interior < used + GridVars.cols n)
    /\ (let used := GridVars.rows n * panel_height
                    + (GridVars.rows n - 1) * LayoutConfig.gutter config in
        let interior := LayoutConfig.page_height config - 2 * LayoutConfig.margin config in
        used <= interior < used + GridVars.rows n).
Proof.
  intros Hn Hw Hh.
  destruct (rows_bounds n Hn) as [Hr _].
  assert (0 < GridVars.cols n) as Hc by (destruct (cols_cases n); lia).
  exists (GridVars.position n config <$> range n),
    (GridVars.panel_width n config), (GridVars.panel_height n config).
  split; [apply _grid_layout_eq; lia|]. split.
  { intros p Hp. apply list_elem_of_fmap in Hp as (i & -> & _). done. }
  unfold GridVars.panel_width, GridVars.panel_height.
  match goal with
  | |- context [?a / GridVars.cols n] =>
      pose proof (floor_bounds a (GridVars.cols n) Hc) as Bw;
      assert (0 <= a / GridVars.cols n) as Pw by (apply Z.div_pos; lia)
  end.
  match goal with
  | |- context [?a / GridVars.rows n] =>
      pose proof (floor_bounds a (GridVars.rows n) ltac:(lia)) as Bh;
      assert (0 <= a / GridVars.rows n) as Ph by (apply Z.div_pos; lia)
  end.
  simpl. repeat split; lia.
Qed.

Lemma grid_fills_interior_witness :
  exists positions panel_width panel_height,
    ComicLayoutTool._grid_layout 5 (LayoutConfig_of None) = Ok positions
    /\ (forall p, p ∈ positions ->
          PanelPosition.width p = panel_width /\ PanelPosition.height p = panel_height)
    /\ 0 <= panel_width /\ 0 <= panel_height
    /\ (let used := GridVars.cols 5 * panel_width
                    + (GridVars.cols 5 - 1) * LayoutConfig.gutter (LayoutConfig_of None) in
        let interior := LayoutConfig.page_width (LayoutConfig_of None)
                        - 2 * LayoutConfig.margin (LayoutConfig_of None) in
        used <= interior < used + GridVars.cols 5)
    /\ (let used := GridVars.rows 5 * panel_height
                    + (GridVars.rows 5 - 1) * LayoutConfig.gutter (LayoutConfig_of None) in
        let interior := LayoutConfig.page_height (LayoutConfig_of None)
                        - 2 * LayoutConfig.margin (LayoutConfig_of None) in
        used <= interior < used + GridVars.rows 5).
Proof.
  apply (grid_fills_interior 5 (LayoutConfig_of None));
    apply Z.leb_le; reflexivity.
Defined.

Section RunProperties.
Context {Img Font : Type} (pil : ComicLayoutTool.PIL.t Img Font).

Lemma any_config_accepted config :
  ComicLayoutToolAny.LayoutConfig_new (any_config <$> config) = Ok (LayoutConfig_of config).
Proof.
  destruct config as [[pw ph m g bg]|]; [|done].
  by destruct pw, ph, m, g, bg.
Qed.

Lemma any_place_panels placed : forall page,
  ComicLayoutToolAny.place_panels pil page (prod_map any_panel id <$> placed)
  = ComicLayoutTool.place_panels pil page placed.
Proof.
  induction placed as [|[panel_data position] placed IH]; intros page; [done|].
  simpl. rewrite <- IH. by destruct panel_data.
Qed.

Lemma any_text_items elems : forall page,
  foldl (ComicLayoutToolAny._add_text_element pil) page (Some <$> elems)
  = foldl (ComicLayoutTool._add_text_element pil) page elems.
Proof. induction elems as [|elem elems IH]; intros page; [done|]. simpl. by rewrite IH. Qed.

Lemma any_add_text_elements panels : forall page,
  ComicLayoutToolAny.add_text_elements pil page (any_panel <$> panels)
  = Ok (ComicLayoutTool.add_text_elements pil page panels).
Proof.
  induction panels as [|panel_data panels IH]; intros page; [done|].
  unfold ComicLayoutToolAny.add_text_elements, ComicLayoutTool.add_text_elements in *.
  simpl. destruct panel_data as [image_path [elems|]]; simpl.
  - rewrite any_text_items. apply IH.
  - apply IH.
Qed.

Lemma add_text_elements_iterable panels : forall page,
  is_ok (ComicLayoutToolAny.add_text_elements pil page panels)
  = forallb text_iterable panels.
Proof.
  induction panels as [|panel_data panels IH]; intros page; [done|].
  unfold ComicLayoutToolAny.add_text_elements, text_iterable in *. simpl.
  destruct (AnyPanel.text_elements panel_data); simpl; [apply IH|done|apply IH].
Qed.

(** X2: with values of any type in the panels and in [config], [_run]
    succeeds exactly when [LayoutConfig] accepts the configuration, the
    blank page can be created, there is a panel, every ['text_elements']
    value that is present can be iterated, and the page can be saved.
    Artwork that is missing or cannot be opened or resized, a text element
    that is no dictionary, a font that cannot be loaded and text that
    cannot be measured never make it fail.  On values of the expected
    types this [_run] is [ComicLayoutTool._run]. *)
Theorem run_succeeds_exactly_when panels layout_style config :
  is_ok (ComicLayoutToolAny._run pil panels layout_style config)
  = match ComicLayoutToolAny.LayoutConfig_new config with
    | Raise _ => false
    | Ok layout_config =>
        is_ok (ComicLayoutTool.PIL.Image_new pil
                 (LayoutConfig.page_width layout_config,
                  LayoutConfig.page_height layout_config)
                 (LayoutConfig.background_color layout_config))
        && negb (bool_decide (panels = []))
        && forallb text_iterable panels
        && is_ok (ComicLayoutTool.PIL.save pil
                    ("/tmp/page_" +:+ pretty (ComicLayoutTool.PIL.id pil) +:+ ".png"))
    end
  /\ (forall typed_panels typed_config,
        ComicLayoutToolAny._run pil (any_panel <$> typed_panels) layout_style
          (any_config <$> typed_config)
        = ComicLayoutTool._run pil typed_panels layout_style typed_config).
Proof.
  split.
  - unfold ComicLayoutToolAny._run.
    destruct (ComicLayoutToolAny.LayoutConfig_new config) as [layout_config|e]; [|done].
    simpl. destruct (ComicLayoutTool.PIL.Image_new pil _ _) as [[]|e]; [|done].
    simpl. rewrite calculate_positions_grid.
    destruct panels as [|panel_data panels]; [done|].
    rewrite _grid_layout_eq by (unfold len; simpl length; lia). simpl.
    match goal with
    | |- context [ComicLayoutToolAny.add_text_elements pil ?page ?ps] =>
        pose proof (add_text_elements_iterable ps page) as Htext;
        destruct (ComicLayoutToolAny.add_text_elements pil page ps) as [page'|e]
    end; simpl in Htext; rewrite <- Htext; [|done].
    simpl. by destruct (ComicLayoutTool.PIL.save pil _) as [[]|e].
  - intros typed_panels typed_config.
    unfold ComicLayoutToolAny._run, ComicLayoutTool._run.
    rewrite any_config_accepted. simpl.
    destruct (ComicLayoutTool.PIL.Image_new pil _ _) as [[]|e]; [|done]. simpl.
    unfold len. rewrite length_fmap.
    destruct (ComicLayoutTool._calculate_positions _ _ _) as [positions|e]; [|done].
    simpl. rewrite <- (any_place_panels (zip typed_panels positions)).
    assert (zip (any_panel <$> typed_panels) positions
            = prod_map any_panel id <$> zip typed_panels positions) as ->.
    { clear. revert positions.
      induction typed_panels as [|p ps IH]; intros [|q qs]; simpl; try done.
      by rewrite IH. }
    by rewrite any_add_text_elements.
Qed.

(** A ['text_elements'] that is [None] makes [_run] raise, although the
    page can be created, laid out and saved. *)
Example run_raises_on_none_text_elements :
  ComicLayoutToolAny._run pil_all_ok [panel_with_none_text] "grid" None
  = Raise (Exception "'NoneType' object is not iterable").
Proof. reflexivity. Qed.






End RunProperties.


(** ** Typography *)

Lemma typography_lookup text text_type style k :
  TypographyTool._run text text_type style !! k
  = if decide (k = "text_type") then Some (VStr text_type)
    else if decide (k = "text") then Some (VStr text)
    else match default ∅ style !! k with
         | Some v => Some v
         | None =>
             default (TypographyTool.defaults !!! "dialogue")
               (TypographyTool.defaults !! text_type) !! k
         end.
Proof.
  unfold TypographyTool._run.
  destruct (decide (k = "text_type")) as [->|H1]; [by rewrite lookup_insert_eq|].
  rewrite lookup_insert_ne by done.
  destruct (decide (k = "text")) as [->|H2]; [by rewrite lookup_insert_eq|].
  rewrite lookup_insert_ne by done.
  rewrite lookup_union. by destruct (default ∅ style !! k), (default _ _ !! k).
Qed.

Lemma typography_unknown_type text_type :
  text_type <> "dialogue" -> text_type <> "caption" -> text_type <> "sound_effect" ->
  TypographyTool.defaults !! text_type = None.
Proof.
  intros H1 H2 H3. unfold TypographyTool.defaults. simpl.
  by rewrite !lookup_insert_ne, lookup_empty.
Qed.

(** X4: in the configuration [TypographyTool._run] returns, ["text"] and
    ["text_type"] are always the arguments, whatever the style says; any
    other key of the style overrides the default; a key the style does not
    mention keeps the value it has without a style; and a text type that is
    none of dialogue, caption and sound_effect gets the defaults of
    dialogue, under its own name. *)
Theorem typography_merges_style text text_type style :
  TypographyTool._run text text_type (Some style) !! "text" = Some (VStr text)
  /\ TypographyTool._run text text_type (Some style) !! "text_type" = Some (VStr text_type)
  /\ (forall k v, k <> "text" -> k <> "text_type" -> style !! k = Some v ->
        TypographyTool._run text text_type (Some style) !! k = Some v)
  /\ (forall k, style !! k = None ->
        TypographyTool._run text text_type (Some style) !! k
        = TypographyTool._run text text_type None !! k)
  /\ (text_type <> "dialogue" -> text_type <> "caption" -> text_type <> "sound_effect" ->
      TypographyTool._run text text_type (Some style)
      = <["text_type" := VStr text_type]> (TypographyTool._run text "dialogue" (Some style))).
Proof.
  split; [by rewrite typography_lookup|]. split; [by rewrite typography_lookup|].
  split; [|split].
  - intros k v H1 H2 Hk. rewrite typography_lookup. simpl. rewrite Hk.
    by repeat case_decide.
  - intros k Hk. rewrite !typography_lookup. simpl. rewrite Hk, lookup_empty. done.
  - intros H1 H2 H3. apply map_eq. intros k.
    destruct (decide (k = "text_type")) as [->|Hk].
    + by rewrite lookup_insert_eq, typography_lookup.
    + rewrite lookup_insert_ne by done. rewrite !typography_lookup.
      rewrite (typography_unknown_type _ H1 H2 H3). simpl.
      unfold lookup_total, map_lookup_total.
      destruct (TypographyTool.defaults !! "dialogue"); by repeat case_decide.
Qed.

(** X5: feeding the configuration back as the style changes nothing:
    [_run text text_type (_run text text_type style)] is
    [_run text text_type style]. *)
Theorem typography_idempotent text text_type style :
  TypographyTool._run text text_type
    (Some (TypographyTool._run text text_type style))
  = TypographyTool._run text text_type style.
Proof.
  apply map_eq. intros k. rewrite (typography_lookup _ _ (Some _)). simpl.
  repeat case_decide; subst; try by rewrite typography_lookup.
  destruct (TypographyTool._run text text_type style !! k) eqn:E; [done|].
  rewrite typography_lookup in E. repeat case_decide; try done.
  by destruct (default ∅ style !! k).
Qed.

(** ** Export: unknown formats and pages that fail *)

Section ExportMore.
Context {World : Type} (sys : Sys.t World).
Context (pages : list string) (output_dir title : string).

Lemma export_loop_filter_known formats : forall results w,
  ExportManager.export_loop sys pages output_dir title results formats w
  = ExportManager.export_loop sys pages output_dir title results
      (List.filter known_format formats) w.
Proof.
  induction formats as [|format_name formats IH]; intros results w; [done|].
  simpl. rewrite export_loop_cons.
  pose proof (run_format_known sys pages output_dir title format_name) as Hk.
  destruct (run_format sys pages output_dir title format_name) as [run|] eqn:Erun.
  - assert (known_format format_name = true) as -> by (apply Hk; by eexists).
    rewrite export_loop_cons, Erun. destruct (run w) as [[r|e] w1]; apply IH.
  - assert (known_format format_name = false) as ->; [|apply IH].
    destruct (known_format format_name); [|done].
    destruct Hk as [_ Hk]. by destruct Hk.
Qed.

Lemma record_outcomes_dom outcomes : forall results,
  dom (record_outcomes results outcomes) ⊆ dom results ∪ list_to_set outcomes.*1.
Proof.
  induction outcomes as [|[f o] outcomes IH]; intros results; simpl.
  - set_solver.
  - etrans; [apply IH|]. destruct o as [r|e]; [rewrite dom_insert|]; set_solver.
Qed.

(** X6: [export_all] passes over format names other than pdf, cbz and web
    as if they had not been requested, in the result and in what it does
    to the world, and the map it returns never has another key than these
    three. *)
Theorem export_all_ignores_unknown_formats formats w :
  ExportManager.export_all sys pages output_dir title formats w
  = ExportManager.export_all sys pages output_dir title
      (List.filter known_format formats) w
  /\ exists results w',
       ExportManager.export_all sys pages output_dir title formats w = (Ok results, w')
       /\ dom results ⊆ {["pdf"; "cbz"; "web"]}.
Proof.
  split; [apply export_loop_filter_known|].
  unfold ExportManager.export_all.
  destruct (export_loop_outcomes sys pages output_dir title formats ∅ w) as [w' E].
  eexists _, w'. split; [exact E|].
  etrans; [apply record_outcomes_dom|].
  rewrite attempts_formats, dom_empty.
  intros f Hf. apply elem_of_union in Hf as [Hf|Hf]; [set_solver|].
  apply elem_of_list_to_set, list_elem_of_In, List.filter_In in Hf as [_ Hf].
  unfold known_format in Hf.
  rewrite !elem_of_union, !elem_of_singleton.
  destruct (String.eqb_spec f "pdf") as [Heq|_]; [auto|].
  destruct (String.eqb_spec f "cbz") as [Heq|_]; [auto|].
  destruct (String.eqb_spec f "web") as [Heq|_]; [auto|done].
Qed.

End ExportMore.

Section ExportPages.
Context {World : Type} (sys : Sys.t World).

(** A page loop whose body never raises does not raise. *)
Lemma io_for_never_raises {A} (body : unit -> A -> IO World unit) l :
  (forall a w, exists w', body () a w = (Ok (), w')) ->
  forall w, exists w', io_for body () l w = (Ok (), w').
Proof.
  intros Hbody. induction l as [|a l IH]; intros w; [by exists w|].
  rewrite io_for_cons. destruct (Hbody a w) as [w1 ->]. apply IH.
Qed.

(** X7: where creating directories, opening, closing and saving the
    output and reading its size succeed, every exporter returns a result
    whatever happens to the single pages; the pdf and cbz results count
    every page given, also those that could not be added. *)
Theorem exporters_survive_page_failures pages output_path title author optimize w :
  setup_never_fails sys ->
  (exists r w',
     PDFExportTool._run sys pages output_path title author w = (Ok r, w')
     /\ ExportResult.page_count r = len pages)
  /\ (exists r w',
        CBZExportTool._run sys pages output_path title w = (Ok r, w')
        /\ ExportResult.page_count r = len pages)
  /\ (exists r w',
        WebExportTool._run sys pages output_path title optimize w = (Ok r, w')
        /\ 0 <= ExportResult.page_count r <= len pages).
Proof.
  intros (Hmkdir & Hsize & Hcanvas & Hsave & Hzopen & Hzstr & Hzclose & Hwrite).
  split; [|split].
  - unfold PDFExportTool._run, mbind, io_bind.
    pose proof (Hmkdir (Sys.parent sys (Sys.Path sys output_path)) w) as H1.
    destruct (Sys.mkdir sys _ w) as [[[]|e] w1]; [|done].
    pose proof (Hcanvas (Sys.Path sys output_path) title author w1) as H2.
    destruct (Sys.canvas_new sys _ _ _ w1) as [[[]|e] w2]; [|done].
    match goal with
    | |- context [io_for ?body () pages w2] =>
        destruct (io_for_never_raises body pages) with (w := w2) as [w3 ->]
    end.
    { intros a w0. unfold try_except.
      destruct (Sys.canvas_draw_page sys a w0) as [[[]|e] w0']; by eexists. }
    pose proof (Hsave w3) as H3.
    destruct (Sys.canvas_save sys w3) as [[[]|e] w4]; [|done].
    pose proof (Hsize (Sys.Path sys output_path) w4) as H4.
    destruct (Sys.st_size sys _ w4) as [[size|e] w5]; [|done].
    by eexists _, _.
  - unfold CBZExportTool._run, mbind, io_bind, try_finally.
    pose proof (Hmkdir (Sys.parent sys (Sys.Path sys output_path)) w) as H1.
    destruct (Sys.mkdir sys _ w) as [[[]|e] w1]; [|done].
    match goal with
    | |- context [Sys.zip_open sys ?f w1] =>
        pose proof (Hzopen f w1) as H2;
        destruct (Sys.zip_open sys f w1) as [[[]|e] w2]; [|done]
    end.
    match goal with
    | |- context [io_for ?body () ?l w2] =>
        destruct (io_for_never_raises body l) with (w := w2) as [w3 ->]
    end.
    { intros [idx page_path] w0. unfold try_except.
      destruct (Sys.zip_write sys page_path _ w0) as [[[]|e] w0']; by eexists. }
    match goal with
    | |- context [Sys.zip_writestr sys ?n ?c w3] =>
        pose proof (Hzstr n c w3) as H3;
        destruct (Sys.zip_writestr sys n c w3) as [[[]|e] w4]; [|done]
    end.
    pose proof (Hzclose w4) as H4.
    destruct (Sys.zip_close sys w4) as [[[]|e] w5]; [|done].
    match goal with
    | |- context [Sys.st_size sys ?f w5] =>
        pose proof (Hsize f w5) as H5;
        destruct (Sys.st_size sys f w5) as [[size|e] w6]; [|done]
    end.
    by eexists _, _.
  - unfold WebExportTool._run, mbind, io_bind.
    pose proof (Hmkdir (Sys.Path sys output_path) w) as H1.
    destruct (Sys.mkdir sys _ w) as [[[]|e] w1]; [|done].
    pose proof (Hmkdir (Sys.joinpath sys (Sys.Path sys output_path) "images") w1) as H2.
    destruct (Sys.mkdir sys _ w1) as [[[]|e] w2]; [|done].
    match goal with
    | |- context [io_for ?b (?t, ?p) ?l w2] =>
        destruct (web_loop_pages sys optimize
                    (Sys.joinpath sys (Sys.Path sys output_path) "images") l t p w2)
          as (t' & p' & w3 & -> & Hlen)
    end.
    match goal with
    | |- context [Sys.write_text sys ?f ?c w3] =>
        pose proof (Hwrite f c w3) as H3;
        destruct (Sys.write_text sys f c w3) as [[[]|e] w4]; [|done]
    end.
    eexists _, _. split; [reflexivity|]. simpl in *.
    rewrite enumerate_length in Hlen. unfold len. lia.
Qed.

End ExportPages.

Lemma exporters_survive_page_failures_witness :
  (exists r w',
     PDFExportTool._run sys_pages_fail ["page_1.png"; "page_2.png"] "out/Comic.pdf"
       "Comic" "AI Generated" () = (Ok r, w')
     /\ ExportResult.page_count r = len ["page_1.png"; "page_2.png"])
  /\ (exists r w',
        CBZExportTool._run sys_pages_fail ["page_1.png"; "page_2.png"] "out/Comic.pdf"
          "Comic" () = (Ok r, w')
        /\ ExportResult.page_count r = len ["page_1.png"; "page_2.png"])
  /\ (exists r w',
        WebExportTool._run sys_pages_fail ["page_1.png"; "page_2.png"] "out/Comic.pdf"
          "Comic" true () = (Ok r, w')
        /\ 0 <= ExportResult.page_count r <= len ["page_1.png"; "page_2.png"]).
Proof.
  apply (exporters_survive_page_failures sys_pages_fail
           ["page_1.png"; "page_2.png"] "out/Comic.pdf" "Comic" "AI Generated" true ()).
  repeat split.
Defined.

(** ** The image tool's outcomes *)

Section ImageOutcomes.
Context {World : Type} (text_to_image : Text2Image.t -> IO World Response.t).

(** X8: once the service has answered, [ModelsLabImageTool._run] returns a
    result exactly when the answer's status is "success" with at least one
    output, or "processing"; on success the [image_url] is the first
    output; on any other status it raises "ModelsLab API error: " followed
    by the answer's message, or by "Unknown error" when there is none. *)
Theorem image_run_outcomes (self : ModelsLabImageTool.t) prompt negative_prompt
  width height seed style w response w' :
  text_to_image
    (ModelsLabImageTool.schema self (ModelsLabImageTool.enhance prompt style)
       negative_prompt width height seed) w
  = (Ok response, w') ->
  let outcome :=
    (ModelsLabImageTool._run text_to_image self prompt negative_prompt width height
       seed style w).1 in
  (is_ok outcome = true
   <-> (Response.status response = Some "success"
        /\ exists url rest, Response.output response = Some (url :: rest))
       \/ Response.status response = Some "processing")
  /\ (forall url rest,
        Response.status response = Some "success" ->
        Response.output response = Some (url :: rest) ->
        exists r, outcome = Ok r /\ ImageGenerationResult.image_url r = url)
  /\ (Response.status response <> Some "success" ->
      Response.status response <> Some "processing" ->
      outcome
      = Raise (Exception ("ModelsLab API error: "
                          +:+ default "Unknown error" (Response.message response)))).
Proof.
  intros Hreq. unfold ModelsLabImageTool._run, mbind, io_bind. rewrite Hreq.
  unfold lift_result, ModelsLabImageTool.handle_response. simpl.
  split; [|split].
  - repeat case_bool_decide.
    + destruct (Response.output response) as [[|url rest]|]; simpl.
      * split; [done|]. intros [[_ (u & r & H')]|H']; congruence.
      * split; [|done]. intros _. left. split; [done|]. by eexists _, _.
      * split; [done|]. intros [[_ (u & r & H')]|H']; congruence.
    + split; [by right|done].
    + split; [done|]. intros [[H' _]|H']; congruence.
  - intros url rest Hs Ho. rewrite bool_decide_eq_true_2 by done. rewrite Ho.
    by eexists.
  - intros H1 H2. by rewrite !bool_decide_eq_false_2.
Qed.

End ImageOutcomes.

Lemma image_run_outcomes_witness :
  let finished := Response.mk (Some "success") (Some ["https://cdn/panel.png"]) None None in
  let outcome :=
    (ModelsLabImageTool._run text_to_image_queue default_image_tool "a robot" None None
       None None None [finished]).1 in
  (is_ok outcome = true
   <-> (Response.status finished = Some "success"
        /\ exists url rest, Response.output finished = Some (url :: rest))
       \/ Response.status finished = Some "processing")
  /\ (forall url rest,
        Response.status finished = Some "success" ->
        Response.output finished = Some (url :: rest) ->
        exists r, outcome = Ok r /\ ImageGenerationResult.image_url r = url)
  /\ (Response.status finished <> Some "success" ->
      Response.status finished <> Some "processing" ->
      outcome
      = Raise (Exception ("ModelsLab API error: "
                          +:+ default "Unknown error" (Response.message finished)))).
Proof.
  intros finished.
  apply (image_run_outcomes text_to_image_queue default_image_tool "a robot" None None
           None None None [finished] finished []).
  reflexivity.
Defined.

(** ** Submitting, running and fetching a job *)

Section JobEndToEnd.
Context {W : Type}.
Context (generate_from_pdf : string -> string -> Z -> IO W ComicBook.t).
Context (generate_from_text : option string -> string -> Kwargs.t -> IO W ComicBook.t).
Context (uuid4 : IO W string).
Context (save_upload : string -> string -> IO W string).
Context (path_exists : string -> IO W bool).

Lemma present_tracks job_id r job :
  Registry.jobs r !! job_id = Some job ->
  tracks job_id r r job (job_history job_id (Registry.history r)).
Proof.
  intros Hjob. split; [done|]. split; [done|]. exists []. split; [by rewrite app_nil_r|].
  by apply Forall_singleton.
Qed.

Lemma scan_app job updates1 updates2 :
  scan job (updates1 ++ updates2)
  = scan job updates1 ++ scan (updated job updates1) updates2.
Proof.
  revert job. induction updates1 as [|upd updates1 IH]; intros job; simpl; [done|].
  by rewrite IH.
Qed.

Ltac run_setitem' H :=
  match goal with
  | |- context [Api.setitem ?id ?upd (?r, ?w)] =>
      let r' := fresh "r" in
      let E := fresh "E" in
      let H' := fresh "H" in
      destruct (setitem_tracks id _ r _ _ upd w H) as (r' & E & H');
      rewrite E; clear E H; rename H' into H; cbv beta iota
  end.

(** The task run on a registered job, the generator's outcome known. *)
Lemma generate_comic_task_runs job_id data r0 r job hist w outcome w' :
  tracks job_id r0 r job hist ->
  generator_call generate_from_pdf generate_from_text data w = (outcome, w') ->
  let updates :=
    updates_before
    ++ match outcome with
       | Ok result => updates_completed result
       | Raise e => updates_failed e
       end in
  exists r',
    Api.generate_comic_task generate_from_pdf generate_from_text job_id data (r, w)
    = (Ok (), (r', w'))
    /\ tracks job_id r0 r' (updated job updates) (hist ++ scan job updates).
Proof.
  intros H Hcall. unfold Api.generate_comic_task, try_except, mbind, io_bind.
  do 7 run_setitem' H.
  unfold generator_call in Hcall.
  destruct (truthy_str (TaskData.file_path data)) as [file_path|];
    rewrite outside_run, Hcall; simpl fst; simpl snd;
    destruct outcome as [result|e]; cbv beta iota.
  1, 3: do 4 run_setitem' H; eexists; (split; [reflexivity|]);
    simpl; rewrite <- !app_assoc in H; exact H.
  all: do 2 run_setitem' H; eexists; (split; [reflexivity|]);
    simpl; rewrite <- !app_assoc in H; exact H.
Qed.

(** X9: a job that [generate_comic] has registered is found at once by
    [get_job_status], queued with progress 0 and no result, and
    [download_comic] answers 400 "Comic not ready" for it in any format;
    an id that is not in the registry gets 404 "Job not found" from both. *)
Theorem submitted_job_is_queued text title art_style target_pages target_audience
  file st job_id data st' format :
  Api.generate_comic uuid4 save_upload text title art_style target_pages
    target_audience file st
  = (Ok (job_id, data), st') ->
  ApiQueries.get_job_status job_id st'
  = (Ok (Job.mk job_id "queued" 0 "Queued" "Comic generation queued" None), st')
  /\ ApiQueries.download_comic path_exists job_id format st'
     = (Raise (HTTPException 400 "Comic not ready"), st')
  /\ (forall other,
        Registry.jobs st'.1 !! other = None ->
        ApiQueries.get_job_status other st'
        = (Raise (HTTPException 404 "Job not found"), st')
        /\ ApiQueries.download_comic path_exists other format st'
           = (Raise (HTTPException 404 "Job not found"), st')).
Proof.
  intros Hsubmit.
  assert (Registry.jobs st'.1 !! job_id
          = Some (Job.mk job_id "queued" 0 "Queued" "Comic generation queued" None))
    as Hjob.
  { destruct st as [r w].
    unfold Api.generate_comic, try_except, mbind, io_bind in Hsubmit.
    rewrite outside_run in Hsubmit.
    destruct (uuid4 w) as [[id|e] w1]; simpl in Hsubmit; [|done].
    destruct file as [filename|].
    - rewrite outside_run in Hsubmit.
      destruct (save_upload id filename w1) as [[temp_path|e] w2];
        simpl in Hsubmit; [|done].
      unfold mret, io_ret in Hsubmit. simplify_eq. simpl. apply lookup_insert_eq.
    - unfold mret, io_ret in Hsubmit. simplify_eq. simpl. apply lookup_insert_eq. }
  destruct st' as [r' w']. simpl in Hjob.
  split; [|split].
  - unfold ApiQueries.get_job_status. by rewrite Hjob.
  - unfold ApiQueries.download_comic. by rewrite Hjob.
  - intros other Hother. simpl in Hother.
    unfold ApiQueries.get_job_status, ApiQueries.download_comic. by rewrite Hother.
Qed.

(** X10: when the generator raises, the task does not: it leaves the job
    failed, with the text of the exception as its message, its progress
    where it stood (0.6, "Generating artwork") and its result untouched;
    [get_job_status] shows that record and [download_comic] answers 400
    "Comic not ready". *)
Theorem failed_generation_surfaces job_id data r w job e w' format :
  Registry.jobs r !! job_id = Some job ->
  generator_call generate_from_pdf generate_from_text data w = (Raise e, w') ->
  let failed :=
    Job.mk (Job.job_id job) "failed" (6 # 10) "Generating artwork" (str_exn e)
      (Job.result job) in
  exists r',
    Api.generate_comic_task generate_from_pdf generate_from_text job_id data (r, w)
    = (Ok (), (r', w'))
    /\ ApiQueries.get_job_status job_id (r', w') = (Ok failed, (r', w'))
    /\ ApiQueries.download_comic path_exists job_id format (r', w')
       = (Raise (HTTPException 400 "Comic not ready"), (r', w')).
Proof.
  intros Hjob Hcall failed.
  destruct (generate_comic_task_runs job_id data r r job _ w _ w'
              (present_tracks _ _ _ Hjob) Hcall) as (r' & E & Hfinal & _).
  exists r'. split; [exact E|]. simpl in Hfinal.
  unfold ApiQueries.get_job_status, ApiQueries.download_comic. by rewrite Hfinal.
Qed.

(** X11: when the generator returns a comic, the task leaves the job
    completed with progress 1 and a result naming the comic's title, page
    count and format and, as its file, the first page of the comic; the
    job's message is never updated.  [download_comic] then serves that
    first page whatever format is asked for, as application/pdf for "pdf"
    and as application/x-cbz for anything else, under the name
    [title.format]; for a comic without pages, or when the file is gone,
    it answers 404 "File not found". *)
Theorem completed_job_serves_first_page job_id data r w job comic w' :
  Registry.jobs r !! job_id = Some job ->
  generator_call generate_from_pdf generate_from_text data w = (Ok comic, w') ->
  let completed :=
    Job.mk (Job.job_id job) "completed" 1 "Complete" (Job.message job)
      (Some (JobResult.mk (ComicBook.title comic) (ComicBook.total_pages comic)
               (ComicBook.format comic) (head (ComicBook.pages comic)))) in
  exists r',
    Api.generate_comic_task generate_from_pdf generate_from_text job_id data (r, w)
    = (Ok (), (r', w'))
    /\ ApiQueries.get_job_status job_id (r', w') = (Ok completed, (r', w'))
    /\ (forall format w1 first w2,
          truthy_str (head (ComicBook.pages comic)) = Some first ->
          path_exists first w1 = (Ok true, w2) ->
          ApiQueries.download_comic path_exists job_id format (r', w1)
          = (Ok (FileResponse.mk first
                   (if String.eqb format "pdf" then "application/pdf"
                    else "application/x-cbz")
                   (ComicBook.title comic +:+ "." +:+ format)),
             (r', w2)))
    /\ (forall format w1,
          truthy_str (head (ComicBook.pages comic)) = None ->
          ApiQueries.download_comic path_exists job_id format (r', w1)
          = (Raise (HTTPException 404 "File not found"), (r', w1)))
    /\ (forall format w1 first w2,
          truthy_str (head (ComicBook.pages comic)) = Some first ->
          path_exists first w1 = (Ok false, w2) ->
          ApiQueries.download_comic path_exists job_id format (r', w1)
          = (Raise (HTTPException 404 "File not found"), (r', w2))).
Proof.
  intros Hjob Hcall completed.
  destruct (generate_comic_task_runs job_id data r r job _ w _ w'
              (present_tracks _ _ _ Hjob) Hcall) as (r' & E & Hfinal & _).
  exists r'. split; [exact E|]. simpl in Hfinal.
  unfold ApiQueries.get_job_status, ApiQueries.download_comic. rewrite Hfinal. simpl.
  split; [done|]. split; [|split].
  - intros format w1 first w2 Hfirst Hexists. by rewrite Hfirst, Hexists.
  - intros format w1 Hfirst. by rewrite Hfirst.
  - intros format w1 first w2 Hfirst Hexists. by rewrite Hfirst, Hexists.
Qed.

End JobEndToEnd.

Lemma submitted_job_is_queued_witness :
  let submitted :=
    Api.generate_comic api_uuid4 api_save_upload
      (Some "A robot finds a flower in a desert.") "Robot" "cartoon" 1 "general"
      (Some "story.pdf") (Registry.mk ∅ [], ()) in
  ApiQueries.get_job_status "job-1" submitted.2
  = (Ok (Job.mk "job-1" "queued" 0 "Queued" "Comic generation queued" None), submitted.2)
  /\ ApiQueries.download_comic every_path_exists "job-1" "pdf" submitted.2
     = (Raise (HTTPException 400 "Comic not ready"), submitted.2)
  /\ (forall other,
        Registry.jobs submitted.2.1 !! other = None ->
        ApiQueries.get_job_status other submitted.2
        = (Raise (HTTPException 404 "Job not found"), submitted.2)
        /\ ApiQueries.download_comic every_path_exists other "pdf" submitted.2
           = (Raise (HTTPException 404 "Job not found"), submitted.2)).
Proof.
  intros submitted.
  apply (submitted_job_is_queued api_uuid4 api_save_upload every_path_exists
           (Some "A robot finds a flower in a desert.") "Robot" "cartoon" 1 "general"
           (Some "story.pdf") (Registry.mk ∅ [], ()) "job-1"
           (TaskData.mk (Some "A robot finds a flower in a desert.") "Robot" "cartoon"
              1 "general" (Some "temp/job-1_story.pdf"))).
  reflexivity.
Defined.

Lemma failed_generation_surfaces_witness :
  let failed :=
    Job.mk "job-1" "failed" (6 # 10) "Generating artwork"
      "ModelsLab API error: service unavailable" None in
  exists r',
    Api.generate_comic_task (fun _ _ _ => generator_down) (fun _ _ _ => generator_down)
      "job-1" text_task (registry_one_queued, ())
    = (Ok (), (r', ()))
    /\ ApiQueries.get_job_status "job-1" (r', ()) = (Ok failed, (r', ()))
    /\ ApiQueries.download_comic every_path_exists "job-1" "pdf" (r', ())
       = (Raise (HTTPException 400 "Comic not ready"), (r', ())).
Proof.
  apply (failed_generation_surfaces (fun _ _ _ => generator_down)
           (fun _ _ _ => generator_down) every_path_exists "job-1" text_task
           registry_one_queued () (queued_job "job-1")
           (Exception "ModelsLab API error: service unavailable") () "pdf");
    reflexivity.
Defined.

Lemma completed_job_serves_first_page_witness :
  let completed :=
    Job.mk "job-1" "completed" 1 "Complete" "Comic generation queued"
      (Some (JobResult.mk "Robot" 2 "pdf" (Some "out/page_1.png"))) in
  exists r',
    Api.generate_comic_task (fun _ _ _ => generator_done) (fun _ _ _ => generator_done)
      "job-1" text_task (registry_one_queued, ())
    = (Ok (), (r', ()))
    /\ ApiQueries.get_job_status "job-1" (r', ()) = (Ok completed, (r', ()))
    /\ (forall format w1 first w2,
          truthy_str (head (ComicBook.pages robot_comic)) = Some first ->
          every_path_exists first w1 = (Ok true, w2) ->
          ApiQueries.download_comic every_path_exists "job-1" format (r', w1)
          = (Ok (FileResponse.mk first
                   (if String.eqb format "pdf" then "application/pdf"
                    else "application/x-cbz")
                   (ComicBook.title robot_comic +:+ "." +:+ format)),
             (r', w2)))
    /\ (forall format w1,
          truthy_str (head (ComicBook.pages robot_comic)) = None ->
          ApiQueries.download_comic every_path_exists "job-1" format (r', w1)
          = (Raise (HTTPException 404 "File not found"), (r', w1)))
    /\ (forall format w1 first w2,
          truthy_str (head (ComicBook.pages robot_comic)) = Some first ->
          every_path_exists first w1 = (Ok false, w2) ->
          ApiQueries.download_comic every_path_exists "job-1" format (r', w1)
          = (Raise (HTTPException 404 "File not found"), (r', w2))).
Proof.
  apply (completed_job_serves_first_page (fun _ _ _ => generator_done)
           (fun _ _ _ => generator_done) every_path_exists "job-1" text_task
           registry_one_queued () (queued_job "job-1") robot_comic ());
    reflexivity.
Defined.

(** ** The orchestrator's stages *)

Section Stages.
Context {World : Type} (crews : Crews.t World) (config : GeneratorConfig.t).

(** X12: [generate_from_pdf] stops at the first stage that fails, in the
    world that stage left: a crew's exception is passed on as it is; a
    document processing without structured output raises ValueError
    "Document processing failed" before the content crew is started; a
    content output with neither [pydantic] nor [json_dict] raises
    ValueError "Content generation failed: No structured output received"
    before the visual crew is started. *)
Theorem generate_from_pdf_stops_at_first_failure pdf_path target_language art_style
  target_pages output_formats w :
  let run :=
    ComicBookGenerator.generate_from_pdf crews config pdf_path target_language
      art_style target_pages output_formats w in
  let processed := Crews.processing_kickoff crews pdf_path "pdf" w in
  (forall e, processed.1 = Raise e -> run = (Raise e, processed.2))
  /\ (processed.1 = Ok None ->
      run = (Raise (ValueError "Document processing failed"), processed.2))
  /\ (forall doc, processed.1 = Ok (Some doc) ->
        let content :=
          Crews.content_kickoff crews
            (ContentInputs.mk (Some (ProcessedDocument.content doc))
               (ProcessedDocument.language doc) target_language
               (default "general" (GeneratorConfig.target_audience config))
               target_pages art_style "story") processed.2 in
        (forall e, content.1 = Raise e -> run = (Raise e, content.2))
        /\ (forall out, content.1 = Ok out ->
              ContentOutput.pydantic out = None ->
              ContentOutput.json_dict out = None ->
              run = (Raise (ValueError
                              "Content generation failed: No structured output received"),
                     content.2))).
Proof.
  intros run processed. subst run processed.
  unfold ComicBookGenerator.generate_from_pdf, mbind, io_bind.
  destruct (Crews.processing_kickoff crews pdf_path "pdf" w) as [[[doc|]|e] w1];
    simpl; (split; [by intros e' [= ->] || done|]); (split; [done|]);
    intros doc' Hdoc; simplify_eq.
  destruct (Crews.content_kickoff crews _ w1) as [[out|e] w2]; simpl.
  - split; [done|]. intros out' [= <-] Hp Hj.
    unfold lift_result, ComicBookGenerator.script_of. by rewrite Hp, Hj.
  - split; [by intros e' [= ->]|done].
Qed.

(** X13: once the document is processed, [generate_from_pdf] is
    [generate_from_text] run on the document's content and language, with
    the same target language, art style and page count, the configured
    audience and the requested formats (pdf when none is given), whatever
    title [generate_from_text] is given: it does not use its title. *)
Theorem generate_from_pdf_continues_as_text pdf_path target_language art_style
  target_pages output_formats title w doc w1 :
  Crews.processing_kickoff crews pdf_path "pdf" w = (Ok (Some doc), w1) ->
  ComicBookGenerator.generate_from_pdf crews config pdf_path target_language
    art_style target_pages output_formats w
  = ComicBookGenerator.generate_from_text crews config
      (Some (ProcessedDocument.content doc)) title
      (Kwargs.mk (Some (ProcessedDocument.language doc)) (Some target_language)
         (Some (default "general" (GeneratorConfig.target_audience config)))
         (Some target_pages) (Some art_style)
         (Some (match output_formats with
                | Some [] => ["pdf"]
                | Some l => l
                | None => ["pdf"]
                end)))
      w1.
Proof.
  intros Hdoc.
  unfold ComicBookGenerator.generate_from_pdf, ComicBookGenerator.generate_from_text,
    mbind, io_bind.
  by rewrite Hdoc.
Qed.

End Stages.

Lemma generate_from_pdf_continues_as_text_witness :
  ComicBookGenerator.generate_from_pdf crews_with_document
    (GeneratorConfig.mk None None None) "story.pdf" "en" "cartoon" 1 None ()
  = ComicBookGenerator.generate_from_text crews_with_document
      (GeneratorConfig.mk None None None)
      (Some (ProcessedDocument.content desert_document)) "Untitled"
      (Kwargs.mk (Some (ProcessedDocument.language desert_document)) (Some "en")
         (Some (default "general"
                  (GeneratorConfig.target_audience (GeneratorConfig.mk None None None))))
         (Some 1) (Some "cartoon") (Some ["pdf"]))
      ().
Proof.
  apply (generate_from_pdf_continues_as_text crews_with_document
           (GeneratorConfig.mk None None None) "story.pdf" "en" "cartoon" 1 None
           "Untitled" () desert_document ()).
  reflexivity.
Defined.

(** The orchestrator run end to end on crews that all succeed. *)
Example generate_from_pdf_runs :
  ComicBookGenerator.generate_from_pdf crews_with_document
    (GeneratorConfig.mk None None None) "story.pdf" "en" "cartoon" 1 None ()
  = (Ok (ComicBook.mk "Robot" "AI Generated" ["out/page_1.png"] 1 0 "pdf"), ()).
Proof. reflexivity. Qed.

(** ** Text normalization *)

Lemma lstrip_decompose s :
  exists ws, s = ws ++ PyStr.lstrip s /\ Forall (fun c => PyStr.isspace c = true) ws.
Proof.
  induction s as [|c s [ws [Hs Hws]]]; simpl.
  - by exists [].
  - destruct (PyStr.isspace c) eqn:Hc.
    + exists (c :: ws). split; [by rewrite Hs at 1|by constructor].
    + by exists [].
Qed.

Lemma rstrip_decompose s :
  exists ws, s = PyStr.rstrip s ++ ws /\ Forall (fun c => PyStr.isspace c = true) ws.
Proof.
  induction s as [|c s [ws [Hs Hws]]]; simpl.
  - by exists [].
  - destruct (PyStr.rstrip s) as [|r rs] eqn:Hr.
    + destruct (PyStr.isspace c) eqn:Hc.
      * exists (c :: ws). simpl in *. split; [by rewrite Hs at 1|by constructor].
      * exists ws. simpl in *. split; [by rewrite Hs at 1|done].
    + exists ws. split; [|done]. simpl. by rewrite Hs at 1.
Qed.

Lemma rstrip_cons_nonspace c s :
  PyStr.isspace c = false -> PyStr.rstrip (c :: s) = c :: PyStr.rstrip s.
Proof. intros Hc. simpl. destruct (PyStr.rstrip s); by rewrite ?Hc. Qed.

Lemma rstrip_idemp s : PyStr.rstrip (PyStr.rstrip s) = PyStr.rstrip s.
Proof.
  induction s as [|c s IH]; [done|]. simpl.
  destruct (PyStr.rstrip s) as [|r rs] eqn:Hr.
  - destruct (PyStr.isspace c) eqn:Hc; [done|]. simpl. by rewrite Hc.
  - change (PyStr.rstrip (c :: r :: rs)) with
      (match PyStr.rstrip (r :: rs) with
       | [] => if PyStr.isspace c then [] else [c]
       | r' => c :: r'
       end).
    by rewrite IH.
Qed.

Lemma lstrip_head s :
  match PyStr.lstrip s with
  | [] => True
  | c :: _ => PyStr.isspace c = false
  end.
Proof.
  induction s as [|c s IH]; [done|]. simpl.
  destruct (PyStr.isspace c) eqn:Hc; [done|]. by rewrite Hc.
Qed.

Lemma strip_idemp s : PyStr.strip (PyStr.strip s) = PyStr.strip s.
Proof.
  unfold PyStr.strip. pose proof (lstrip_head s) as Hhead.
  destruct (PyStr.lstrip s) as [|c m]; [done|].
  rewrite (rstrip_cons_nonspace c m Hhead). simpl PyStr.lstrip. rewrite Hhead.
  rewrite <- (rstrip_cons_nonspace c m Hhead). apply rstrip_idemp.
Qed.

Lemma lstrip_Forall (P : N -> Prop) s : Forall P s -> Forall P (PyStr.lstrip s).
Proof.
  induction 1 as [|c s Hc Hs IH]; simpl; [done|].
  destruct (PyStr.isspace c); [done|by constructor].
Qed.

Lemma rstrip_Forall (P : N -> Prop) s : Forall P s -> Forall P (PyStr.rstrip s).
Proof.
  induction 1 as [|c s Hc Hs IH]; simpl; [done|].
  destruct (PyStr.rstrip s) as [|r rs].
  - destruct (PyStr.isspace c); [constructor|by repeat constructor].
  - by constructor.
Qed.

Lemma strip_Forall (P : N -> Prop) s : Forall P s -> Forall P (PyStr.strip s).
Proof. intros. by apply rstrip_Forall, lstrip_Forall. Qed.

Lemma split_by_nonempty p s : PyStr.split_by p s <> [].
Proof. destruct s as [|c s]; simpl; [done|]. destruct (p c); [done|]. by destruct (PyStr.split_by p s). Qed.

Lemma split_by_app_sep p a c b :
  p c = true ->
  PyStr.split_by p (a ++ c :: b) = PyStr.split_by p a ++ PyStr.split_by p b.
Proof.
  intros Hc. induction a as [|x a IH]; simpl.
  - by rewrite Hc.
  - destruct (p x); [by rewrite IH|]. rewrite IH.
    pose proof (split_by_nonempty p a). by destruct (PyStr.split_by p a).
Qed.

Lemma split_by_no_sep p s :
  Forall (fun c => p c = false) s -> PyStr.split_by p s = [s].
Proof. induction 1 as [|c s Hc Hs IH]; simpl; [done|]. by rewrite Hc, IH. Qed.

Lemma split_by_pieces p s :
  Forall (Forall (fun c => p c = false)) (PyStr.split_by p s).
Proof.
  induction s as [|c s IH]; simpl; [by repeat constructor|].
  destruct (p c) eqn:Hc; [by constructor|].
  destruct (PyStr.split_by p s) as [|piece pieces]; [by repeat constructor|].
  inversion_clear IH. by repeat constructor.
Qed.

Lemma join_cons sep p q rest :
  PyStr.join sep (p :: q :: rest) = p ++ sep ++ PyStr.join sep (q :: rest).
Proof. done. Qed.

(** Splitting at a character and joining with it again gives the string back. *)
Lemma join_split_by p c s :
  (forall x, p x = true -> x = c) ->
  PyStr.join [c] (PyStr.split_by p s) = s.
Proof.
  intros Hp. induction s as [|x s IH]; [done|]. simpl.
  pose proof (split_by_nonempty p s) as Hne.
  destruct (p x) eqn:Hx.
  - destruct (PyStr.split_by p s) as [|q rest]; [done|].
    rewrite join_cons, IH. simpl. by rewrite (Hp x Hx).
  - destruct (PyStr.split_by p s) as [|q rest]; [done|].
    destruct rest as [|q' rest]; simpl in *; by rewrite <- IH.
Qed.

Lemma words_nil : PyStr.words [] = [].
Proof. done. Qed.

Lemma words_app_space a c b :
  PyStr.isspace c = true -> PyStr.words (a ++ c :: b) = PyStr.words a ++ PyStr.words b.
Proof. intros Hc. unfold PyStr.words. by rewrite split_by_app_sep, filter_app. Qed.

Lemma words_cons_space c s : PyStr.isspace c = true -> PyStr.words (c :: s) = PyStr.words s.
Proof. intros Hc. apply (words_app_space [] c s Hc). Qed.

Lemma words_spaces_l ws s :
  Forall (fun c => PyStr.isspace c = true) ws -> PyStr.words (ws ++ s) = PyStr.words s.
Proof. induction 1 as [|c ws Hc Hws IH]; simpl; [done|]. by rewrite words_cons_space. Qed.

Lemma words_spaces_r s ws :
  Forall (fun c => PyStr.isspace c = true) ws -> PyStr.words (s ++ ws) = PyStr.words s.
Proof.
  intros Hws. destruct Hws as [|c ws Hc Hws]; [by rewrite app_nil_r|].
  rewrite words_app_space by done.
  rewrite <- (app_nil_r ws), words_spaces_l by done. by rewrite app_nil_r.
Qed.

Lemma words_strip s : PyStr.words (PyStr.strip s) = PyStr.words s.
Proof.
  unfold PyStr.strip.
  destruct (lstrip_decompose s) as [ws [Hs Hws]].
  destruct (rstrip_decompose (PyStr.lstrip s)) as [ws' [Hs' Hws']].
  rewrite Hs at 2. rewrite words_spaces_l by done.
  rewrite Hs' at 2. by rewrite words_spaces_r.
Qed.

(** The words of a joined text are the words of its parts, when the
    separator is whitespace. *)
Lemma words_join c sep parts :
  PyStr.isspace c = true -> Forall (fun x => PyStr.isspace x = true) sep ->
  PyStr.words (PyStr.join (c :: sep) parts) = concat (PyStr.words <$> parts).
Proof.
  intros Hc Hsep. induction parts as [|p rest IH]; [done|].
  destruct rest as [|q rest].
  - simpl. by rewrite app_nil_r.
  - rewrite join_cons. change ((c :: sep) ++ ?x) with (c :: (sep ++ x)).
    rewrite words_app_space, words_spaces_l, IH by done. done.
Qed.

Lemma words_filter_nonempty (parts : list PyStr.t) :
  concat (PyStr.words <$> filter (fun line => line <> []) parts)
  = concat (PyStr.words <$> parts).
Proof.
  induction parts as [|p parts IH]; [done|].
  rewrite filter_cons. case_decide as Hp.
  - rewrite !fmap_cons, !concat_cons. f_equal. exact IH.
  - subst p. rewrite fmap_cons, concat_cons. exact IH.
Qed.

Lemma normalized_lines text :
  Forall kept_line
    (filter (fun line => line <> []) (PyStr.strip <$> PyStr.split 10 text)).
Proof.
  apply Forall_forall. intros line [Hne Hin]%list_elem_of_filter.
  apply list_elem_of_fmap in Hin as [piece [-> Hin]].
  repeat split; [done|apply strip_idemp|].
  apply strip_Forall.
  pose proof (split_by_pieces (N.eqb 10) text) as Hp.
  rewrite Forall_forall in Hp. by apply Hp.
Qed.

Lemma split_join_kept lines :
  Forall kept_line lines ->
  filter (fun line => line <> [])
    (PyStr.strip <$> PyStr.split 10 (PyStr.join [10; 10]%N lines)) = lines.
Proof.
  induction 1 as [|line rest [Hne [Hstrip Hnl]] Hrest IH]; [done|].
  destruct rest as [|q rest].
  - simpl. unfold PyStr.split. rewrite split_by_no_sep by done.
    simpl. rewrite Hstrip. rewrite filter_cons. by case_decide.
  - rewrite join_cons. unfold PyStr.split in *.
    change ([10%N; 10%N] ++ ?x) with (10%N :: ([] ++ 10%N :: x)).
    rewrite split_by_app_sep by done. rewrite split_by_no_sep by done.
    rewrite split_by_app_sep by done.
    rewrite !fmap_app, !filter_app.
    change (line :: q :: rest) with ([line] ++ [] ++ (q :: rest)).
    f_equal; [|exact IH].
    simpl. rewrite Hstrip, filter_cons. by case_decide.
Qed.

(** A normalized text is a fixed point of the normalization. *)
Lemma normalized_fixed_point text :
  TextProcessorTool._normalize_text (TextProcessorTool._normalize_text text)
  = TextProcessorTool._normalize_text text.
Proof.
  unfold TextProcessorTool._normalize_text.
  by rewrite split_join_kept by apply normalized_lines.
Qed.

(** X14: [_normalize_text] is idempotent: normalizing a normalized text
    changes nothing. *)
Theorem normalize_text_idempotent text :
  TextProcessorTool._normalize_text (TextProcessorTool._normalize_text text)
  = TextProcessorTool._normalize_text text.
Proof.
  unfold TextProcessorTool._normalize_text.
  pose proof (normalized_lines text) as Hkept.
  by rewrite (split_join_kept _ Hkept).
Qed.

(** X15: [_normalize_text] changes whitespace only: the words of the
    normalized text, as [str.split()] gives them, are the words of the
    text, in the same order. *)
Theorem normalize_text_keeps_words text :
  PyStr.words (TextProcessorTool._normalize_text text) = PyStr.words text.
Proof.
  unfold TextProcessorTool._normalize_text.
  rewrite (words_join 10%N [10%N]) by (done || by repeat constructor).
  rewrite words_filter_nonempty.
  rewrite <- (join_split_by (N.eqb 10) 10%N text) at 2
    by (by intros x ->%N.eqb_eq).
  rewrite (words_join 10%N []) by done.
  unfold PyStr.split. f_equal.
  induction (PyStr.split_by (N.eqb 10) text) as [|p ps IH]; [done|].
  rewrite !fmap_cons, words_strip. f_equal. exact IH.
Qed.


Lemma try_encodings_normalized {World} (fs : TextFiles.t World) text_path encodings w s w' :
  TextProcessorTool.try_encodings fs text_path encodings w = (Ok s, w') ->
  TextProcessorTool._normalize_text s = s.
Proof.
  revert w. induction encodings as [|encoding encodings IH]; intros w; simpl.
  - by unfold lift_result.
  - unfold mbind, io_bind.
    destruct (TextFiles.read_text fs text_path encoding w) as [[[content|]|e] w1];
      [|apply IH|done].
    intros [= <- <-]. apply normalized_fixed_point.
Qed.

(** X16: whatever [TextProcessorTool._run] returns, from a file in any of
    the encodings or from the given content, is normalized text: a fixed
    point of [_normalize_text]. *)
Theorem text_run_result_is_normalized {World} (fs : TextFiles.t World)
  text_path text_content w s w' :
  TextProcessorTool._run fs text_path text_content w = (Ok s, w') ->
  TextProcessorTool._normalize_text s = s.
Proof.
  unfold TextProcessorTool._run. destruct (truthy_str text_path) as [path|].
  - unfold TextProcessorTool._process_file, mbind, io_bind.
    destruct (TextFiles.path_exists fs path w) as [[[|]|e] w1]; cbn [negb];
      [apply try_encodings_normalized|by unfold lift_result|done].
  - destruct text_content as [[|c t]|]; try by unfold lift_result.
    intros [= <- <-]. apply normalized_fixed_point.
Qed.

Lemma text_run_result_is_normalized_witness :
  TextProcessorTool._normalize_text [233; 116; 233; 10; 10; 111; 107]%N
  = [233; 116; 233; 10; 10; 111; 107]%N.
Proof.
  apply (text_run_result_is_normalized latin1_file (Some "notes.txt") None ()
           [233; 116; 233; 10; 10; 111; 107]%N ()).
  reflexivity.
Defined.

(** ** The PDF tool *)

Section LocalState.
Context {L World : Type} (I : L -> Prop).

Lemma keeps_with_local {A} (m : IO World A) : keeps I (with_local (L := L) m).
Proof. intros l w Hl. unfold with_local. by destruct (m w). Qed.

Lemma keeps_modify (f : L -> L) :
  (forall l, I l -> I (f l)) -> keeps I (modify_local (World := World) f).
Proof. intros Hf l w Hl. by apply Hf. Qed.

Lemma keeps_ret {A} (a : A) : keeps I (mret (M := IO (L * World)) a).
Proof. by intros l w Hl. Qed.

Lemma keeps_lift {A} (r : result A) : keeps I (lift_result (World := L * World) r).
Proof. by intros l w Hl. Qed.

Lemma keeps_bind {A B} (m : IO (L * World) A) (k : A -> IO (L * World) B) :
  keeps I m -> (forall a, keeps I (k a)) -> keeps I (m ≫= k).
Proof.
  intros Hm Hk l w Hl. unfold mbind, io_bind.
  specialize (Hm l w Hl). destruct (m (l, w)) as [[a|e] [l1 w1]]; [|done].
  by apply Hk.
Qed.

Lemma keeps_try_finally {A} (body : IO (L * World) A) cleanup :
  keeps I body -> keeps I cleanup -> keeps I (try_finally body cleanup).
Proof.
  intros Hb Hc l w Hl. unfold try_finally.
  specialize (Hb l w Hl). destruct (body (l, w)) as [[a|e] [l1 w1]];
    specialize (Hc l1 w1 Hb); by destruct (cleanup (l1, w1)) as [[?|?] ?].
Qed.

Lemma keeps_io_for {A S} (body : S -> A -> IO (L * World) S) s items :
  (forall s a, keeps I (body s a)) -> keeps I (io_for body s items).
Proof.
  intros Hbody. revert s. induction items as [|a items IH]; intros s; simpl.
  - apply keeps_ret.
  - apply keeps_bind; [apply Hbody|done].
Qed.

Lemma collect_keeps init (body : IO (L * World) unit) w :
  I init -> keeps I body -> I (collect init body w).1.
Proof. intros Hinit Hbody. by apply Hbody. Qed.

End LocalState.

Section PdfProperties.
Context {World Page Image Info : Type} (lib : PdfLib.t World Page Image Info).

Lemma get_info_keeps (I : gmap string (MetaVal Info) -> Prop) key :
  keeps I (PDFProcessorTool.get_info lib key).
Proof.
  apply keeps_bind; [apply keeps_with_local|].
  intros [info|]; [apply keeps_ret|apply keeps_lift].
Qed.

Lemma extract_metadata_page_count pdf_path w :
  page_count_known (PDFProcessorTool._extract_metadata lib pdf_path w).1.
Proof.
  unfold PDFProcessorTool._extract_metadata.
  apply (collect_keeps page_count_known); [by left|].
  apply keeps_bind; [apply keeps_with_local|intros _].
  apply keeps_try_finally; [|apply keeps_with_local].
  apply keeps_bind; [apply keeps_with_local|intros _].
  apply keeps_bind; [apply keeps_with_local|intros info].
  apply keeps_bind.
  - destruct (PDFProcessorTool.truthy_info info); [|apply keeps_ret].
    repeat (apply keeps_bind; [apply get_info_keeps|intros ?]).
    apply keeps_modify. intros metadata Hm. unfold page_count_known.
    by rewrite lookup_union_r by done.
  - intros _. apply keeps_bind; [apply keeps_with_local|intros n].
    apply keeps_modify. intros metadata _. right. exists n.
    apply lookup_insert_eq.
Qed.

Lemma page_count_of_known (metadata : gmap string (MetaVal Info)) :
  page_count_known metadata ->
  exists n,
    PDFProcessorTool.page_count_of metadata = Ok n
    /\ (metadata !! "page_count" = None /\ n = 0
        \/ metadata !! "page_count" = Some (MInt n)).
Proof.
  unfold PDFProcessorTool.page_count_of. intros [Hnone|[n Hn]].
  - exists 0. rewrite Hnone. auto.
  - exists n. rewrite Hn. auto.
Qed.

(** Once the text is extracted, [_run] returns. *)
Lemma pdf_run_after_text pdf_path w w1 text w2 :
  PdfLib.path_exists lib pdf_path w = (Ok true, w1) ->
  PDFProcessorTool._extract_text lib pdf_path w1 = (Ok text, w2) ->
  let images := PDFProcessorTool._extract_images lib pdf_path w2 in
  let metadata := PDFProcessorTool._extract_metadata lib pdf_path images.2 in
  exists page_count,
    PDFProcessorTool._run lib pdf_path w
    = (Ok (PDFExtractionResult.mk text images.1 metadata.1 page_count
             (len (PyStr.words text))), metadata.2)
    /\ (metadata.1 !! "page_count" = None /\ page_count = 0
        \/ metadata.1 !! "page_count" = Some (MInt page_count)).
Proof.
  intros Hfound Htext images metadata.
  destruct (page_count_of_known metadata.1) as [n [Hn Hcases]];
    [apply extract_metadata_page_count|].
  exists n. split; [|done].
  unfold PDFProcessorTool._run, mbind, io_bind. rewrite Hfound. simpl.
  rewrite Htext. subst metadata images.
  destruct (PDFProcessorTool._extract_images lib pdf_path w2) as [imgs w3]. simpl in *.
  destruct (PDFProcessorTool._extract_metadata lib pdf_path w3) as [md w4]. simpl in *.
  unfold lift_result. by rewrite Hn.
Qed.

(** X17: [PDFProcessorTool._run] fails only before the images and the
    metadata are looked at: when the file is missing, or when the text
    extraction raises.  Once the text is extracted the tool returns it,
    with its word count, whatever happens while the images and the
    metadata are read; the page count is the ["page_count"] entry of the
    metadata, and 0 when the metadata have none. *)
Theorem pdf_run_needs_only_the_text pdf_path w :
  let found := PdfLib.path_exists lib pdf_path w in
  let run := PDFProcessorTool._run lib pdf_path w in
  (forall e, found.1 = Raise e -> run = (Raise e, found.2))
  /\ (found.1 = Ok false ->
      run = (Raise (OSError ("PDF file not found: " +:+ pdf_path)), found.2))
  /\ (found.1 = Ok true ->
      let extracted := PDFProcessorTool._extract_text lib pdf_path found.2 in
      (forall e, extracted.1 = Raise e -> run = (Raise e, extracted.2))
      /\ (forall text, extracted.1 = Ok text ->
            exists r,
              run.1 = Ok r
              /\ PDFExtractionResult.text r = text
              /\ PDFExtractionResult.word_count r = len (PyStr.words text)
              /\ (PDFExtractionResult.metadata r !! "page_count" = None
                  /\ PDFExtractionResult.page_count r = 0
                  \/ PDFExtractionResult.metadata r !! "page_count"
                     = Some (MInt (PDFExtractionResult.page_count r))))).
Proof.
  intros found run. subst found run.
  destruct (PdfLib.path_exists lib pdf_path w) as [[[|]|e] w1] eqn:Hfound; simpl.
  - split; [done|]. split; [done|]. intros _.
    destruct (PDFProcessorTool._extract_text lib pdf_path w1) as [[text|e] w2] eqn:Htext;
      simpl.
    + split; [done|]. intros ? [= <-].
      destruct (pdf_run_after_text pdf_path w w1 text w2 Hfound Htext) as [n [-> Hn]].
      eexists. split; [done|]. by simpl.
    + split; [|done]. intros ? [= <-].
      unfold PDFProcessorTool._run, mbind, io_bind. rewrite Hfound. simpl.
      by rewrite Htext.
  - split; [done|]. split; [|done]. intros _.
    unfold PDFProcessorTool._run, mbind, io_bind. by rewrite Hfound.
  - split; [|done]. intros ? [= <-].
    unfold PDFProcessorTool._run, mbind, io_bind. by rewrite Hfound.
Qed.

Lemma page_loop_texts pages : forall text_parts w texts w',
  io_mapM (PdfLib.extract_text lib) pages w = (Ok texts, w') ->
  io_for (PDFProcessorTool.add_page_text lib) text_parts pages w
  = (Ok (text_parts ++ page_texts texts), w').
Proof.
  induction pages as [|page pages IH]; intros text_parts w texts w'; simpl.
  - intros [= <- <-]. unfold page_texts. simpl. by rewrite app_nil_r.
  - unfold mbind, io_bind, PDFProcessorTool.add_page_text at 1.
    unfold mbind, io_bind.
    destruct (PdfLib.extract_text lib page w) as [[text|e] w1]; [|done]. simpl.
    destruct (io_mapM (PdfLib.extract_text lib) pages w1) as [[texts'|e] w2] eqn:Hrest;
      [|done].
    intros [= <- <-]. rewrite (IH _ _ _ _ Hrest).
    unfold page_texts. rewrite fmap_cons.
    destruct text as [[|c s]|]; cbn [default from_option id].
    + by rewrite filter_cons_False by (intros H; by apply H).
    + rewrite filter_cons_True by done. by rewrite <- app_assoc.
    + by rewrite filter_cons_False by (intros H; by apply H).
Qed.

(** X18: the word count [_run] reports is the number of words on the
    pages: joining the page texts neither merges words across a page
    break nor adds any, and pages without text count for nothing. *)
Theorem pdf_word_count_counts_every_page pdf_path w w1 w2 pages w3 texts w4 w5 :
  PdfLib.path_exists lib pdf_path w = (Ok true, w1) ->
  PdfLib.plumber_open lib pdf_path w1 = (Ok (), w2) ->
  PdfLib.plumber_pages lib w2 = (Ok pages, w3) ->
  io_mapM (PdfLib.extract_text lib) pages w3 = (Ok texts, w4) ->
  PdfLib.plumber_close lib w4 = (Ok (), w5) ->
  exists r w',
    PDFProcessorTool._run lib pdf_path w = (Ok r, w')
    /\ PDFExtractionResult.text r = PyStr.join [10; 10]%N (page_texts texts)
    /\ PyStr.words (PDFExtractionResult.text r)
       = concat ((fun text => PyStr.words (default [] text)) <$> texts)
    /\ PDFExtractionResult.word_count r
       = len (concat ((fun text => PyStr.words (default [] text)) <$> texts)).
Proof.
  intros Hfound Hopen Hpages Htexts Hclose.
  assert (PDFProcessorTool._extract_text lib pdf_path w1
          = (Ok (PyStr.join [10; 10]%N (page_texts texts)), w5)) as Htext.
  { unfold PDFProcessorTool._extract_text, mbind, io_bind, try_finally.
    rewrite Hopen, Hpages. rewrite (page_loop_texts _ _ _ _ _ Htexts).
    by rewrite Hclose. }
  assert (PyStr.words (PyStr.join [10; 10]%N (page_texts texts))
          = concat ((fun text => PyStr.words (default [] text)) <$> texts)) as Hwords.
  { rewrite (words_join 10%N [10%N]) by (done || by repeat constructor).
    unfold page_texts. etrans; [apply words_filter_nonempty|].
    by rewrite <- list_fmap_compose. }
  destruct (pdf_run_after_text pdf_path w w1 _ w5 Hfound Htext) as [n [Hrun _]].
  eexists _, _. split; [exact Hrun|]. simpl. by rewrite Hwords.
Qed.

End PdfProperties.

Lemma pdf_word_count_counts_every_page_witness :
  exists r w',
    PDFProcessorTool._run two_page_pdf "story.pdf" () = (Ok r, w')
    /\ PDFExtractionResult.text r
       = PyStr.join [10; 10]%N (page_texts [Some (PyStr.lit "A robot wakes"); None])
    /\ PyStr.words (PDFExtractionResult.text r)
       = concat ((fun text => PyStr.words (default [] text))
                 <$> [Some (PyStr.lit "A robot wakes"); None])
    /\ PDFExtractionResult.word_count r
       = len (concat ((fun text => PyStr.words (default [] text))
                      <$> [Some (PyStr.lit "A robot wakes"); None])).
Proof.
  apply (pdf_word_count_counts_every_page two_page_pdf "story.pdf" () () () [0; 1] ()
           [Some (PyStr.lit "A robot wakes"); None] () ());
    reflexivity.
Defined.

(** A document whose images and metadata cannot be read still comes back
    with its text, the images found before the failure, and page count 0. *)
Example pdf_run_survives_broken_metadata :
  PDFProcessorTool._run two_page_pdf "story.pdf" ()
  = (Ok (PDFExtractionResult.mk (PyStr.lit "A robot wakes")
           ["page_0_img_0"; "page_0_img_1"] ∅ 0 3), ()).
Proof. vm_compute. reflexivity. Qed.

(** ** The dialogue endpoint *)

Lemma split1_cut sep line :
  sep ∈ line ->
  exists name said,
    PyStr.split1 sep line = [name; said] /\ line = name ++ sep :: said /\ (sep ∉ name).
Proof.
  induction line as [|c line IH]; [by intros ?%elem_of_nil|].
  intros Hin. simpl. destruct (N.eqb_spec c sep) as [->|Hne].
  - exists [], line. split; [done|]. split; [done|]. apply not_elem_of_nil.
  - apply elem_of_cons in Hin as [Heq|Hin]; [congruence|].
    destruct (IH Hin) as [name [said [-> [-> Hname]]]].
    exists (c :: name), said. split; [done|]. split; [done|].
    intros [?|?]%elem_of_cons; [congruence|done].
Qed.

Lemma strip_not_elem (c : N) s : c ∉ s -> c ∉ PyStr.strip s.
Proof.
  intros Hc Hin.
  assert (Forall (fun x => x <> c) s) as Hall
    by (apply Forall_forall; intros x Hx ->; done).
  apply (strip_Forall (fun x => x <> c)) in Hall.
  rewrite Forall_forall in Hall. by apply (Hall c).
Qed.

Lemma parse_line_speaks dialogue line :
  exists entries,
    ApiDialogue.parse_line dialogue line = Ok (dialogue ++ entries)
    /\ Forall2 speaks (filter (fun line => 58%N ∈ line) [line]) entries.
Proof.
  unfold ApiDialogue.parse_line, PyStr.contains.
  rewrite filter_cons, filter_nil. case_bool_decide as Hin.
  - destruct (split1_cut 58%N line Hin) as [name [said [-> [Hline Hname]]]].
    eexists [_]. split; [done|]. rewrite decide_True by done.
    repeat constructor. by exists name, said.
  - exists []. rewrite app_nil_r. split; [done|]. rewrite decide_False by done.
    constructor.
Qed.

Lemma parse_lines_speak lines : forall dialogue,
  exists entries,
    for_each ApiDialogue.parse_line dialogue lines = Ok (dialogue ++ entries)
    /\ Forall2 speaks (filter (fun line => 58%N ∈ line) lines) entries.
Proof.
  induction lines as [|line lines IH]; intros dialogue; simpl.
  - exists []. rewrite app_nil_r. split; [done|constructor].
  - destruct (parse_line_speaks dialogue line) as [entries [-> Hentries]].
    unfold mbind, result_bind.
    destruct (IH (dialogue ++ entries)) as [entries' [-> Hentries']].
    exists (entries ++ entries'). rewrite app_assoc. split; [done|].
    change (line :: lines) with ([line] ++ lines). rewrite filter_app.
    by apply Forall2_app.
Qed.

Lemma speaks_clean line entry :
  Forall (fun c => (10 =? c)%N = false) line -> speaks line entry -> clean_entry entry.
Proof.
  intros Hline [name [said [-> [Hname [Hc Ht]]]]].
  apply Forall_app in Hline as [Hn Hs]. apply Forall_cons in Hs as [_ Hs].
  assert (forall s, Forall (fun c => (10 =? c)%N = false) s -> 10%N ∉ PyStr.strip s) as Hnl.
  { intros s Hall. apply strip_not_elem. intros Hin.
    rewrite Forall_forall in Hall. by specialize (Hall _ Hin). }
  unfold clean_entry. rewrite Hc, Ht, !strip_idemp.
  split; [done|]. split; [done|]. split; [by apply strip_not_elem|]. split; by apply Hnl.
Qed.

Lemma speaking_entries_clean lines entries :
  Forall2 speaks lines entries ->
  Forall (Forall (fun c => (10 =? c)%N = false)) lines ->
  Forall clean_entry entries.
Proof.
  induction 1 as [|line entry lines entries Hs Hall IH]; intros Hlines; [constructor|].
  apply Forall_cons in Hlines as [Hline Hlines].
  constructor; [by apply (speaks_clean line)|by apply IH].
Qed.

Lemma spoken_entries_clean content entries :
  Forall2 speaks (filter (fun line => 58%N ∈ line) (PyStr.split 10 content)) entries ->
  Forall clean_entry entries.
Proof.
  intros Hall. apply (speaking_entries_clean _ _ Hall).
  apply Forall_forall. intros line [_ Hin]%list_elem_of_filter.
  pose proof (split_by_pieces (N.eqb 10) content) as Hp.
  rewrite Forall_forall in Hp. by apply Hp.
Qed.

Section DialogueProperties.
Context {W : Type} (llm_invoke : string -> PyStr.t -> IO W PyStr.t).

(** X19: the dialogue endpoint never answers with an empty dialogue, and
    never fails with anything but status 500. *)
Theorem dialogue_is_never_empty request w :
  match (ApiDialogue.generate_dialogue llm_invoke request w).1 with
  | Ok dialogue => dialogue <> []
  | Raise e => exists detail, e = HTTPException 500 detail
  end.
Proof.
  unfold ApiDialogue.generate_dialogue, try_except, mbind, io_bind.
  destruct (llm_invoke "dialogue" _ w) as [[content|e] w1]; [|simpl; eauto].
  destruct (parse_lines_speak (PyStr.split 10 content) []) as [entries [Hparse _]].
  unfold lift_result at 1. rewrite Hparse. simpl.
  destruct entries as [|entry entries]; [|done].
  destruct (DialogueRequest.characters request); simpl; [eauto|done].
Qed.

(** X20: when the model has answered, every line of the answer that holds
    a colon becomes one entry, in order: the character is what stands
    before the first colon, the text what stands after it, both stripped,
    so that no character holds a colon.  An answer without any colon is
    returned whole as the text of the first character, and is a 500
    "list index out of range" when the request names no character. *)
Theorem dialogue_cuts_lines_at_first_colon request w content w1 :
  llm_invoke "dialogue" (ApiDialogue.dialogue_prompt request) w = (Ok content, w1) ->
  let spoken := filter (fun line => 58%N ∈ line) (PyStr.split 10 content) in
  (spoken <> [] ->
   exists dialogue,
     ApiDialogue.generate_dialogue llm_invoke request w = (Ok dialogue, w1)
     /\ Forall2 speaks spoken dialogue /\ Forall clean_entry dialogue)
  /\ (spoken = [] ->
      ApiDialogue.generate_dialogue llm_invoke request w
      = (match DialogueRequest.characters request with
         | first :: _ => Ok [DialogueLine.mk first content]
         | [] => Raise (HTTPException 500 "list index out of range")
         end, w1)).
Proof.
  intros Hllm spoken.
  destruct (parse_lines_speak (PyStr.split 10 content) []) as [entries [Hparse Hspeak]].
  fold spoken in Hspeak. simpl in Hparse.
  unfold ApiDialogue.generate_dialogue, try_except, mbind, io_bind.
  rewrite Hllm. unfold lift_result at 1. rewrite Hparse. simpl.
  split.
  - intros Hne. exists entries.
    destruct entries as [|entry entries].
    + apply Forall2_nil_inv_r in Hspeak. done.
    + split; [done|]. split; [done|]. by apply (spoken_entries_clean content).
  - intros Hnil. rewrite Hnil in Hspeak. apply Forall2_nil_inv_l in Hspeak. subst entries.
    by destruct (DialogueRequest.characters request).
Qed.

End DialogueProperties.

Lemma dialogue_cuts_lines_at_first_colon_witness :
  let spoken := filter (fun line => 58%N ∈ line) (PyStr.split 10 scripted_answer) in
  (spoken <> [] ->
   exists dialogue,
     ApiDialogue.generate_dialogue scripted_llm robot_request () = (Ok dialogue, ())
     /\ Forall2 speaks spoken dialogue /\ Forall clean_entry dialogue)
  /\ (spoken = [] ->
      ApiDialogue.generate_dialogue scripted_llm robot_request ()
      = (match DialogueRequest.characters robot_request with
         | first :: _ => Ok [DialogueLine.mk first scripted_answer]
         | [] => Raise (HTTPException 500 "list index out of range")
         end, ())).
Proof.
  apply (dialogue_cuts_lines_at_first_colon scripted_llm robot_request () scripted_answer ()).
  reflexivity.
Defined.

(** The scripted answer gives two entries; the second colon of the last
    line stays in the text. *)
Example dialogue_of_scripted_answer :
  ApiDialogue.generate_dialogue scripted_llm robot_request ()
  = (Ok [DialogueLine.mk (PyStr.lit "Robot") (PyStr.lit "Hello");
         DialogueLine.mk (PyStr.lit "Flower") (PyStr.lit "Hi: there")], ()).
Proof. vm_compute. reflexivity. Qed.
